(** * Wind loads: the ASCE 7-22 MWFRS pressure engine

    A shallow embedding of [src/lib/wind.ts] and of the engine part of
    [src/components/WindForm.tsx], with the properties of the engine
    proved over it.

    Numbers.  A JavaScript [number] that the engine does arithmetic on is
    embedded as a real number: [+ - * /] are the field operations of [R],
    [Math.min]/[Math.max] are [Rmin]/[Rmax], [Math.round x] is
    [floor (x + 1/2)] and [Math.pow x y] is [Rpower x y] (the engine only
    raises strictly positive bases: [10] and [z / zg]).  Binary64 rounding
    of the intermediate results is not part of this model, so it is used
    for what does not hinge on the last bit: orderings, bounds, which
    branch is taken, which height is passed.  The one place where the
    code asks whether a number is finite ([overrideKz]) keeps the
    non-finite values, see [JS.number].

    Where a statement is about the exact value that comes out, the code
    is embedded a second time over IEEE 754 binary64 numbers (module
    [Binary64], on Rocq's primitive floats): [+ - * /] round to nearest,
    ties to even, as JavaScript's do, [Math.round], [Math.floor] and
    [toFixed] are computed exactly from the bits, and [Math.pow], whose
    result ECMA-262 leaves to the engine, is a parameter.

    Text.  A template literal is embedded as the list of its pieces
    ([JS.template]), so that the numbers it formats stay available. *)

From Stdlib Require Import Reals Lra Lia ZArith String List Bool.
From Stdlib Require PrimFloat FloatOps SpecFloat Uint63 DecimalString.
Import ListNotations.
Local Open Scope R_scope.

(* ================================================================== *)
(** * The JavaScript primitives the engine uses *)
(* ================================================================== *)

Module JS.

(** A [number] that may be non-finite. *)
Inductive number : Type :=
| finite (r : R)
| NaN
| Infinity
| NegInfinity.

(** [Number.isFinite] *)
Definition Number_isFinite (x : number) : bool :=
  match x with
  | finite _ => true
  | _ => false
  end.

(** [a ?? b] on an optional property. *)
Definition nullish {A : Type} (o : option A) (d : A) : A :=
  match o with
  | Some v => v
  | None => d
  end.

(** [Math.floor], [Math.round] (ties go up), [Math.pow], [Math.min],
    [Math.max]. *)
Definition Math_floor (x : R) : R := IZR (Int_part x).
Definition Math_round (x : R) : R := IZR (Int_part (x + / 2)).
Definition Math_pow (x y : R) : R := Rpower x y.
Definition Math_min (x y : R) : R := Rmin x y.
Definition Math_max (x y : R) : R := Rmax x y.

(** The comparisons [<=], [<] and [!==] as booleans. *)
Definition leb (x y : R) : bool := if Rle_dec x y then true else false.
Definition ltb (x y : R) : bool := if Rlt_dec x y then true else false.
Definition neqb (x y : R) : bool := if Req_dec_T x y then false else true.

(** The pieces of a template literal: literal text, [${s}] for a
    string, [${x.toFixed(d)}] and [${x}] for a number. *)
Inductive fragment : Type :=
| Text (s : string)
| Fixed (x : R) (digits : nat)
| Num (x : R).

Definition template : Type := list fragment.

End JS.

Notation "o ?? d" := (JS.nullish o d) (at level 45, left associativity).
Infix "<=?" := JS.leb (at level 70, no associativity) : R_scope.
Infix "<?" := JS.ltb (at level 70, no associativity) : R_scope.
Infix "!==" := JS.neqb (at level 70, no associativity) : R_scope.

(* ================================================================== *)
(** * src/lib/wind.ts *)
(* ================================================================== *)

Module Wind.
Import JS.

(** [type ExposureCategory = "B" | "C" | "D"] *)
Inductive ExposureCategory : Type := B | C | D.

(** [type RiskCategory = "I" | "II" | "III" | "IV"].  The value is a
    string at run time and [getImportanceFactor] has a [default:]
    branch for strings outside the union, so the embedding keeps the
    string. *)
Definition RiskCategory : Type := string.
Bind Scope string_scope with RiskCategory.

Record WindInput : Type := {
  windSpeedMph : R;
  exposure : ExposureCategory;
  heightFt : R;
  directionalityFactor : option R;
  topographicFactor : option R;
  riskCategory : option RiskCategory;
  overrideKz : option number;
  khFactor : option R
}.

Record WindResult : Type := {
  velocityPressurePsf : R;
  pressureNotes : list template
}.

Definition roundTo (value decimals : R) : R :=
  let factor := Math_pow 10 decimals in
  Math_round (value * factor) / factor.

Definition getAlpha (exposure : ExposureCategory) : R :=
  match exposure with
  | B => 7.0
  | C => 9.5
  | D => 11.5
  end.

Definition getZg (exposure : ExposureCategory) : R :=
  match exposure with
  | B => 1200
  | C => 900
  | D => 700
  end.

Definition getImportanceFactor (riskCategory : RiskCategory) : R :=
  if String.eqb riskCategory "I" then 0.87
  else if String.eqb riskCategory "II" then 1.0
  else if String.eqb riskCategory "III" then 1.15
  else if String.eqb riskCategory "IV" then 1.15
  else 1.0.

Definition getKz (exposure : ExposureCategory) (heightFt : R) : R :=
  let z := Math_max 15 (Math_min heightFt 500) in
  let alpha := getAlpha exposure in
  let zg := getZg exposure in
  let kz := 2.01 * Math_pow (z / zg) (2 / alpha) in
  roundTo kz 3.

(** The three notes [calculateVelocityPressure] can push. *)
Definition factorSummaryNote (riskCategory : RiskCategory)
    (kd kzt importance kz kh : R) : template :=
  [Text "Risk Cat "; Text riskCategory; Text ": Kd="; Fixed kd 2;
   Text ", Kzt="; Fixed kzt 2; Text ", I="; Fixed importance 2;
   Text ", Kz="; Fixed kz 3; Text ", Kh="; Fixed kh 2].

Definition overrideNote (computedKz : R) : template :=
  [Text "Manual Kz override used (auto was "; Fixed computedKz 3; Text ")"].

Definition formulaNote : template :=
  [Text "Formula: qz = 0.00256 * Kz * Kzt * Ke * V^2 * I (psf)"].

(** The effective Kz:
    [Number.isFinite(input.overrideKz ?? NaN) ? (input.overrideKz as number) : computedKz] *)
Definition effectiveKz (overrideKz : option number) (computedKz : R) : R :=
  match overrideKz ?? NaN with
  | finite k => k
  | _ => computedKz
  end.

Definition calculateVelocityPressure (input : WindInput) : WindResult :=
  let kd := input.(directionalityFactor) ?? 0.85 in
  let kzt := input.(topographicFactor) ?? 1.0 in
  let riskCategory := input.(riskCategory) ?? "II"%string in
  let importance := getImportanceFactor riskCategory in
  let computedKz := getKz input.(exposure) input.(heightFt) in
  let kz := effectiveKz input.(overrideKz) computedKz in
  let kh := input.(khFactor) ?? 1.0 in
  let qzBase :=
    0.00256 * kz * kzt * kh * input.(windSpeedMph) * input.(windSpeedMph) in
  let qz := qzBase * importance in
  let pressureNotes := [] in
  let pressureNotes :=
    pressureNotes ++ [factorSummaryNote riskCategory kd kzt importance kz kh] in
  let pressureNotes :=
    if kz !== computedKz
    then pressureNotes ++ [overrideNote computedKz]
    else pressureNotes in
  let pressureNotes := pressureNotes ++ [formulaNote] in
  {| velocityPressurePsf := roundTo qz 3;
     pressureNotes := pressureNotes |}.

(** [getGcpiEnclosed] *)
Record Gcpi : Type := { positive : R; negative : R }.

Definition getGcpiEnclosed : Gcpi :=
  {| positive := 0.18; negative := -0.18 |}.

End Wind.

(* ================================================================== *)
(** * src/components/WindForm.tsx: the engine part *)
(* ================================================================== *)

Module WindForm.
Import JS.

(** [type RoofType = "flat" | "sloped"] and
    [type BuildingEnclosure = "enclosed" | "partially_enclosed"] *)
Inductive RoofType : Type := flat | sloped.
Inductive BuildingEnclosure : Type := enclosed | partially_enclosed.

(** An entry [{ label, value }] of the result lists; [value] is a
    number or a string. *)
Inductive ItemValue : Type :=
| NumberValue (x : R)
| TextValue (t : template).

Record Item : Type := { label : template; value : ItemValue }.

(** The string [`${a.toFixed(2)}, ${b.toFixed(2)} psf`]. *)
Definition psfPair (a b : R) : ItemValue :=
  TextValue [Fixed a 2; Text ", "; Fixed b 2; Text " psf"].

Record WallCp : Type := { windward : R; leeward : R; sidewall : R }.

Definition calculateWallCpValues (roofL roofB : R) : WallCp :=
  let lbRatio := roofL / roofB in
  let windwardCp := 0.8 in
  let leewardCp :=
    if lbRatio <=? 1.0 then -0.5
    else if lbRatio <=? 2.0 then
      -0.5 + (lbRatio - 1.0) * (-0.3 - (-0.5)) / (2.0 - 1.0)
    else if lbRatio <=? 4.0 then
      -0.3 + (lbRatio - 2.0) * (-0.2 - (-0.3)) / (4.0 - 2.0)
    else -0.2 in
  let sidewallCp := -0.7 in
  {| windward := windwardCp; leeward := leewardCp; sidewall := sidewallCp |}.

(** The object [calculateRoofCpValues] returns has the properties
    [zone1, zone2, zone3] for a flat roof and [windward, leeward] for a
    sloped one. *)
Inductive RoofCp : Type :=
| FlatRoofCp (zone1 zone2 zone3 : R)
| SlopedRoofCp (windward leeward : R).

Definition calculateRoofCpValues (roofType : RoofType) (roofL roofB : R)
  : RoofCp :=
  let lbRatio := roofL / roofB in
  match roofType with
  | flat =>
      let '(zone1Cp, zone3Cp) := (0.8, -0.7) in
      let '(zone1Cp, zone3Cp) :=
        if lbRatio <=? 0.5 then (0.8, -0.7)
        else if lbRatio <=? 1.0 then (0.7, -0.6)
        else if lbRatio <=? 2.0 then (0.6, -0.5)
        else (0.5, -0.4) in
      FlatRoofCp zone1Cp 0.5 zone3Cp
  | sloped => SlopedRoofCp 0.3 (-0.7)
  end.

Record RoofResult : Type := {
  pressures : list Item;
  cpValues : RoofCp
}.

(** The two arms read the properties of [cpValues] that belong to
    [roofType]; [calculateRoofCpValues] always returns that variant, so
    the last arm is not reached (see [calculateRoofPressures_variant]). *)
Definition calculateRoofPressures (roofType : RoofType) (qz kd : R)
    (gcpi : Wind.Gcpi) (roofL roofB gustFactor : R) : RoofResult :=
  let q := qz * kd in
  let cpValues := calculateRoofCpValues roofType roofL roofB in
  match roofType, cpValues with
  | flat, FlatRoofCp zone1 zone2 zone3 =>
      let zone1Width := Math_min (roofB * 0.2) (roofL * 0.1) in
      let zone2Width := roofB - zone1Width in
      {| pressures :=
           [ {| label := [Text "Roof Zone 1 (windward edge, ";
                          Fixed zone1Width 1; Text "ft)"];
                value := psfPair
                  ((q * gustFactor * zone1) - (q * gcpi.(Wind.positive)))
                  ((q * gustFactor * zone1) - (q * gcpi.(Wind.negative))) |};
             {| label := [Text "Roof Zone 2 (middle, ";
                          Fixed zone2Width 1; Text "ft)"];
                value := psfPair
                  ((q * gustFactor * zone2) - (q * gcpi.(Wind.positive)))
                  ((q * gustFactor * zone2) - (q * gcpi.(Wind.negative))) |};
             {| label := [Text "Roof Zone 3 (leeward edge, ";
                          Fixed zone1Width 1; Text "ft)"];
                value := psfPair
                  ((q * gustFactor * zone3) - (q * gcpi.(Wind.positive)))
                  ((q * gustFactor * zone3) - (q * gcpi.(Wind.negative))) |} ];
         cpValues := cpValues |}
  | sloped, SlopedRoofCp windward leeward =>
      {| pressures :=
           [ {| label := [Text "Windward slope (positive)"];
                value := psfPair
                  ((q * gustFactor * windward) - (q * gcpi.(Wind.positive)))
                  ((q * gustFactor * windward) - (q * gcpi.(Wind.negative))) |};
             {| label := [Text "Leeward slope (negative)"];
                value := psfPair
                  ((q * gustFactor * leeward) - (q * gcpi.(Wind.positive)))
                  ((q * gustFactor * leeward) - (q * gcpi.(Wind.negative))) |} ];
         cpValues := cpValues |}
  | _, _ => {| pressures := []; cpValues := cpValues |}
  end.

Definition calculateGustEffectFactor (exposure : Wind.ExposureCategory)
    (heightFt : R) : R :=
  0.85.

Definition getGcpiValues (buildingEnclosure : BuildingEnclosure) : Wind.Gcpi :=
  match buildingEnclosure with
  | enclosed => {| Wind.positive := 0.18; Wind.negative := -0.18 |}
  | partially_enclosed => {| Wind.positive := 0.55; Wind.negative := -0.55 |}
  end.

(** [FormState].  A text field holds the finite number [Number(field)];
    [manualKz] is [None] for the empty text, which the code tests for
    (the comparison of [form.manualKz] with the empty string). *)
Record FormState : Type := {
  windSpeedMph : R;
  exposure : Wind.ExposureCategory;
  numStories : R;
  storyHeightFt : R;
  directionalityFactor : R;
  riskCategory : Wind.RiskCategory;
  roofType : RoofType;
  buildingEnclosure : BuildingEnclosure;
  roofLength : R;
  roofWidth : R;
  wallEvaluationHeight : R;
  useManualKz : bool;
  manualKz : option R
}.

(** [Number(form.manualKz)]; [Number] of the empty string is [0]. *)
Definition Number_manualKz (form : FormState) : R :=
  match form.(manualKz) with
  | Some k => k
  | None => 0
  end.

Definition manualKz_nonempty (form : FormState) : bool :=
  match form.(manualKz) with
  | Some _ => true
  | None => false
  end.

(** [isValid]; the [isFinite] and [Number.isInteger] conjuncts hold for
    every number of this embedding. *)
Definition isValid (form : FormState) : bool :=
  let v := form.(windSpeedMph) in
  let n := Math_floor form.(numStories) in
  let sh := form.(storyHeightFt) in
  let kd := form.(directionalityFactor) in
  let roofL := form.(roofLength) in
  let roofB := form.(roofWidth) in
  let wallHeight := form.(wallEvaluationHeight) in
  (0 <? v) && (v <? 300) &&
  (1 <=? n) && (n <=? 200) &&
  (4 <? sh) && (sh <=? 20) &&
  (0 <? kd) && (kd <=? 1) &&
  (0 <? roofL) && (roofL <=? 1000) &&
  (0 <? roofB) && (roofB <=? 1000) &&
  (0 <? wallHeight) && (wallHeight <=? n * sh) &&
  (negb form.(useManualKz) ||
     (manualKz_nonempty form &&
      (0.3 <? Number_manualKz form) && (Number_manualKz form <? 3))).

Definition exposureText (exposure : Wind.ExposureCategory) : string :=
  match exposure with
  | Wind.B => "B"
  | Wind.C => "C"
  | Wind.D => "D"
  end.

Record Diagram : Type := {
  diagramNumStories : R;
  diagramStoryHeightFt : R;
  perStoryPressuresPsf : list R
}.

Record Results : Type := {
  summaryItems : list Item;
  storyPressures : list Item;
  wallPressures : list Item;
  roofPressuresGrouped : list Item;
  diagram : option Diagram;
  gcpi : option Wind.Gcpi
}.

(** The velocity pressure of story [i] (1-based), at its mid-height. *)
Definition storyResult (form : FormState) (i : nat) : Wind.WindResult :=
  let sh := form.(storyHeightFt) in
  let midZ := (INR i - 0.5) * sh in
  Wind.calculateVelocityPressure
    {| Wind.windSpeedMph := form.(windSpeedMph);
       Wind.exposure := form.(exposure);
       Wind.heightFt := midZ;
       Wind.directionalityFactor := Some form.(directionalityFactor);
       Wind.topographicFactor := None;
       Wind.riskCategory := Some form.(riskCategory);
       Wind.overrideKz :=
         if form.(useManualKz) && manualKz_nonempty form
         then Some (finite (Number_manualKz form)) else None;
       Wind.khFactor := None |}.

(** [topResult]: the call at [lastMidZ]. *)
Definition topResult (form : FormState) : Wind.WindResult :=
  let n := Math_floor form.(numStories) in
  let sh := form.(storyHeightFt) in
  let lastMidZ := (n - 0.5) * sh in
  Wind.calculateVelocityPressure
    {| Wind.windSpeedMph := form.(windSpeedMph);
       Wind.exposure := form.(exposure);
       Wind.heightFt := lastMidZ;
       Wind.directionalityFactor := Some form.(directionalityFactor);
       Wind.topographicFactor := None;
       Wind.riskCategory := Some form.(riskCategory);
       Wind.overrideKz :=
         if form.(useManualKz)
         then Some (finite (Number_manualKz form)) else None;
       Wind.khFactor := None |}.

(** [wallResult]: the call at [wallEvaluationHeight]. *)
Definition wallResult (form : FormState) : Wind.WindResult :=
  Wind.calculateVelocityPressure
    {| Wind.windSpeedMph := form.(windSpeedMph);
       Wind.exposure := form.(exposure);
       Wind.heightFt := form.(wallEvaluationHeight);
       Wind.directionalityFactor := Some form.(directionalityFactor);
       Wind.topographicFactor := None;
       Wind.riskCategory := Some form.(riskCategory);
       Wind.overrideKz :=
         if form.(useManualKz)
         then Some (finite (Number_manualKz form)) else None;
       Wind.khFactor := None |}.

Definition emptyResults : Results :=
  {| summaryItems := []; storyPressures := []; wallPressures := [];
     roofPressuresGrouped := []; diagram := None; gcpi := None |}.

(** The body of the second [useMemo] of [WindForm]. *)
Definition computeResults (form : FormState) : Results :=
  if negb (isValid form) then emptyResults else
  let n := Math_floor form.(numStories) in
  let sh := form.(storyHeightFt) in
  let v := form.(windSpeedMph) in
  let kd := form.(directionalityFactor) in
  let exposure := form.(exposure) in
  let riskCategory := form.(riskCategory) in
  let perStoryPressuresPsf :=
    map (fun i => Wind.velocityPressurePsf (storyResult form i))
        (seq 1 (Z.to_nat (Int_part form.(numStories)))) in
  let totalHeight := n * sh in
  let topResult := topResult form in
  let gcpi := getGcpiValues form.(buildingEnclosure) in
  let gustFactor := calculateGustEffectFactor exposure totalHeight in
  let roofResult :=
    calculateRoofPressures form.(roofType)
      topResult.(Wind.velocityPressurePsf) kd gcpi
      form.(roofLength) form.(roofWidth) gustFactor in
  let roofPressures := roofResult.(pressures) in
  let wallCpValues :=
    calculateWallCpValues form.(roofLength) form.(roofWidth) in
  let wallCpSummaryItems :=
    [ {| label := [Text "Wall Cp Windward"];
         value := NumberValue wallCpValues.(windward) |};
      {| label := [Text "Wall Cp Leeward"];
         value := NumberValue wallCpValues.(leeward) |};
      {| label := [Text "Wall Cp Sidewalls"];
         value := NumberValue wallCpValues.(sidewall) |} ] in
  let summaryItems :=
    [ {| label := [Text "Stories"]; value := NumberValue n |};
      {| label := [Text "Story height (ft)"]; value := NumberValue sh |};
      {| label := [Text "Total height (ft)"]; value := NumberValue totalHeight |};
      {| label := [Text "V (mph)"]; value := NumberValue v |};
      {| label := [Text "Exposure"];
         value := TextValue [Text (exposureText exposure)] |};
      {| label := [Text "Risk Category"];
         value := TextValue [Text riskCategory] |};
      {| label := [Text "Kd"]; value := NumberValue kd |};
      {| label := [Text "G (Gust Factor)"]; value := NumberValue gustFactor |};
      {| label := [Text "Gcpi (+)"];
         value := NumberValue gcpi.(Wind.positive) |};
      {| label := [Text "Gcpi (-)"];
         value := NumberValue gcpi.(Wind.negative) |};
      {| label := [Text "Top story qz (psf)"];
         value := NumberValue topResult.(Wind.velocityPressurePsf) |} ]
    ++ wallCpSummaryItems in
  let storyPressures :=
    map (fun '(idx, p) =>
           {| label := [Text "Story "; Num (INR idx + 1); Text " qz (psf)"];
              value := NumberValue p |})
        (combine (seq 0 (length perStoryPressuresPsf)) perStoryPressuresPsf) in
  let roofPressuresGrouped :=
    map (fun p => {| label := p.(label); value := p.(value) |}) roofPressures in
  let wallEvaluationHeight := form.(wallEvaluationHeight) in
  let wallResult := wallResult form in
  let q := wallResult.(Wind.velocityPressurePsf) in
  let qi := topResult.(Wind.velocityPressurePsf) in
  let wallPressures :=
    [ {| label := [Text "Windward wall pressure (at ";
                   Num wallEvaluationHeight; Text "ft)"];
         value := psfPair
           ((q * gustFactor * wallCpValues.(windward))
              - (qi * gcpi.(Wind.positive)))
           ((q * gustFactor * wallCpValues.(windward))
              - (qi * gcpi.(Wind.negative))) |};
      {| label := [Text "Leeward wall pressure (at ";
                   Num wallEvaluationHeight; Text "ft)"];
         value := psfPair
           ((q * gustFactor * wallCpValues.(leeward))
              - (qi * gcpi.(Wind.positive)))
           ((q * gustFactor * wallCpValues.(leeward))
              - (qi * gcpi.(Wind.negative))) |};
      {| label := [Text "Sidewall pressure (at ";
                   Num wallEvaluationHeight; Text "ft)"];
         value := psfPair
           ((q * gustFactor * wallCpValues.(sidewall))
              - (qi * gcpi.(Wind.positive)))
           ((q * gustFactor * wallCpValues.(sidewall))
              - (qi * gcpi.(Wind.negative))) |} ] in
  {| summaryItems := summaryItems;
     storyPressures := storyPressures;
     wallPressures := wallPressures;
     roofPressuresGrouped := roofPressuresGrouped;
     diagram :=
       Some {| diagramNumStories := n; diagramStoryHeightFt := sh;
               perStoryPressuresPsf := perStoryPressuresPsf |};
     gcpi := Some gcpi |}.

(** The form as [useState] initialises it. *)
Definition initialForm : FormState :=
  {| windSpeedMph := 115;
     exposure := Wind.B;
     numStories := 3;
     storyHeightFt := 10;
     directionalityFactor := 0.85;
     riskCategory := "II"%string;
     roofType := flat;
     buildingEnclosure := enclosed;
     roofLength := 100;
     roofWidth := 50;
     wallEvaluationHeight := 15;
     useManualKz := false;
     manualKz := None |}.

End WindForm.

(* ================================================================== *)
(** * The coefficient tables in binary64 *)
(* ================================================================== *)

(** The comparisons, interpolations and zone widths of WindForm.tsx once
    more, over IEEE 754 binary64 numbers with round-to-nearest-even, the
    arithmetic JavaScript runs them in.  They evaluate the concrete
    scenarios of the specification bit for bit. *)

Module Binary64.
Import PrimFloat.
Local Open Scope float_scope.
#[local] Set Warnings "-inexact-float".

(** [Math.min]: NaN if an argument is NaN, and [-0] below [+0]. *)
Definition Math_min (x y : float) : float :=
  if is_nan x || is_nan y then nan
  else if x <? y then x
  else if y <? x then y
  else if get_sign x then x else y.

Record WallCp : Type := { windward : float; leeward : float; sidewall : float }.

Definition calculateWallCpValues (roofL roofB : float) : WallCp :=
  let lbRatio := roofL / roofB in
  let windwardCp := 0.8 in
  let leewardCp :=
    if lbRatio <=? 1.0 then -0.5
    else if lbRatio <=? 2.0 then
      -0.5 + (lbRatio - 1.0) * (-0.3 - (-0.5)) / (2.0 - 1.0)
    else if lbRatio <=? 4.0 then
      -0.3 + (lbRatio - 2.0) * (-0.2 - (-0.3)) / (4.0 - 2.0)
    else -0.2 in
  let sidewallCp := -0.7 in
  {| windward := windwardCp; leeward := leewardCp; sidewall := sidewallCp |}.

(** [zone1Width] and [zone2Width] of [calculateRoofPressures]. *)
Definition roofZoneWidths (roofL roofB : float) : float * float :=
  let zone1Width := Math_min (roofB * 0.2) (roofL * 0.1) in
  let zone2Width := roofB - zone1Width in
  (zone1Width, zone2Width).

(** ** The primitives of wind.ts *)

(** [Math.max]: NaN if an argument is NaN, and [+0] above [-0]. *)
Definition Math_max (x y : float) : float :=
  if is_nan x || is_nan y then nan
  else if x <? y then y
  else if y <? x then x
  else if get_sign x then y else x.

(** [Number.isFinite] *)
Definition Number_isFinite (x : float) : bool :=
  negb (is_nan x || is_infinity x).

(** The whole number [z] as a float; exact for [|z| < 2^53]. *)
Definition of_Z (z : Z) : float :=
  match z with
  | Z0 => 0
  | Zpos _ => of_uint63 (Uint63.of_Z z)
  | Zneg magnitude => - of_uint63 (Uint63.of_Z (Zpos magnitude))
  end.

(** [Math.floor]: the greatest whole number that is not above [x], read
    off the mantissa [m] and the exponent [e] of [x = +/- m * 2^e].  A
    float with [0 <= e], NaN, an infinity and a zero are returned as they
    are. *)
Definition Math_floor (x : float) : float :=
  match FloatOps.Prim2SF x with
  | SpecFloat.S754_finite negative m e =>
      if (0 <=? e)%Z then x
      else
        let q := Z.shiftr (Zpos m) (- e) in
        if negative then
          if (Z.shiftl q (- e) =? Zpos m)%Z then x else of_Z (- (q + 1))
        else of_Z q
  | _ => x
  end.

(** [Math.round]: the nearest whole number, a tie going up.  NaN, the
    infinities and the zeros are returned as they are, and [-0] is the
    result for [-0.5 <= x < 0].  The difference [x - Math.floor x] is
    exact. *)
Definition Math_round (x : float) : float :=
  if is_nan x || is_infinity x || is_zero x then x
  else if (-0.5 <=? x) && (x <? 0) then -0
  else
    let f := Math_floor x in
    if x - f <? 0.5 then f else f + 1.

(** The decimal digits of the whole number [n], with a point before the
    last [fractionDigits] of them and zeros in front where there are too
    few. *)
Fixpoint zeros (count : nat) : string :=
  match count with
  | O => EmptyString
  | S count => ("0" ++ zeros count)%string
  end.

Definition withPoint (n : Z) (fractionDigits : nat) : string :=
  let m := DecimalString.NilZero.string_of_uint (N.to_uint (Z.to_N n)) in
  match fractionDigits with
  | O => m
  | _ =>
      let k := String.length m in
      let m :=
        if (k <=? fractionDigits)%nat
        then (zeros (fractionDigits + 1 - k) ++ m)%string else m in
      let k := String.length m in
      (substring 0 (k - fractionDigits) m ++ "."
       ++ substring (k - fractionDigits) fractionDigits m)%string
  end.

(** [x.toFixed(fractionDigits)]: the digits of the whole number [n] for
    which [n / 10^fractionDigits] is nearest to [|x|], the larger one of
    two, after the sign of a negative [x].  From [1e21] on, [toFixed]
    hands over to the exponent notation, which is not embedded
    ([None]). *)
Definition toFixed (x : float) (fractionDigits : nat) : option string :=
  match FloatOps.Prim2SF x with
  | SpecFloat.S754_nan => Some "NaN"%string
  | SpecFloat.S754_infinity negative =>
      Some (if negative then "-Infinity" else "Infinity")%string
  | SpecFloat.S754_zero _ => Some (withPoint 0 fractionDigits)
  | SpecFloat.S754_finite negative m e =>
      if 1e21 <=? abs x then None
      else
        let scaled := (Zpos m * 10 ^ Z.of_nat fractionDigits)%Z in
        let n :=
          if (0 <=? e)%Z then Z.shiftl scaled e
          else ((2 * scaled + Z.shiftl 1 (- e)) / Z.shiftl 2 (- e))%Z in
        Some ((if negative then "-" else "") ++ withPoint n fractionDigits)%string
  end.

(** The pieces of a template literal. *)
Inductive fragment : Type :=
| Text (s : string)
| Fixed (x : float) (digits : nat).

Definition template : Type := list fragment.

(** ** wind.ts *)

Record WindInput : Type := {
  windSpeedMph : float;
  exposure : Wind.ExposureCategory;
  heightFt : float;
  directionalityFactor : option float;
  topographicFactor : option float;
  riskCategory : option Wind.RiskCategory;
  overrideKz : option float;
  khFactor : option float
}.

Record WindResult : Type := {
  velocityPressurePsf : float;
  pressureNotes : list template
}.

Definition getAlpha (exposure : Wind.ExposureCategory) : float :=
  match exposure with
  | Wind.B => 7.0
  | Wind.C => 9.5
  | Wind.D => 11.5
  end.

Definition getZg (exposure : Wind.ExposureCategory) : float :=
  match exposure with
  | Wind.B => 1200
  | Wind.C => 900
  | Wind.D => 700
  end.

Definition getImportanceFactor (riskCategory : Wind.RiskCategory) : float :=
  if String.eqb riskCategory "I" then 0.87
  else if String.eqb riskCategory "II" then 1.0
  else if String.eqb riskCategory "III" then 1.15
  else if String.eqb riskCategory "IV" then 1.15
  else 1.0.

Definition factorSummaryNote (riskCategory : Wind.RiskCategory)
    (kd kzt importance kz kh : float) : template :=
  [Text "Risk Cat "; Text riskCategory; Text ": Kd="; Fixed kd 2;
   Text ", Kzt="; Fixed kzt 2; Text ", I="; Fixed importance 2;
   Text ", Kz="; Fixed kz 3; Text ", Kh="; Fixed kh 2].

Definition overrideNote (computedKz : float) : template :=
  [Text "Manual Kz override used (auto was "; Fixed computedKz 3; Text ")"].

Definition formulaNote : template :=
  [Text "Formula: qz = 0.00256 * Kz * Kzt * Ke * V^2 * I (psf)"].

Section Engine.

(** ECMA-262 asks of [Math.pow] only an approximation that the engine
    chooses, so the engine's function is a parameter of what calls it. *)
Variable Math_pow : float -> float -> float.

Definition roundTo (value decimals : float) : float :=
  let factor := Math_pow 10 decimals in
  Math_round (value * factor) / factor.

Definition getKz (exposure : Wind.ExposureCategory) (heightFt : float) : float :=
  let z := Math_max 15 (Math_min heightFt 500) in
  let alpha := getAlpha exposure in
  let zg := getZg exposure in
  let kz := 2.01 * Math_pow (z / zg) (2 / alpha) in
  roundTo kz 3.

Definition calculateVelocityPressure (input : WindInput) : WindResult :=
  let kd := input.(directionalityFactor) ?? 0.85 in
  let kzt := input.(topographicFactor) ?? 1.0 in
  let riskCategory := input.(riskCategory) ?? "II"%string in
  let importance := getImportanceFactor riskCategory in
  let computedKz := getKz input.(exposure) input.(heightFt) in
  let kz :=
    if Number_isFinite (input.(overrideKz) ?? nan)
    then input.(overrideKz) ?? nan else computedKz in
  let kh := input.(khFactor) ?? 1.0 in
  let qzBase :=
    0.00256 * kz * kzt * kh * input.(windSpeedMph) * input.(windSpeedMph) in
  let qz := qzBase * importance in
  let pressureNotes := [] in
  let pressureNotes :=
    pressureNotes ++ [factorSummaryNote riskCategory kd kzt importance kz kh] in
  let pressureNotes :=
    if negb (kz =? computedKz)
    then pressureNotes ++ [overrideNote computedKz]
    else pressureNotes in
  let pressureNotes := pressureNotes ++ [formulaNote] in
  {| velocityPressurePsf := roundTo qz 3;
     pressureNotes := pressureNotes |}.

End Engine.

(** ** The zone labels of a flat roof *)

(** A label [`${before}${x.toFixed(1)}${after}`]. *)
Definition label (before : string) (x : float) (after : string)
  : option string :=
  option_map (fun digits => (before ++ digits ++ after)%string) (toFixed x 1).

(** [calculateRoofPressures], flat roof: the labels of the three
    entries. *)
Definition roofZoneLabels (roofL roofB : float) : list (option string) :=
  let zone1Width := Math_min (roofB * 0.2) (roofL * 0.1) in
  let zone2Width := roofB - zone1Width in
  [label "Roof Zone 1 (windward edge, " zone1Width "ft)";
   label "Roof Zone 2 (middle, " zone2Width "ft)";
   label "Roof Zone 3 (leeward edge, " zone1Width "ft)"].

(** [handleRenderImage] of RoofDiagram.tsx, flat roof: the texts of the
    three zone labels it writes. *)
Definition diagramZoneLabels (roofLength roofWidth : float)
  : list (option string) :=
  let diagramWidth := 200 in
  let diagramHeight := 20 in
  let scale :=
    Math_min (diagramWidth / roofLength) (diagramHeight / roofWidth) in
  let scaledL := roofLength * scale in
  let scaledB := roofWidth * scale in
  let zone1Width := Math_min (scaledB * 0.2) (scaledL * 0.1) in
  let zone2Width := scaledB - zone1Width in
  [label "Zone 1 (" (zone1Width / scale) "ft)";
   label "Zone 2 (" (zone2Width / scale) "ft)";
   label "Zone 3 (" (zone1Width / scale) "ft)"].

End Binary64.

(* ================================================================== *)
(** * The specification's vocabulary *)
(* ================================================================== *)

Module Spec.

(** Round to 3 decimal places, half up. *)
Definition round3 (x : R) : R := IZR (Int_part (x * 1000 + / 2)) / 1000.

(** Clamp to the closed interval [[lo, hi]]. *)
Definition clamp (x lo hi : R) : R :=
  if Rlt_dec x lo then lo else if Rlt_dec hi x then hi else x.

(** The importance factor table, with its default. *)
Definition importanceTable : list (string * R) :=
  [("I"%string, 0.87); ("II"%string, 1.0);
   ("III"%string, 1.15); ("IV"%string, 1.15)].

Definition importanceFactor (riskCategory : string) : R :=
  match find (fun entry => String.eqb (fst entry) riskCategory)
             importanceTable with
  | Some entry => snd entry
  | None => 1.0
  end.

(** [p = q * G * Cp - q_i * Gcpi] *)
Definition composePressure (q q_i G Cp Gcpi : R) : R :=
  q * G * Cp - q_i * Gcpi.

(** The design pair: [composePressure] once with [Gcpi.positive] and once
    with [Gcpi.negative], as the code formats it. *)
Definition composedPair (q q_i G Cp : R) (gcpi : Wind.Gcpi) : WindForm.ItemValue :=
  WindForm.psfPair (composePressure q q_i G Cp gcpi.(Wind.positive))
                   (composePressure q q_i G Cp gcpi.(Wind.negative)).

(** The same input with another directionality factor. *)
Definition withKd (input : Wind.WindInput) (kd : option R) : Wind.WindInput :=
  {| Wind.windSpeedMph := input.(Wind.windSpeedMph);
     Wind.exposure := input.(Wind.exposure);
     Wind.heightFt := input.(Wind.heightFt);
     Wind.directionalityFactor := kd;
     Wind.topographicFactor := input.(Wind.topographicFactor);
     Wind.riskCategory := input.(Wind.riskCategory);
     Wind.overrideKz := input.(Wind.overrideKz);
     Wind.khFactor := input.(Wind.khFactor) |}.

(** The same form with another directionality factor. *)
Definition formWithKd (form : WindForm.FormState) (kd : R) : WindForm.FormState :=
  {| WindForm.windSpeedMph := form.(WindForm.windSpeedMph);
     WindForm.exposure := form.(WindForm.exposure);
     WindForm.numStories := form.(WindForm.numStories);
     WindForm.storyHeightFt := form.(WindForm.storyHeightFt);
     WindForm.directionalityFactor := kd;
     WindForm.riskCategory := form.(WindForm.riskCategory);
     WindForm.roofType := form.(WindForm.roofType);
     WindForm.buildingEnclosure := form.(WindForm.buildingEnclosure);
     WindForm.roofLength := form.(WindForm.roofLength);
     WindForm.roofWidth := form.(WindForm.roofWidth);
     WindForm.wallEvaluationHeight := form.(WindForm.wallEvaluationHeight);
     WindForm.useManualKz := form.(WindForm.useManualKz);
     WindForm.manualKz := form.(WindForm.manualKz) |}.

(** The width a roof-zone label reports: the number it formats. *)
Definition reportedWidth (item : WindForm.Item) : option R :=
  match item.(WindForm.label) with
  | [JS.Text _; JS.Fixed width _; JS.Text _] => Some width
  | _ => None
  end.

(** The documented ranges of the fields of a [WindInput] other than
    [overrideKz] (section 3 of the specification). *)
Definition inDocumentedRanges (input : Wind.WindInput) : Prop :=
  0 < input.(Wind.windSpeedMph) < 300 /\
  0 < input.(Wind.heightFt) /\
  (forall kd, input.(Wind.directionalityFactor) = Some kd -> 0 < kd <= 1) /\
  (forall kzt, input.(Wind.topographicFactor) = Some kzt -> 1 <= kzt).

(** The scenario of section 8: V = 115 mph, exposure B, 15 ft,
    Kzt = Kh = 1, risk category II, Kd = 0.85, with an optional override. *)
Definition scenarioInput (overrideKz : option JS.number) : Wind.WindInput :=
  {| Wind.windSpeedMph := 115;
     Wind.exposure := Wind.B;
     Wind.heightFt := 15;
     Wind.directionalityFactor := Some 0.85;
     Wind.topographicFactor := Some 1.0;
     Wind.riskCategory := Some "II"%string;
     Wind.overrideKz := overrideKz;
     Wind.khFactor := Some 1.0 |}.

(** An override-used note is a note that opens with the text of
    [Wind.overrideNote]. *)
Definition isOverrideNote (note : JS.template) : bool :=
  match note with
  | JS.Text opening :: _ =>
      String.eqb opening "Manual Kz override used (auto was "
  | _ => false
  end.

Definition hasOverrideNote (notes : list JS.template) : bool :=
  existsb isOverrideNote notes.

(** The input the form passes to [calculateVelocityPressure] for a
    height: the argument of the [topResult] and [wallResult] calls. *)
Definition formInputAt (form : WindForm.FormState) (heightFt : R)
  : Wind.WindInput :=
  {| Wind.windSpeedMph := form.(WindForm.windSpeedMph);
     Wind.exposure := form.(WindForm.exposure);
     Wind.heightFt := heightFt;
     Wind.directionalityFactor := Some form.(WindForm.directionalityFactor);
     Wind.topographicFactor := None;
     Wind.riskCategory := Some form.(WindForm.riskCategory);
     Wind.overrideKz :=
       if form.(WindForm.useManualKz)
       then Some (JS.finite (WindForm.Number_manualKz form)) else None;
     Wind.khFactor := None |}.

(** The velocity pressure the form gets at a height. *)
Definition qzAt (form : WindForm.FormState) (heightFt : R) : R :=
  Wind.velocityPressurePsf
    (Wind.calculateVelocityPressure (formInputAt form heightFt)).

(** The Cp values of the roof surfaces, in the order of the result list. *)
Definition roofCpList (cp : WindForm.RoofCp) : list R :=
  match cp with
  | WindForm.FlatRoofCp zone1 zone2 zone3 => [zone1; zone2; zone3]
  | WindForm.SlopedRoofCp windward leeward => [windward; leeward]
  end.

(** The Cp values of the wall surfaces, in the order of the result list. *)
Definition wallCpList (cp : WindForm.WallCp) : list R :=
  [cp.(WindForm.windward); cp.(WindForm.leeward); cp.(WindForm.sidewall)].

End Spec.

(** The same vocabulary over binary64. *)
Module Spec64.
Import PrimFloat.
Local Open Scope float_scope.
#[local] Set Warnings "-inexact-float".

(** The importance factor table, with its default. *)
Definition importanceTable : list (string * float) :=
  [("I"%string, 0.87); ("II"%string, 1.0);
   ("III"%string, 1.15); ("IV"%string, 1.15)].

Definition importanceFactor (riskCategory : string) : float :=
  match find (fun entry => String.eqb (fst entry) riskCategory)
             importanceTable with
  | Some entry => snd entry
  | None => 1.0
  end.

(** The same input with another directionality factor. *)
Definition withKd (input : Binary64.WindInput) (kd : option float)
  : Binary64.WindInput :=
  {| Binary64.windSpeedMph := input.(Binary64.windSpeedMph);
     Binary64.exposure := input.(Binary64.exposure);
     Binary64.heightFt := input.(Binary64.heightFt);
     Binary64.directionalityFactor := kd;
     Binary64.topographicFactor := input.(Binary64.topographicFactor);
     Binary64.riskCategory := input.(Binary64.riskCategory);
     Binary64.overrideKz := input.(Binary64.overrideKz);
     Binary64.khFactor := input.(Binary64.khFactor) |}.

(** An input whose product falls just below a tie of the third decimal:
    V = 87.5 mph, exposure B, 15 ft, risk category III. *)
Definition tieInput (overrideKz : option float) : Binary64.WindInput :=
  {| Binary64.windSpeedMph := 87.5;
     Binary64.exposure := Wind.B;
     Binary64.heightFt := 15;
     Binary64.directionalityFactor := None;
     Binary64.topographicFactor := None;
     Binary64.riskCategory := Some "III"%string;
     Binary64.overrideKz := overrideKz;
     Binary64.khFactor := None |}.

(** A [Math.pow] that is known at [10^3] only, the power [roundTo(x, 3)]
    takes, and NaN elsewhere: enough to evaluate an input that brings its
    own Kz. *)
Definition powKnownAt_10_3 (base exponent : float) : float :=
  if (base =? 10) && (exponent =? 3) then 1000 else nan.

End Spec64.

(* ================================================================== *)
(** * One field of an input changed *)
(* ================================================================== *)

Module Vary.

(** The same input at another height. *)
Definition withHeight (input : Wind.WindInput) (heightFt : R) : Wind.WindInput :=
  {| Wind.windSpeedMph := input.(Wind.windSpeedMph);
     Wind.exposure := input.(Wind.exposure);
     Wind.heightFt := heightFt;
     Wind.directionalityFactor := input.(Wind.directionalityFactor);
     Wind.topographicFactor := input.(Wind.topographicFactor);
     Wind.riskCategory := input.(Wind.riskCategory);
     Wind.overrideKz := input.(Wind.overrideKz);
     Wind.khFactor := input.(Wind.khFactor) |}.

(** The same input at another wind speed. *)
Definition withWindSpeed (input : Wind.WindInput) (windSpeedMph : R)
  : Wind.WindInput :=
  {| Wind.windSpeedMph := windSpeedMph;
     Wind.exposure := input.(Wind.exposure);
     Wind.heightFt := input.(Wind.heightFt);
     Wind.directionalityFactor := input.(Wind.directionalityFactor);
     Wind.topographicFactor := input.(Wind.topographicFactor);
     Wind.riskCategory := input.(Wind.riskCategory);
     Wind.overrideKz := input.(Wind.overrideKz);
     Wind.khFactor := input.(Wind.khFactor) |}.

(** The same input in another exposure category. *)
Definition withExposure (input : Wind.WindInput)
    (exposure : Wind.ExposureCategory) : Wind.WindInput :=
  {| Wind.windSpeedMph := input.(Wind.windSpeedMph);
     Wind.exposure := exposure;
     Wind.heightFt := input.(Wind.heightFt);
     Wind.directionalityFactor := input.(Wind.directionalityFactor);
     Wind.topographicFactor := input.(Wind.topographicFactor);
     Wind.riskCategory := input.(Wind.riskCategory);
     Wind.overrideKz := input.(Wind.overrideKz);
     Wind.khFactor := input.(Wind.khFactor) |}.

(** The same form with the manual Kz switched on. *)
Definition withManualKz (form : WindForm.FormState) (kz : R)
  : WindForm.FormState :=
  {| WindForm.windSpeedMph := form.(WindForm.windSpeedMph);
     WindForm.exposure := form.(WindForm.exposure);
     WindForm.numStories := form.(WindForm.numStories);
     WindForm.storyHeightFt := form.(WindForm.storyHeightFt);
     WindForm.directionalityFactor := form.(WindForm.directionalityFactor);
     WindForm.riskCategory := form.(WindForm.riskCategory);
     WindForm.roofType := form.(WindForm.roofType);
     WindForm.buildingEnclosure := form.(WindForm.buildingEnclosure);
     WindForm.roofLength := form.(WindForm.roofLength);
     WindForm.roofWidth := form.(WindForm.roofWidth);
     WindForm.wallEvaluationHeight := form.(WindForm.wallEvaluationHeight);
     WindForm.useManualKz := true;
     WindForm.manualKz := Some kz |}.

End Vary.

(* ================================================================== *)
(** * src/components/RoofDiagram.tsx *)
(* ================================================================== *)

Module RoofDiagram.
Import JS.

(** [interface RoofDiagramProps] *)
Record RoofDiagramProps : Type := {
  roofType : WindForm.RoofType;
  windSpeedMph : R;
  exposure : string;
  heightFt : R;
  velocityPressurePsf : R;
  roofLength : R;
  roofWidth : R
}.

(** [Math.ceil], and [x || d] on a number ([0] is the falsy one). *)
Definition Math_ceil (x : R) : R := IZR (- Int_part (- x)).
Definition orElse (x d : R) : R := if Req_dec_T x 0 then d else x.

(** What the code does to the 2d context: the properties it sets and the
    methods it calls, in order. *)
Inductive CanvasCall : Type :=
| set_fillStyle (style : string)
| set_strokeStyle (style : string)
| set_lineWidth (w : R)
| set_font (font : string)
| set_textBaseline (baseline : string)
| set_textAlign (align : string)
| fillRect (x y w h : R)
| strokeRect (x y w h : R)
| fillText (text : template) (x y : R)
| beginPath
| moveTo (x y : R)
| lineTo (x y : R)
| closePath
| stroke
| fill.

Record Canvas : Type := {
  width : R;
  height : R;
  calls : list CanvasCall
}.

Inductive Exception : Type :=
| ReferenceError (name : string).

(** Statements that draw and may throw: the calls made so far are
    threaded through, an exception stops the rest. *)
Definition Draw (A : Type) : Type :=
  list CanvasCall -> (A + Exception) * list CanvasCall.

Definition ret {A : Type} (a : A) : Draw A := fun drawn => (inl a, drawn).

Definition bind {A B : Type} (c : Draw A) (k : A -> Draw B) : Draw B :=
  fun drawn =>
    match c drawn with
    | (inl a, drawn') => k a drawn'
    | (inr e, drawn') => (inr e, drawn')
    end.

Definition ctx (c : CanvasCall) : Draw unit :=
  fun drawn => (inl tt, drawn ++ [c]).

Definition throw {A : Type} (e : Exception) : Draw A :=
  fun drawn => (inr e, drawn).

Notation "x <- c ;; k" := (bind c (fun x => k))
  (at level 61, c at next level, right associativity).
Notation "c ;; k" := (bind c (fun _ => k))
  (at level 61, right associativity).

(** [for (let i = 0; i < count; i++) body] *)
Fixpoint forLoop (indices : list nat) (body : nat -> Draw unit) : Draw unit :=
  match indices with
  | [] => ret tt
  | i :: rest => body i ;; forLoop rest body
  end.

(** The module declares no [roofHeight] (its props are [roofType],
    [windSpeedMph], [exposure], [heightFt], [velocityPressurePsf],
    [roofLength], [roofWidth]): reading the identifier throws. *)
Definition roofHeight : Draw R := throw (ReferenceError "roofHeight").

Definition titleFont : string :=
  "bold 16px system-ui, -apple-system, Segoe UI, Roboto, Arial".
Definition bodyFont : string :=
  "12px system-ui, -apple-system, Segoe UI, Roboto, Arial".

(** The sizes and positions [handleRenderImage] declares before it draws
    the roof. *)
Record Layout : Type := {
  padding : R;
  diagramWidth : R;
  diagramHeight : R;
  buildingHeight : R;
  totalHeight : R;
  canvasHeight : R;
  startX : R;
  startY : R;
  scale : R;
  scaledL : R;
  scaledB : R;
  roofStartX : R;
  roofStartY : R
}.

Definition layout (props : RoofDiagramProps) (width : R) : Layout :=
  let padding := 16 in
  let diagramWidth := 200 in
  let diagramHeight :=
    match props.(roofType) with WindForm.sloped => 60 | WindForm.flat => 20 end in
  let buildingHeight := 80 in
  let totalHeight := buildingHeight + diagramHeight + 40 in
  let height := padding * 2 + totalHeight in
  let startX := (width - diagramWidth) / 2 in
  let startY := padding + 30 in
  let scale :=
    Math_min (diagramWidth / props.(roofLength))
             (diagramHeight / props.(roofWidth)) in
  let scaledL := props.(roofLength) * scale in
  let scaledB := props.(roofWidth) * scale in
  let roofStartX := startX + (diagramWidth - scaledL) / 2 in
  let roofStartY := startY + (diagramHeight - scaledB) / 2 in
  {| padding := padding; diagramWidth := diagramWidth;
     diagramHeight := diagramHeight; buildingHeight := buildingHeight;
     totalHeight := totalHeight; canvasHeight := height;
     startX := startX; startY := startY; scale := scale;
     scaledL := scaledL; scaledB := scaledB;
     roofStartX := roofStartX; roofStartY := roofStartY |}.

(** [zone1Width] and [zone2Width] of the flat branch, in canvas units. *)
Definition zone1Width (g : Layout) : R :=
  Math_min (g.(scaledB) * 0.2) (g.(scaledL) * 0.1).
Definition zone2Width (g : Layout) : R := g.(scaledB) - zone1Width g.

(** The statements of [handleRenderImage] from the background on. *)
Definition drawDiagram (props : RoofDiagramProps) (width : R) : Draw unit :=
  let g := layout props width in
  let padding := g.(padding) in
  let height := g.(canvasHeight) in
  let diagramWidth := g.(diagramWidth) in
  let diagramHeight := g.(diagramHeight) in
  let buildingHeight := g.(buildingHeight) in
  let startX := g.(startX) in
  let startY := g.(startY) in
  let scale := g.(scale) in
  let scaledL := g.(scaledL) in
  let scaledB := g.(scaledB) in
  let roofStartX := g.(roofStartX) in
  let roofStartY := g.(roofStartY) in
  let roofWidth := props.(roofWidth) in
  (* Background *)
  ctx (set_fillStyle "#ffffff") ;;
  ctx (fillRect 0 0 width height) ;;
  (* Border *)
  ctx (set_strokeStyle "#dddddd") ;;
  ctx (set_lineWidth 1) ;;
  ctx (strokeRect 0.5 0.5 (width - 1) (height - 1)) ;;
  (* Title *)
  ctx (set_font titleFont) ;;
  ctx (set_fillStyle "#111111") ;;
  ctx (set_textBaseline "top") ;;
  ctx (fillText
         [Text "Roof Wind Loads - ";
          Text (match props.(roofType) with
                | WindForm.flat => "Flat"
                | WindForm.sloped => "Sloped"
                end);
          Text " Roof (L="; Num props.(roofLength); Text "ft, B=";
          Num props.(RoofDiagram.roofWidth); Text "ft)"]
         padding padding) ;;
  (* Building walls *)
  ctx (set_strokeStyle "#444") ;;
  ctx (set_lineWidth 2) ;;
  ctx (strokeRect startX (startY + diagramHeight) diagramWidth buildingHeight) ;;
  (* Roof with proper L/B proportions and zone widths *)
  match props.(roofType) with
  | WindForm.flat =>
      ctx (set_strokeStyle "#444") ;;
      ctx (set_lineWidth 2) ;;
      ctx (strokeRect roofStartX roofStartY scaledL scaledB) ;;
      let zone1Width := zone1Width g in
      let zone2Width := zone2Width g in
      (* Zone 1 (windward edge) *)
      ctx (set_fillStyle "rgba(255, 100, 100, 0.3)") ;;
      ctx (fillRect roofStartX roofStartY zone1Width scaledB) ;;
      ctx (set_strokeStyle "#ff6464") ;;
      ctx (set_lineWidth 1) ;;
      ctx (strokeRect roofStartX roofStartY zone1Width scaledB) ;;
      (* Zone 2 (middle) *)
      ctx (set_fillStyle "rgba(100, 255, 100, 0.3)") ;;
      ctx (fillRect (roofStartX + zone1Width) roofStartY zone2Width scaledB) ;;
      ctx (set_strokeStyle "#64ff64") ;;
      ctx (set_lineWidth 1) ;;
      ctx (strokeRect (roofStartX + zone1Width) roofStartY zone2Width scaledB) ;;
      (* Zone 3 (leeward edge) *)
      ctx (set_fillStyle "rgba(100, 100, 255, 0.3)") ;;
      ctx (fillRect (roofStartX + zone1Width + zone2Width) roofStartY
             zone1Width scaledB) ;;
      ctx (set_strokeStyle "#6464ff") ;;
      ctx (set_lineWidth 1) ;;
      ctx (strokeRect (roofStartX + zone1Width + zone2Width) roofStartY
             zone1Width scaledB) ;;
      (* Zone labels with actual dimensions *)
      ctx (set_font bodyFont) ;;
      ctx (set_fillStyle "#333") ;;
      ctx (set_textAlign "center") ;;
      ctx (fillText [Text "Zone 1 ("; Fixed (zone1Width / scale) 1; Text "ft)"]
             (roofStartX + zone1Width / 2) (roofStartY + scaledB / 2)) ;;
      ctx (fillText [Text "Zone 2 ("; Fixed (zone2Width / scale) 1; Text "ft)"]
             (roofStartX + zone1Width + zone2Width / 2)
             (roofStartY + scaledB / 2)) ;;
      ctx (fillText [Text "Zone 3 ("; Fixed (zone1Width / scale) 1; Text "ft)"]
             (roofStartX + zone1Width + zone2Width + zone1Width / 2)
             (roofStartY + scaledB / 2))
  | WindForm.sloped =>
      let slopeAngle := 30 in
      let roofSlope := tan (slopeAngle * PI / 180) in
      let roofTopX := startX + roofWidth / 2 in
      let roofTopY := startY in
      let roofLeftX := startX in
      h <- roofHeight ;;
      let roofLeftY := startY + h in
      let roofRightX := startX + roofWidth in
      h <- roofHeight ;;
      let roofRightY := startY + h in
      (* Roof outline *)
      ctx (set_strokeStyle "#444") ;;
      ctx (set_lineWidth 2) ;;
      ctx beginPath ;;
      ctx (moveTo roofLeftX roofLeftY) ;;
      ctx (lineTo roofTopX roofTopY) ;;
      ctx (lineTo roofRightX roofRightY) ;;
      ctx stroke ;;
      (* Windward slope (positive pressure) *)
      ctx (set_fillStyle "rgba(255, 200, 100, 0.3)") ;;
      ctx beginPath ;;
      ctx (moveTo roofLeftX roofLeftY) ;;
      ctx (lineTo roofTopX roofTopY) ;;
      ctx (lineTo roofTopX roofLeftY) ;;
      ctx closePath ;;
      ctx fill ;;
      ctx (set_strokeStyle "#ffc864") ;;
      ctx (set_lineWidth 1) ;;
      ctx stroke ;;
      (* Leeward slope (negative pressure) *)
      ctx (set_fillStyle "rgba(100, 200, 255, 0.3)") ;;
      ctx beginPath ;;
      ctx (moveTo roofTopX roofTopY) ;;
      ctx (lineTo roofRightX roofRightY) ;;
      ctx (lineTo roofTopX roofRightY) ;;
      ctx closePath ;;
      ctx fill ;;
      ctx (set_strokeStyle "#64c8ff") ;;
      ctx (set_lineWidth 1) ;;
      ctx stroke ;;
      (* Zone labels *)
      ctx (set_font bodyFont) ;;
      ctx (set_fillStyle "#333") ;;
      ctx (fillText [Text "Windward"] (roofLeftX + 10) (roofLeftY - 10)) ;;
      ctx (fillText [Text "Leeward"] (roofTopX + 10) (roofRightY - 10))
  end ;;
  (* Pressure direction arrows *)
  match props.(roofType) with
  | WindForm.flat =>
      h <- roofHeight ;;
      let zoneHeight := h / 3 in
      let arrowLength := 20 in
      (* Zone 1 arrows (positive pressure - inward) *)
      forLoop (seq 0 3) (fun i =>
        let arrowX := startX + 10 + INR i * 15 in
        let arrowY := startY + zoneHeight / 2 in
        ctx (set_strokeStyle "#ff6464") ;;
        ctx (set_lineWidth 2) ;;
        ctx beginPath ;;
        ctx (moveTo arrowX arrowY) ;;
        ctx (lineTo arrowX (arrowY + arrowLength)) ;;
        ctx stroke ;;
        ctx beginPath ;;
        ctx (moveTo arrowX (arrowY + arrowLength)) ;;
        ctx (lineTo (arrowX - 4) (arrowY + arrowLength - 8)) ;;
        ctx (lineTo (arrowX + 4) (arrowY + arrowLength - 8)) ;;
        ctx closePath ;;
        ctx (set_fillStyle "#ff6464") ;;
        ctx fill) ;;
      (* Zone 2 arrows (lower positive pressure) *)
      forLoop (seq 0 4) (fun i =>
        let arrowX := startX + roofWidth * 0.2 + 10 + INR i * 20 in
        let arrowY := startY + zoneHeight / 2 in
        ctx (set_strokeStyle "#64ff64") ;;
        ctx (set_lineWidth 2) ;;
        ctx beginPath ;;
        ctx (moveTo arrowX arrowY) ;;
        ctx (lineTo arrowX (arrowY + arrowLength * 0.7)) ;;
        ctx stroke ;;
        ctx beginPath ;;
        ctx (moveTo arrowX (arrowY + arrowLength * 0.7)) ;;
        ctx (lineTo (arrowX - 3) (arrowY + arrowLength * 0.7 - 6)) ;;
        ctx (lineTo (arrowX + 3) (arrowY + arrowLength * 0.7 - 6)) ;;
        ctx closePath ;;
        ctx (set_fillStyle "#64ff64") ;;
        ctx fill) ;;
      (* Zone 3 arrows (negative pressure - outward) *)
      forLoop (seq 0 2) (fun i =>
        let arrowX := startX + roofWidth * 0.8 + 10 + INR i * 15 in
        let arrowY := startY + zoneHeight / 2 in
        ctx (set_strokeStyle "#6464ff") ;;
        ctx (set_lineWidth 2) ;;
        ctx beginPath ;;
        ctx (moveTo arrowX arrowY) ;;
        ctx (lineTo arrowX (arrowY - arrowLength)) ;;
        ctx stroke ;;
        ctx beginPath ;;
        ctx (moveTo arrowX (arrowY - arrowLength)) ;;
        ctx (lineTo (arrowX - 4) (arrowY - arrowLength + 8)) ;;
        ctx (lineTo (arrowX + 4) (arrowY - arrowLength + 8)) ;;
        ctx closePath ;;
        ctx (set_fillStyle "#6464ff") ;;
        ctx fill)
  | WindForm.sloped =>
      let arrowLength := 25 in
      (* Windward slope arrows (positive pressure - inward) *)
      forLoop (seq 0 3) (fun i =>
        let arrowX := startX + 30 + INR i * 25 in
        h <- roofHeight ;;
        let arrowY := startY + h - 10 in
        ctx (set_strokeStyle "#ffc864") ;;
        ctx (set_lineWidth 2) ;;
        ctx beginPath ;;
        ctx (moveTo arrowX arrowY) ;;
        ctx (lineTo (arrowX + arrowLength * 0.7) (arrowY + arrowLength * 0.7)) ;;
        ctx stroke ;;
        ctx beginPath ;;
        ctx (moveTo (arrowX + arrowLength * 0.7) (arrowY + arrowLength * 0.7)) ;;
        ctx (lineTo (arrowX + arrowLength * 0.7 - 6)
                    (arrowY + arrowLength * 0.7 - 6)) ;;
        ctx (lineTo (arrowX + arrowLength * 0.7 - 6)
                    (arrowY + arrowLength * 0.7 + 6)) ;;
        ctx closePath ;;
        ctx (set_fillStyle "#ffc864") ;;
        ctx fill) ;;
      (* Leeward slope arrows (negative pressure - outward) *)
      forLoop (seq 0 3) (fun i =>
        let arrowX := startX + roofWidth - 30 - INR i * 25 in
        h <- roofHeight ;;
        let arrowY := startY + h - 10 in
        ctx (set_strokeStyle "#64c8ff") ;;
        ctx (set_lineWidth 2) ;;
        ctx beginPath ;;
        ctx (moveTo arrowX arrowY) ;;
        ctx (lineTo (arrowX - arrowLength * 0.7) (arrowY - arrowLength * 0.7)) ;;
        ctx stroke ;;
        ctx beginPath ;;
        ctx (moveTo (arrowX - arrowLength * 0.7) (arrowY - arrowLength * 0.7)) ;;
        ctx (lineTo (arrowX - arrowLength * 0.7 + 6)
                    (arrowY - arrowLength * 0.7 + 6)) ;;
        ctx (lineTo (arrowX - arrowLength * 0.7 + 6)
                    (arrowY - arrowLength * 0.7 - 6)) ;;
        ctx closePath ;;
        ctx (set_fillStyle "#64c8ff") ;;
        ctx fill)
  end ;;
  (* Pressure values *)
  ctx (set_font bodyFont) ;;
  ctx (set_fillStyle "#333") ;;
  let pressureText :=
    [Text "qz = "; Fixed props.(velocityPressurePsf) 2; Text " psf"] in
  h <- roofHeight ;;
  ctx (fillText pressureText startX (startY + h + buildingHeight + 20)).

(** How a call of [handleRenderImage] ends: it returns early, its promise
    is rejected, or it reaches [setDataUrl(canvas.toDataURL(...))]. *)
Inductive Outcome : Type :=
| Returned
| Rejected (e : Exception) (canvas : Canvas)
| DataUrlSet (canvas : Canvas).

(** [handleRenderImage].  [container] is [ref.current] (its
    [clientWidth], or [None] for null) and [hasContext] tells whether
    [canvas.getContext("2d")] gives a context. *)
Definition handleRenderImage (props : RoofDiagramProps)
    (container : option R) (hasContext : bool) : Outcome :=
  match container with
  | None => Returned
  | Some clientWidth =>
      let width := Math_max 360 (Math_ceil (orElse clientWidth 480)) in
      let height := (layout props width).(canvasHeight) in
      if negb hasContext then Returned else
      match drawDiagram props width [] with
      | (inl _, drawn) =>
          DataUrlSet {| width := width; height := height; calls := drawn |}
      | (inr e, drawn) =>
          Rejected e {| width := width; height := height; calls := drawn |}
      end
  end.

(** The component's state [dataUrl] after the effect has run
    [handleRenderImage] once: only [setDataUrl] changes it. *)
Definition dataUrlAfter (before : option Canvas) (outcome : Outcome)
  : option Canvas :=
  match outcome with
  | DataUrlSet canvas => Some canvas
  | _ => before
  end.

End RoofDiagram.

(* ================================================================== *)
(** * src/components/ResultsCard.tsx *)
(* ================================================================== *)

Module ResultsCard.
Import JS.

(** [items[k]] for a number [k]: the element when [k] is a whole number
    within the array, [undefined] otherwise. *)
Definition arrayGet {A : Type} (items : list A) (k : R) : option A :=
  if Req_dec_T (IZR (Int_part k)) k then
    if Rle_dec 0 k then nth_error items (Z.to_nat (Int_part k)) else None
  else None.

(** [interface ResultsCardProps]; [DiagramSpec] is [WindForm.Diagram]. *)
Record ResultsCardProps : Type := {
  title : string;
  items : list WindForm.Item;
  diagram : option WindForm.Diagram;
  showData : option bool
}.

(** Calling [toFixed] on [undefined]. *)
Inductive Exception : Type :=
| TypeError (property : string).

(** [String(it.value)] *)
Definition String_of (value : WindForm.ItemValue) : template :=
  match value with
  | WindForm.NumberValue x => [Num x]
  | WindForm.TextValue t => t
  end.

(** A list entry shows [it.label] and [String(it.value)]; a row of the
    elevation shows [Story {storyNum}:] and, after an arrow,
    [{pressure.toFixed(1)} psf]. *)
Record ListEntry : Type := { entryLabel : template; entryText : template }.
Record StoryRow : Type := { storyNum : R; pressureText : template }.

Record Card : Type := {
  heading : string;
  dataList : option (list ListEntry);
  elevation : option (list StoryRow)
}.

(** The callback of [Array.from({ length: diagram.numStories }, ...)],
    for the indices in order; the first [undefined] pressure throws. *)
Fixpoint storyRows (d : WindForm.Diagram) (indices : list nat)
  : list StoryRow + Exception :=
  match indices with
  | [] => inl []
  | i :: rest =>
      let storyNum := d.(WindForm.diagramNumStories) - INR i in
      match arrayGet d.(WindForm.perStoryPressuresPsf) (storyNum - 1) with
      | None => inr (TypeError "toFixed")
      | Some pressure =>
          match storyRows d rest with
          | inl rows =>
              inl ({| storyNum := storyNum;
                      pressureText := [Fixed pressure 1; Text " psf"] |}
                   :: rows)
          | inr e => inr e
          end
      end
  end.

(** The component: what it renders, or the exception it throws. *)
Definition ResultsCard (props : ResultsCardProps) : Card + Exception :=
  let showData := props.(showData) ?? true in
  let dataList :=
    if showData
    then Some (map (fun it =>
                      {| entryLabel := it.(WindForm.label);
                         entryText := String_of it.(WindForm.value) |})
                   props.(items))
    else None in
  match props.(diagram) with
  | None =>
      inl {| heading := props.(title); dataList := dataList; elevation := None |}
  | Some d =>
      match storyRows d
              (seq 0 (Z.to_nat (Int_part d.(WindForm.diagramNumStories)))) with
      | inl rows =>
          inl {| heading := props.(title); dataList := dataList;
                 elevation := Some rows |}
      | inr e => inr e
      end
  end.

End ResultsCard.

(* ================================================================== *)
(** * src/components/Tabs.tsx *)
(* ================================================================== *)

Module Tabs.
Import JS.

(** [interface TabItem], over the type of the rendered content. *)
Record TabItem (Content : Type) : Type := {
  label : string;
  content : Content
}.
Arguments label {Content}.
Arguments content {Content}.

Record TabsProps (Content : Type) : Type := {
  items : list (TabItem Content);
  initialIndex : option R
}.
Arguments items {Content}.
Arguments initialIndex {Content}.

(** [useState(initialIndex)], with the default [initialIndex = 0]. *)
Definition initialActive {Content : Type} (props : TabsProps Content) : R :=
  props.(initialIndex) ?? 0.

(** [onClick={() => setActive(idx)}] of button [idx]. *)
Definition onClick (idx : nat) (active : R) : R := INR idx.

(** A button shows its label and is highlighted when [active === idx]. *)
Record Button : Type := { buttonLabel : string; highlighted : bool }.

Record View (Content : Type) : Type := {
  buttons : list Button;
  shown : option Content
}.
Arguments buttons {Content}.
Arguments shown {Content}.

(** [items.map((it, idx) => <button ...>)] from index [idx] on. *)
Fixpoint buttonsFrom {Content : Type} (idx : nat)
    (items : list (TabItem Content)) (active : R) : list Button :=
  match items with
  | [] => []
  | it :: rest =>
      {| buttonLabel := it.(label);
         highlighted := if Req_dec_T active (INR idx) then true else false |}
      :: buttonsFrom (S idx) rest active
  end.

(** The render with the state [active]: the buttons and
    [items[active]?.content]. *)
Definition render {Content : Type} (props : TabsProps Content) (active : R)
  : View Content :=
  {| buttons := buttonsFrom 0 props.(items) active;
     shown := option_map content (ResultsCard.arrayGet props.(items) active) |}.

(** The state after a series of clicks. *)
Definition afterClicks {Content : Type} (props : TabsProps Content)
    (clicks : list nat) : R :=
  fold_left (fun active idx => onClick idx active) clicks (initialActive props).

End Tabs.

(* ================================================================== *)
(** * src/components/ErrorBoundary.tsx *)
(* ================================================================== *)

Module ErrorBoundary.

(** [ErrorBoundaryProps] and [ErrorBoundaryState], over the types of the
    rendered nodes and of the caught errors; [None] is [null]. *)
Record ErrorBoundaryProps (Node Err : Type) : Type := {
  children : Node;
  fallback : option (option Err -> Node)
}.
Arguments children {Node Err}.
Arguments fallback {Node Err}.

Record ErrorBoundaryState (Err : Type) : Type := {
  hasError : bool;
  error : option Err
}.
Arguments hasError {Err}.
Arguments error {Err}.

(** The constructor's [this.state]. *)
Definition initialState {Err : Type} : ErrorBoundaryState Err :=
  {| hasError := false; error := None |}.

Definition getDerivedStateFromError {Err : Type} (e : Err)
  : ErrorBoundaryState Err :=
  {| hasError := true; error := Some e |}.

(** What [render] returns: the children, the node of [fallback], or the
    built-in message. *)
Inductive Rendered (Node : Type) : Type :=
| Children (node : Node)
| Fallback (node : Node)
| SomethingWentWrong.
Arguments Children {Node}.
Arguments Fallback {Node}.
Arguments SomethingWentWrong {Node}.

Definition render {Node Err : Type} (props : ErrorBoundaryProps Node Err)
    (state : ErrorBoundaryState Err) : Rendered Node :=
  if state.(hasError) then
    match props.(fallback) with
    | Some f => Fallback (f state.(error))
    | None => SomethingWentWrong
    end
  else Children props.(children).

(** The state after React has reported the errors of a list, in order:
    each report replaces the state by [getDerivedStateFromError]. *)
Definition afterErrors {Err : Type} (errors : list Err) : ErrorBoundaryState Err :=
  fold_left (fun _ e => getDerivedStateFromError e) errors initialState.

End ErrorBoundary.

(* ================================================================== *)
(** * src/components/WindForm.tsx: what the form shows *)
(* ================================================================== *)

Module WindFormView.
Import JS.

(** WindForm.tsx has its own copies of [getAlpha], [getZg] and of the Kz
    formula. *)
Definition getAlpha (exposure : Wind.ExposureCategory) : R :=
  match exposure with
  | Wind.B => 7.0
  | Wind.C => 9.5
  | Wind.D => 11.5
  end.

Definition getZg (exposure : Wind.ExposureCategory) : R :=
  match exposure with
  | Wind.B => 1200
  | Wind.C => 900
  | Wind.D => 700
  end.

Definition calculateKz (exposure : Wind.ExposureCategory) (heightFt : R) : R :=
  let z := Math_max 15 (Math_min heightFt 500) in
  let alpha := getAlpha exposure in
  let zg := getZg exposure in
  let kz := 2.01 * Math_pow (z / zg) (2 / alpha) in
  Math_round (kz * 1000) / 1000.

(** The read-only field [Kz (calculated)]. *)
Definition kzField (form : WindForm.FormState) : template :=
  if WindForm.isValid form
  then [Fixed (calculateKz form.(WindForm.exposure)
                 (Math_floor form.(WindForm.numStories)
                  * form.(WindForm.storyHeightFt))) 3]
  else [Text "---"].

(** The read-only field [Gust Effect Factor G]. *)
Definition gustField (form : WindForm.FormState) : template :=
  if WindForm.isValid form
  then [Fixed (WindForm.calculateGustEffectFactor form.(WindForm.exposure)
                 (Math_floor form.(WindForm.numStories)
                  * form.(WindForm.storyHeightFt))) 2]
  else [Text "---"].

(** [item.label === text] for a label without interpolation. *)
Definition labelIs (text : string) (item : WindForm.Item) : bool :=
  match item.(WindForm.label) with
  | [Text l] => String.eqb l text
  | _ => false
  end.

(** A string is falsy when it is empty. *)
Definition emptyText (t : template) : bool :=
  forallb (fun piece =>
             match piece with
             | Text s => String.eqb s EmptyString
             | _ => false
             end) t.

(** The [velocityPressurePsf] passed to [RoofDiagram]:
    [summaryItems.find(item => item.label === "Top story qz (psf)")?.value || 0]. *)
Definition velocityPressureProp (summaryItems : list WindForm.Item)
  : WindForm.ItemValue :=
  match find (labelIs "Top story qz (psf)") summaryItems with
  | Some item =>
      match item.(WindForm.value) with
      | WindForm.NumberValue x => WindForm.NumberValue (RoofDiagram.orElse x 0)
      | WindForm.TextValue t =>
          if emptyText t then WindForm.NumberValue 0 else WindForm.TextValue t
      end
  | None => WindForm.NumberValue 0
  end.

(** The four result cards, rendered when [isValid && diagram]. *)
Definition resultCards (form : WindForm.FormState)
  : list ResultsCard.ResultsCardProps :=
  let results := WindForm.computeResults form in
  match WindForm.isValid form, results.(WindForm.diagram) with
  | true, Some diagram =>
      [ {| ResultsCard.title := "Building Parameters";
           ResultsCard.items := results.(WindForm.summaryItems);
           ResultsCard.diagram := Some diagram;
           ResultsCard.showData := Some false |};
        {| ResultsCard.title := "Story Pressures";
           ResultsCard.items := results.(WindForm.storyPressures);
           ResultsCard.diagram := None;
           ResultsCard.showData := None |};
        {| ResultsCard.title := "Wall Pressures";
           ResultsCard.items := results.(WindForm.wallPressures);
           ResultsCard.diagram := None;
           ResultsCard.showData := None |};
        {| ResultsCard.title := "Roof Pressures";
           ResultsCard.items := results.(WindForm.roofPressuresGrouped);
           ResultsCard.diagram := None;
           ResultsCard.showData := None |} ]
  | _, _ => []
  end.

End WindFormView.

(* ================================================================== *)
(** * Basic facts about the primitives *)
(* ================================================================== *)

Import JS.

Lemma leb_true_iff (x y : R) : (x <=? y) = true <-> x <= y.
Proof. unfold leb. destruct (Rle_dec x y); split; intros; auto; discriminate. Qed.

Lemma leb_false_iff (x y : R) : (x <=? y) = false <-> y < x.
Proof.
  unfold leb. destruct (Rle_dec x y); split; intros; try discriminate; auto; lra.
Qed.

Lemma ltb_true_iff (x y : R) : (x <? y) = true <-> x < y.
Proof. unfold ltb. destruct (Rlt_dec x y); split; intros; auto; discriminate. Qed.

Lemma ltb_false_iff (x y : R) : (x <? y) = false <-> y <= x.
Proof.
  unfold ltb. destruct (Rlt_dec x y); split; intros; try discriminate; auto; lra.
Qed.

Lemma neqb_true_iff (x y : R) : (x !== y) = true <-> x <> y.
Proof.
  unfold neqb. destruct (Req_dec_T x y); split; intros; auto; try discriminate;
    try contradiction.
Qed.

Lemma neqb_false_iff (x y : R) : (x !== y) = false <-> x = y.
Proof.
  unfold neqb. destruct (Req_dec_T x y); split; intros; auto; try discriminate;
    try contradiction.
Qed.

Lemma neqb_refl (x : R) : (x !== x) = false.
Proof. now apply neqb_false_iff. Qed.

(** Decide the comparisons of a goal whose operands are numerals. *)
Ltac decide_cmp :=
  repeat match goal with
    | |- context [?x <=? ?y] =>
        first [ replace (x <=? y) with true
                  by (symmetry; apply leb_true_iff; lra)
              | replace (x <=? y) with false
                  by (symmetry; apply leb_false_iff; lra) ]
    | |- context [?x <? ?y] =>
        first [ replace (x <? y) with true
                  by (symmetry; apply ltb_true_iff; lra)
              | replace (x <? y) with false
                  by (symmetry; apply ltb_false_iff; lra) ]
    end.

(** [Math.floor] and [Math.round] on a known value. *)
Lemma Int_part_unique (x : R) (z : Z) :
  IZR z <= x < IZR z + 1 -> Int_part x = z.
Proof.
  intros [Hlo Hhi]. symmetry. apply Int_part_spec. lra.
Qed.

Lemma Math_floor_IZR (z : Z) : Math_floor (IZR z) = IZR z.
Proof. unfold Math_floor. f_equal. apply Int_part_unique. lra. Qed.

Lemma Math_round_unique (x : R) (z : Z) :
  IZR z - / 2 <= x < IZR z + / 2 -> Math_round x = IZR z.
Proof.
  intros H. unfold Math_round. f_equal. apply Int_part_unique. lra.
Qed.

Lemma Int_part_le (x y : R) : x <= y -> (Int_part x <= Int_part y)%Z.
Proof.
  intros Hxy.
  destruct (base_Int_part x) as [Hx1 Hx2], (base_Int_part y) as [Hy1 Hy2].
  apply Z.lt_succ_r, lt_IZR. rewrite succ_IZR. lra.
Qed.

Lemma Math_round_le (x y : R) : x <= y -> Math_round x <= Math_round y.
Proof.
  intros Hxy. unfold Math_round. apply IZR_le, Int_part_le. lra.
Qed.

Lemma Math_round_nonneg (x : R) : 0 <= x -> 0 <= Math_round x.
Proof.
  intros Hx. replace 0 with (Math_round 0).
  - now apply Math_round_le.
  - apply (Math_round_unique 0 0). lra.
Qed.

(** [Math.pow(10, 3)] *)
Lemma Math_pow_10_3 : Math_pow 10 3 = 1000.
Proof.
  unfold Math_pow. replace 3 with (INR 3) by (simpl; lra).
  rewrite Rpower_pow by lra. simpl. lra.
Qed.

(** The code's [roundTo (_, 3)] is the specification's rounding. *)
Lemma roundTo_3 (x : R) : Wind.roundTo x 3 = Spec.round3 x.
Proof.
  unfold Wind.roundTo, Spec.round3. rewrite Math_pow_10_3. reflexivity.
Qed.

Lemma round3_unique (x : R) (z : Z) :
  IZR z - / 2 <= x * 1000 < IZR z + / 2 -> Spec.round3 x = IZR z / 1000.
Proof.
  intros H. unfold Spec.round3. f_equal. f_equal. apply Int_part_unique. lra.
Qed.

Lemma round3_le (x y : R) : x <= y -> Spec.round3 x <= Spec.round3 y.
Proof.
  intros Hxy. unfold Spec.round3.
  apply Rmult_le_compat_r; [lra|]. apply IZR_le, Int_part_le. lra.
Qed.

Lemma round3_nonneg (x : R) : 0 <= x -> 0 <= Spec.round3 x.
Proof.
  intros Hx. replace 0 with (Spec.round3 0).
  - now apply round3_le.
  - rewrite (round3_unique 0 0) by lra. lra.
Qed.

(** The code's [switch] is the specification's table. *)
Lemma getImportanceFactor_table (riskCategory : string) :
  Wind.getImportanceFactor riskCategory = Spec.importanceFactor riskCategory.
Proof.
  unfold Wind.getImportanceFactor, Spec.importanceFactor, Spec.importanceTable.
  cbn [find fst snd].
  rewrite !(String.eqb_sym _ riskCategory).
  destruct (String.eqb riskCategory "I"); [reflexivity|].
  destruct (String.eqb riskCategory "II"); [reflexivity|].
  destruct (String.eqb riskCategory "III"); [reflexivity|].
  destruct (String.eqb riskCategory "IV"); reflexivity.
Qed.

(* ================================================================== *)
(** * The velocity pressure calculator *)
(* ================================================================== *)

Lemma getImportanceFactor_values :
  Wind.getImportanceFactor "I" = 0.87 /\
  Wind.getImportanceFactor "II" = 1.0 /\
  Wind.getImportanceFactor "III" = 1.15 /\
  Wind.getImportanceFactor "IV" = 1.15 /\
  Wind.getImportanceFactor "V" = 1.0 /\
  Wind.getImportanceFactor "ii" = 1.0.
Proof. repeat split; reflexivity. Qed.

(** The result of [calculateVelocityPressure], field by field. *)
Lemma calculateVelocityPressure_qz (input : Wind.WindInput) :
  Wind.velocityPressurePsf (Wind.calculateVelocityPressure input) =
  Wind.roundTo
    (0.00256
     * Wind.effectiveKz input.(Wind.overrideKz)
         (Wind.getKz input.(Wind.exposure) input.(Wind.heightFt))
     * (input.(Wind.topographicFactor) ?? 1.0)
     * (input.(Wind.khFactor) ?? 1.0)
     * input.(Wind.windSpeedMph) * input.(Wind.windSpeedMph)
     * Wind.getImportanceFactor (input.(Wind.riskCategory) ?? "II"%string)) 3.
Proof. reflexivity. Qed.

Lemma effectiveKz_finite (k computedKz : R) :
  Wind.effectiveKz (Some (finite k)) computedKz = k.
Proof. reflexivity. Qed.

Lemma effectiveKz_not_finite (overrideKz : option number) (computedKz : R) :
  Number_isFinite (overrideKz ?? NaN) = false ->
  Wind.effectiveKz overrideKz computedKz = computedKz.
Proof.
  unfold Wind.effectiveKz. destruct (overrideKz ?? NaN); simpl; auto; discriminate.
Qed.

Section VelocityPressureBinary64.
Import PrimFloat.
Local Open Scope float_scope.
#[local] Set Warnings "-inexact-float".

(** The [switch] of [getImportanceFactor] is the lookup in the table. *)
Lemma getImportanceFactor_table_binary64 (riskCategory : string) :
  Binary64.getImportanceFactor riskCategory
  = Spec64.importanceFactor riskCategory.
Proof.
  unfold Binary64.getImportanceFactor, Spec64.importanceFactor,
    Spec64.importanceTable.
  cbn [find fst snd].
  destruct (String.eqb "I" riskCategory) eqn:H1;
    [apply String.eqb_eq in H1; subst; reflexivity|].
  destruct (String.eqb "II" riskCategory) eqn:H2;
    [apply String.eqb_eq in H2; subst; reflexivity|].
  destruct (String.eqb "III" riskCategory) eqn:H3;
    [apply String.eqb_eq in H3; subst; reflexivity|].
  destruct (String.eqb "IV" riskCategory) eqn:H4;
    [apply String.eqb_eq in H4; subst; reflexivity|].
  rewrite String.eqb_sym, H1, String.eqb_sym, H2, String.eqb_sym, H3,
    String.eqb_sym, H4.
  reflexivity.
Qed.

(** C1.  For every [WindInput], in the arithmetic the code runs in
    (binary64, every product rounded to nearest, [V^2] entering as two
    multiplications by [V], left to right as the code writes them),
    [velocityPressurePsf] is [0.00256 * Kz_effective * Kzt * Kh * V * V * I]
    rounded to 3 decimals the way [roundTo] does it, by
    [Math.round(p * 1000) / 1000]; [I] comes from the table
    [{I: 0.87, II: 1.0, III: 1.15, IV: 1.15}] with default [1.0]; the
    directionality factor Kd does not enter: the result is the same for
    every value of [directionalityFactor].  The engine's [Math.pow] is any
    function that gives [10^3 = 1000]. *)
Theorem C1_velocity_pressure_formula :
  forall (Math_pow : float -> float -> float) (input : Binary64.WindInput),
    Math_pow 10 3 = 1000 ->
    let V := input.(Binary64.windSpeedMph) in
    let Kzt := input.(Binary64.topographicFactor) ?? 1.0 in
    let Kh := input.(Binary64.khFactor) ?? 1.0 in
    let Kz_computed :=
      Binary64.getKz Math_pow input.(Binary64.exposure)
        input.(Binary64.heightFt) in
    let Kz_effective :=
      match input.(Binary64.overrideKz) with
      | Some k => if Binary64.Number_isFinite k then k else Kz_computed
      | None => Kz_computed
      end in
    let I :=
      Spec64.importanceFactor (input.(Binary64.riskCategory) ?? "II"%string) in
    let p := 0.00256 * Kz_effective * Kzt * Kh * V * V * I in
    Binary64.velocityPressurePsf
      (Binary64.calculateVelocityPressure Math_pow input)
      = Binary64.Math_round (p * 1000) / 1000
    /\ forall kd : option float,
         Binary64.velocityPressurePsf
           (Binary64.calculateVelocityPressure Math_pow
              (Spec64.withKd input kd))
         = Binary64.velocityPressurePsf
             (Binary64.calculateVelocityPressure Math_pow input).
Proof.
  intros Math_pow input Hpow V Kzt Kh Kz_computed Kz_effective I p. split.
  - unfold Binary64.calculateVelocityPressure.
    cbn [Binary64.velocityPressurePsf].
    unfold Binary64.roundTo at 1. rewrite Hpow.
    rewrite getImportanceFactor_table_binary64.
    fold V Kzt Kh Kz_computed I.
    replace (if Binary64.Number_isFinite (Binary64.overrideKz input ?? nan)
             then Binary64.overrideKz input ?? nan else Kz_computed)
      with Kz_effective; [reflexivity|].
    unfold Kz_effective.
    destruct (Binary64.overrideKz input) as [k|]; reflexivity.
  - intros kd. reflexivity.
Qed.

(** C1 at V = 87.5 mph, risk category III and Kz = 0.575 (given as an
    override, so that no power but [10^3] is needed): the binary64
    product is 12.960499999999998, just below the tie 12.9605, and the
    result is 12.96. *)
Lemma C1_velocity_pressure_formula_witness :
  Spec64.powKnownAt_10_3 10 3 = 1000 /\
  Binary64.velocityPressurePsf
    (Binary64.calculateVelocityPressure Spec64.powKnownAt_10_3
       (Spec64.tieInput (Some 0.575)))
  = 12.96.
Proof.
  assert (Hpow : Spec64.powKnownAt_10_3 10 3 = 1000) by reflexivity.
  split; [exact Hpow|].
  rewrite (proj1 (C1_velocity_pressure_formula Spec64.powKnownAt_10_3
                    (Spec64.tieInput (Some 0.575)) Hpow)).
  vm_compute. reflexivity.
Defined.

End VelocityPressureBinary64.

(* ================================================================== *)
(** * The exposure coefficient resolver *)
(* ================================================================== *)

Lemma clamp_max_min (heightFt : R) :
  Math_max 15 (Math_min heightFt 500) = Spec.clamp heightFt 15 500.
Proof.
  unfold Math_max, Math_min, Spec.clamp, Rmax, Rmin.
  repeat destruct Rle_dec; repeat destruct Rlt_dec; lra.
Qed.

Lemma clamp_bounds (heightFt : R) : 15 <= Spec.clamp heightFt 15 500 <= 500.
Proof. unfold Spec.clamp. repeat destruct Rlt_dec; lra. Qed.

Lemma clamp_le (h1 h2 : R) :
  h1 <= h2 -> Spec.clamp h1 15 500 <= Spec.clamp h2 15 500.
Proof. intros H. unfold Spec.clamp. repeat destruct Rlt_dec; lra. Qed.

Lemma clamp_inside (heightFt : R) :
  15 <= heightFt <= 500 -> Spec.clamp heightFt 15 500 = heightFt.
Proof. intros H. unfold Spec.clamp. repeat destruct Rlt_dec; lra. Qed.

Lemma getAlpha_pos (exposure : Wind.ExposureCategory) : 0 < Wind.getAlpha exposure.
Proof. destruct exposure; simpl; lra. Qed.

Lemma getZg_pos (exposure : Wind.ExposureCategory) : 0 < Wind.getZg exposure.
Proof. destruct exposure; simpl; lra. Qed.

(** [getKz] with the clamp and the rounding named. *)
Lemma getKz_unfold (exposure : Wind.ExposureCategory) (heightFt : R) :
  Wind.getKz exposure heightFt =
  Spec.round3
    (2.01 * Rpower (Spec.clamp heightFt 15 500 / Wind.getZg exposure)
                   (2 / Wind.getAlpha exposure)).
Proof.
  unfold Wind.getKz. rewrite roundTo_3, clamp_max_min. reflexivity.
Qed.

(** [Math.pow] is only asked for a power of a positive base. *)
Lemma getKz_base_pos (exposure : Wind.ExposureCategory) (heightFt : R) :
  0 < Math_max 15 (Math_min heightFt 500) / Wind.getZg exposure.
Proof.
  rewrite clamp_max_min. pose proof (clamp_bounds heightFt).
  apply Rdiv_lt_0_compat; [lra | apply getZg_pos].
Qed.

Lemma getKz_nonneg (exposure : Wind.ExposureCategory) (heightFt : R) :
  0 <= Wind.getKz exposure heightFt.
Proof.
  rewrite getKz_unfold. apply round3_nonneg.
  apply Rmult_le_pos; [lra|]. left. apply exp_pos.
Qed.

(** The height enters [getKz] through a monotone clamp, a monotone power
    and a monotone rounding. *)
Lemma getKz_monotone (exposure : Wind.ExposureCategory) (h1 h2 : R) :
  h1 <= h2 -> Wind.getKz exposure h1 <= Wind.getKz exposure h2.
Proof.
  intros Hle. rewrite !getKz_unfold. apply round3_le.
  apply Rmult_le_compat_l; [lra|].
  pose proof (getZg_pos exposure) as Hzg.
  pose proof (getAlpha_pos exposure) as Halpha.
  pose proof (clamp_bounds h1) as Hb1.
  pose proof (clamp_le h1 h2 Hle) as Hc.
  apply Rle_Rpower_l.
  - apply Rlt_le, Rdiv_lt_0_compat; [lra | assumption].
  - split.
    + apply Rdiv_lt_0_compat; [lra | assumption].
    + apply Rmult_le_compat_r; [|assumption].
      left. apply Rinv_0_lt_compat. assumption.
Qed.

(** Bounds on a rational power from integer powers: if
    [lo^q <= x^p < hi^q] then [lo <= x^(p/q) < hi]. *)
Lemma Rpower_root_bounds (x lo hi : R) (p q : nat) :
  0 < x -> 0 < lo -> 0 < hi -> (0 < q)%nat ->
  lo ^ q <= x ^ p < hi ^ q ->
  lo <= Rpower x (INR p / INR q) < hi.
Proof.
  intros Hx Hlo Hhi Hq [Hlow Hhigh].
  assert (Hq' : 0 < INR q) by (apply lt_0_INR; exact Hq).
  assert (Hxp : 0 < x ^ p) by (apply pow_lt; exact Hx).
  assert (Eroot : Rpower x (INR p / INR q) = Rpower (x ^ p) (/ INR q)).
  { rewrite <- (Rpower_pow p x Hx), Rpower_mult. reflexivity. }
  assert (Einv : forall y, 0 < y -> Rpower (y ^ q) (/ INR q) = y).
  { intros y Hy. rewrite <- (Rpower_pow q y Hy), Rpower_mult.
    rewrite Rinv_r by lra. apply Rpower_1; exact Hy. }
  rewrite Eroot. split.
  - apply Rle_trans with (Rpower (lo ^ q) (/ INR q)).
    + rewrite Einv by assumption. lra.
    + apply Rle_Rpower_l.
      * left. apply Rinv_0_lt_compat; exact Hq'.
      * split; [apply pow_lt; exact Hlo | exact Hlow].
  - apply Rlt_le_trans with (Rpower (hi ^ q) (/ INR q)).
    + apply Rlt_Rpower_l.
      * apply Rinv_0_lt_compat; exact Hq'.
      * split; assumption.
    + rewrite Einv by assumption. lra.
Qed.

(** Evaluate [getKz] at a height, given the exponent [2 / alpha = p / q],
    bounds [lo, hi) on the power and the rounded thousandths [z]. *)
Ltac eval_getKz lo hi p q z :=
  rewrite getKz_unfold;
  unfold Wind.getAlpha, Wind.getZg;
  rewrite clamp_inside by lra;
  match goal with
  | |- context [Rpower ?x ?e] =>
      replace e with (INR p / INR q) by (simpl; lra);
      let H := fresh "H" in
      assert (H : lo <= Rpower x (INR p / INR q) < hi)
        by (apply Rpower_root_bounds; [lra | lra | lra | lia | lra]);
      rewrite (round3_unique _ z) by lra; lra
  end.

Lemma getKz_B_15 : Wind.getKz Wind.B 15 = 0.575.
Proof. eval_getKz 0.2859 0.2860 2%nat 7%nat 575%Z. Qed.

Lemma getKz_B_25 : Wind.getKz Wind.B 25 = 0.665.
Proof. eval_getKz 0.3308 0.3309 2%nat 7%nat 665%Z. Qed.

Lemma getKz_B_30 : Wind.getKz Wind.B 30 = 0.701.
Proof. eval_getKz 0.34852 0.3486 2%nat 7%nat 701%Z. Qed.

Lemma getKz_B_500 : Wind.getKz Wind.B 500 = 1.565.
Proof. eval_getKz 0.7786 0.7788 2%nat 7%nat 1565%Z. Qed.

Lemma getKz_C_15 : Wind.getKz Wind.C 15 = 0.849.
Proof. eval_getKz 0.4222 0.4225 4%nat 19%nat 849%Z. Qed.

Lemma getKz_D_15 : Wind.getKz Wind.D 15 = 1.03.
Proof. eval_getKz 0.5123 0.5126 4%nat 23%nat 1030%Z. Qed.


(** C9.  For every exposure, the rounded Kz is monotonically
    non-decreasing in the height on [[15, 500]]. *)
Theorem C9_getKz_nondecreasing :
  forall (exposure : Wind.ExposureCategory) (h1 h2 : R),
    15 <= h1 -> h1 <= h2 -> h2 <= 500 ->
    Wind.getKz exposure h1 <= Wind.getKz exposure h2.
Proof.
  intros exposure h1 h2 _ Hle _. now apply getKz_monotone.
Qed.

(** C9 at 25 ft and 30 ft, exposure B. *)
Lemma C9_getKz_nondecreasing_witness :
  15 <= 25 /\ 25 <= 30 /\ 30 <= 500 /\
  Wind.getKz Wind.B 25 <= Wind.getKz Wind.B 30.
Proof.
  assert (H1 : 15 <= 25) by lra.
  assert (H2 : 25 <= 30) by lra.
  assert (H3 : 30 <= 500) by lra.
  repeat split; try assumption.
  exact (C9_getKz_nondecreasing Wind.B 25 30 H1 H2 H3).
Defined.

(** Kz does grow over the interval: the bound of C9 is not an equality. *)
Lemma getKz_B_grows : Wind.getKz Wind.B 15 < Wind.getKz Wind.B 500.
Proof. rewrite getKz_B_15, getKz_B_500. lra. Qed.

(* ================================================================== *)
(** * The Kz override *)
(* ================================================================== *)

(** The notes of [calculateVelocityPressure]: the factor summary, the
    override note when the effective Kz differs from the computed one, the
    formula. *)
Lemma calculateVelocityPressure_notes (input : Wind.WindInput) :
  let riskCategory := input.(Wind.riskCategory) ?? "II"%string in
  let computedKz := Wind.getKz input.(Wind.exposure) input.(Wind.heightFt) in
  let kz := Wind.effectiveKz input.(Wind.overrideKz) computedKz in
  let summary :=
    Wind.factorSummaryNote riskCategory
      (input.(Wind.directionalityFactor) ?? 0.85)
      (input.(Wind.topographicFactor) ?? 1.0)
      (Wind.getImportanceFactor riskCategory) kz
      (input.(Wind.khFactor) ?? 1.0) in
  Wind.pressureNotes (Wind.calculateVelocityPressure input) =
  if kz !== computedKz
  then [summary; Wind.overrideNote computedKz; Wind.formulaNote]
  else [summary; Wind.formulaNote].
Proof.
  cbv zeta. unfold Wind.calculateVelocityPressure. cbn [Wind.pressureNotes].
  destruct (_ !== _); reflexivity.
Qed.

Lemma hasOverrideNote_with (riskCategory : string)
    (kd kzt importance kz kh computedKz : R) :
  Spec.hasOverrideNote
    [Wind.factorSummaryNote riskCategory kd kzt importance kz kh;
     Wind.overrideNote computedKz; Wind.formulaNote] = true.
Proof. reflexivity. Qed.

Lemma hasOverrideNote_without (riskCategory : string)
    (kd kzt importance kz kh : R) :
  Spec.hasOverrideNote
    [Wind.factorSummaryNote riskCategory kd kzt importance kz kh;
     Wind.formulaNote] = false.
Proof. reflexivity. Qed.

(** The override note is there exactly when the effective Kz differs from
    the computed one. *)
Lemma hasOverrideNote_iff (input : Wind.WindInput) :
  let computedKz := Wind.getKz input.(Wind.exposure) input.(Wind.heightFt) in
  Spec.hasOverrideNote (Wind.pressureNotes (Wind.calculateVelocityPressure input))
  = (Wind.effectiveKz input.(Wind.overrideKz) computedKz !== computedKz).
Proof.
  cbv zeta. rewrite calculateVelocityPressure_notes. cbv zeta.
  destruct (_ !== _); reflexivity.
Qed.




Lemma getImportanceFactor_pos (riskCategory : string) :
  0 < Wind.getImportanceFactor riskCategory.
Proof.
  unfold Wind.getImportanceFactor.
  repeat match goal with |- context [String.eqb ?a ?b] =>
    destruct (String.eqb a b) end; lra.
Qed.

(** With every factor in its documented range, the override included, the
    velocity pressure is not negative. *)
Lemma velocityPressure_nonneg (input : Wind.WindInput) :
  Spec.inDocumentedRanges input ->
  (forall k, input.(Wind.overrideKz) = Some (finite k) -> 0.3 < k < 3) ->
  0 <= input.(Wind.khFactor) ?? 1.0 ->
  0 <= Wind.velocityPressurePsf (Wind.calculateVelocityPressure input).
Proof.
  intros (HV & _ & _ & Hkzt) Hov Hkh.
  rewrite calculateVelocityPressure_qz, roundTo_3. apply round3_nonneg.
  assert (Hkz : 0 <= Wind.effectiveKz input.(Wind.overrideKz)
                       (Wind.getKz input.(Wind.exposure) input.(Wind.heightFt))).
  { pose proof (getKz_nonneg input.(Wind.exposure) input.(Wind.heightFt)).
    unfold Wind.effectiveKz.
    destruct (Wind.overrideKz input) as [[k| | |]|]; simpl; try assumption.
    specialize (Hov k eq_refl). lra. }
  assert (Hkzt' : 0 <= input.(Wind.topographicFactor) ?? 1.0).
  { destruct (Wind.topographicFactor input) as [kzt|]; simpl; [|lra].
    specialize (Hkzt kzt eq_refl). lra. }
  pose proof (getImportanceFactor_pos (input.(Wind.riskCategory) ?? "II"%string)).
  do 6 (apply Rmult_le_pos; [|lra]). lra.
Qed.

(** The scenario of section 8 without override: Kz is 0.575 and the
    velocity pressure 19.467 psf. *)
Lemma scenario_velocity_pressure :
  Wind.getKz Wind.B 15 = 0.575 /\
  Wind.velocityPressurePsf
    (Wind.calculateVelocityPressure (Spec.scenarioInput None)) = 19.467.
Proof.
  split; [exact getKz_B_15|].
  rewrite calculateVelocityPressure_qz, roundTo_3.
  cbn [Spec.scenarioInput Wind.exposure Wind.heightFt Wind.overrideKz
       Wind.riskCategory Wind.topographicFactor Wind.khFactor
       Wind.windSpeedMph nullish].
  replace (Wind.getImportanceFactor "II") with 1.0 by reflexivity.
  unfold Wind.effectiveKz. cbn [nullish].
  rewrite getKz_B_15, (round3_unique _ 19467) by lra. lra.
Qed.


(* ================================================================== *)
(** * The pressure-coefficient tables *)
(* ================================================================== *)

(** The leeward wall Cp as a function of [lbRatio = roofL / roofB]. *)
Lemma leeward_cases (roofL roofB : R) :
  let lbRatio := roofL / roofB in
  let cp := WindForm.leeward (WindForm.calculateWallCpValues roofL roofB) in
  (lbRatio <= 1 -> cp = -0.5) /\
  (1 < lbRatio <= 2 ->
     cp = -0.5 + (lbRatio - 1) * (-0.3 - (-0.5)) / (2 - 1)) /\
  (2 < lbRatio <= 4 ->
     cp = -0.3 + (lbRatio - 2) * (-0.2 - (-0.3)) / (4 - 2)) /\
  (4 < lbRatio -> cp = -0.2).
Proof.
  cbv zeta. unfold WindForm.calculateWallCpValues. cbn [WindForm.leeward].
  unfold leb. repeat destruct Rle_dec; repeat split; intros; lra.
Qed.

(** With [roofB = 1] the ratio is [roofL]: the leeward Cp is Lipschitz in
    the ratio, with constant 0.2 (the steeper of the two slopes). *)
Lemma leeward_lipschitz (x y : R) :
  Rabs (WindForm.leeward (WindForm.calculateWallCpValues x 1)
        - WindForm.leeward (WindForm.calculateWallCpValues y 1))
  <= 0.2 * Rabs (x - y).
Proof.
  unfold WindForm.calculateWallCpValues. cbn [WindForm.leeward].
  rewrite !Rdiv_1_r. unfold leb, Rabs.
  repeat destruct Rle_dec; repeat destruct Rcase_abs; lra.
Qed.

Lemma leeward_continuous :
  continuity (fun lbRatio : R =>
                WindForm.leeward (WindForm.calculateWallCpValues lbRatio 1)).
Proof.
  intros x eps Heps. exists (eps * 5). split; [lra|].
  intros y [_ Hdist].
  pose proof (leeward_lipschitz y x) as Hlip.
  cbn [dist R_met] in *. unfold R_dist in *. lra.
Qed.

(** C6.  The leeward wall Cp is [-0.5] up to [lbRatio = 1], linear from
    [-0.5] at 1 to [-0.3] at 2, linear from [-0.3] at 2 to [-0.2] at 4,
    and [-0.2] beyond, each band closed at its upper end; at the band ends
    it is [-0.5], [-0.3] (for L = 100, B = 50) and [-0.2], and it is a
    continuous function of the ratio. *)
Theorem C6_leeward_piecewise_linear_continuous :
  (forall roofL roofB : R,
      let lbRatio := roofL / roofB in
      let cp := WindForm.leeward (WindForm.calculateWallCpValues roofL roofB) in
      (lbRatio <= 1 -> cp = -0.5) /\
      (1 < lbRatio <= 2 ->
         cp = -0.5 + (lbRatio - 1) * (-0.3 - (-0.5)) / (2 - 1)) /\
      (2 < lbRatio <= 4 ->
         cp = -0.3 + (lbRatio - 2) * (-0.2 - (-0.3)) / (4 - 2)) /\
      (4 < lbRatio -> cp = -0.2)) /\
  WindForm.leeward (WindForm.calculateWallCpValues 1 1) = -0.5 /\
  WindForm.leeward (WindForm.calculateWallCpValues 2 1) = -0.3 /\
  WindForm.leeward (WindForm.calculateWallCpValues 100 50) = -0.3 /\
  WindForm.leeward (WindForm.calculateWallCpValues 4 1) = -0.2 /\
  continuity (fun lbRatio : R =>
                WindForm.leeward (WindForm.calculateWallCpValues lbRatio 1)).
Proof.
  split; [exact leeward_cases|].
  split; [apply (leeward_cases 1 1); lra|].
  split; [rewrite (proj1 (proj2 (leeward_cases 2 1))); lra|].
  split; [rewrite (proj1 (proj2 (leeward_cases 100 50))); lra|].
  split; [rewrite (proj1 (proj2 (proj2 (leeward_cases 4 1)))); lra|].
  exact leeward_continuous.
Qed.

(** C6 for L = 150, B = 100: the ratio 1.5 is in the second band. *)
Lemma C6_leeward_piecewise_linear_continuous_witness :
  1 < 150 / 100 <= 2 /\
  WindForm.leeward (WindForm.calculateWallCpValues 150 100) = -0.4.
Proof.
  assert (Hband : 1 < 150 / 100 <= 2) by lra.
  split; [exact Hband|].
  destruct C6_leeward_piecewise_linear_continuous as [Hcases _].
  destruct (Hcases 150 100) as (_ & Hsecond & _).
  rewrite (Hsecond Hband). lra.
Defined.

(** The flat roof Cp as a function of [lbRatio]. *)
Lemma flat_roof_cp_cases (roofL roofB : R) :
  let lbRatio := roofL / roofB in
  let cp := WindForm.calculateRoofCpValues WindForm.flat roofL roofB in
  (lbRatio <= 0.5 -> cp = WindForm.FlatRoofCp 0.8 0.5 (-0.7)) /\
  (0.5 < lbRatio <= 1 -> cp = WindForm.FlatRoofCp 0.7 0.5 (-0.6)) /\
  (1 < lbRatio <= 2 -> cp = WindForm.FlatRoofCp 0.6 0.5 (-0.5)) /\
  (2 < lbRatio -> cp = WindForm.FlatRoofCp 0.5 0.5 (-0.4)).
Proof.
  cbv zeta. unfold WindForm.calculateRoofCpValues.
  unfold leb. repeat destruct Rle_dec; repeat split; intros;
    solve [reflexivity | exfalso; lra].
Qed.

(** C7.  Flat roof: zone 2 has Cp 0.5 and (zone 1, zone 3) step with the
    band of [lbRatio], first match in ascending order:
    [<= 0.5 -> (0.8, -0.7)], [<= 1 -> (0.7, -0.6)], [<= 2 -> (0.6, -0.5)],
    [> 2 -> (0.5, -0.4)].  Sloped roof: windward 0.3, leeward -0.7 for
    every plan. *)
Theorem C7_roof_cp_bands :
  forall roofL roofB : R,
    let lbRatio := roofL / roofB in
    let cp := WindForm.calculateRoofCpValues WindForm.flat roofL roofB in
    (lbRatio <= 0.5 -> cp = WindForm.FlatRoofCp 0.8 0.5 (-0.7)) /\
    (0.5 < lbRatio <= 1 -> cp = WindForm.FlatRoofCp 0.7 0.5 (-0.6)) /\
    (1 < lbRatio <= 2 -> cp = WindForm.FlatRoofCp 0.6 0.5 (-0.5)) /\
    (2 < lbRatio -> cp = WindForm.FlatRoofCp 0.5 0.5 (-0.4)) /\
    WindForm.calculateRoofCpValues WindForm.sloped roofL roofB
      = WindForm.SlopedRoofCp 0.3 (-0.7).
Proof.
  intros roofL roofB lbRatio cp.
  destruct (flat_roof_cp_cases roofL roofB) as (H1 & H2 & H3 & H4).
  repeat split; try assumption.
Qed.

(** C7 for L = 100, B = 50: the ratio 2 is in the third band. *)
Lemma C7_roof_cp_bands_witness :
  1 < 100 / 50 <= 2 /\
  WindForm.calculateRoofCpValues WindForm.flat 100 50
    = WindForm.FlatRoofCp 0.6 0.5 (-0.5).
Proof.
  assert (Hband : 1 < 100 / 50 <= 2) by lra.
  split; [exact Hband|].
  destruct (C7_roof_cp_bands 100 50) as (_ & _ & Hthird & _).
  exact (Hthird Hband).
Defined.

(* ================================================================== *)
(** * Roof pressures and roof zone widths *)
(* ================================================================== *)

Lemma calculateRoofCpValues_flat (roofL roofB : R) :
  exists zone1 zone3 : R,
    WindForm.calculateRoofCpValues WindForm.flat roofL roofB
    = WindForm.FlatRoofCp zone1 0.5 zone3.
Proof.
  unfold WindForm.calculateRoofCpValues.
  repeat destruct (_ <=? _); eexists; eexists; reflexivity.
Qed.

(** [calculateRoofPressures] for a flat roof, once the Cp values are known. *)
Lemma calculateRoofPressures_flat
    (qz kd : R) (gcpi : Wind.Gcpi) (roofL roofB gustFactor zone1 zone2 zone3 : R) :
  WindForm.calculateRoofCpValues WindForm.flat roofL roofB
    = WindForm.FlatRoofCp zone1 zone2 zone3 ->
  let q := qz * kd in
  let zone1Width := Rmin (roofB * 0.2) (roofL * 0.1) in
  let zone2Width := roofB - zone1Width in
  WindForm.pressures
    (WindForm.calculateRoofPressures WindForm.flat qz kd gcpi roofL roofB
       gustFactor)
  = [ {| WindForm.label := [Text "Roof Zone 1 (windward edge, ";
                            Fixed zone1Width 1; Text "ft)"];
         WindForm.value := Spec.composedPair q q gustFactor zone1 gcpi |};
      {| WindForm.label := [Text "Roof Zone 2 (middle, ";
                            Fixed zone2Width 1; Text "ft)"];
         WindForm.value := Spec.composedPair q q gustFactor zone2 gcpi |};
      {| WindForm.label := [Text "Roof Zone 3 (leeward edge, ";
                            Fixed zone1Width 1; Text "ft)"];
         WindForm.value := Spec.composedPair q q gustFactor zone3 gcpi |} ].
Proof.
  intros Hcp. cbv zeta. unfold WindForm.calculateRoofPressures.
  rewrite Hcp. reflexivity.
Qed.

Lemma calculateRoofPressures_sloped
    (qz kd : R) (gcpi : Wind.Gcpi) (roofL roofB gustFactor : R) :
  let q := qz * kd in
  WindForm.pressures
    (WindForm.calculateRoofPressures WindForm.sloped qz kd gcpi roofL roofB
       gustFactor)
  = [ {| WindForm.label := [Text "Windward slope (positive)"];
         WindForm.value := Spec.composedPair q q gustFactor 0.3 gcpi |};
      {| WindForm.label := [Text "Leeward slope (negative)"];
         WindForm.value := Spec.composedPair q q gustFactor (-0.7) gcpi |} ].
Proof. reflexivity. Qed.

(** The arm of [calculateRoofPressures] that reads no Cp is not reached:
    there is one pressure per Cp value. *)
Lemma calculateRoofPressures_variant
    (roofType : WindForm.RoofType) (qz kd : R) (gcpi : Wind.Gcpi)
    (roofL roofB gustFactor : R) :
  let result :=
    WindForm.calculateRoofPressures roofType qz kd gcpi roofL roofB gustFactor in
  WindForm.cpValues result = WindForm.calculateRoofCpValues roofType roofL roofB /\
  length (WindForm.pressures result)
    = length (Spec.roofCpList (WindForm.cpValues result)) /\
  WindForm.pressures result <> [].
Proof.
  cbv zeta. destruct roofType.
  - destruct (calculateRoofCpValues_flat roofL roofB) as (zone1 & zone3 & Hcp).
    rewrite (calculateRoofPressures_flat _ _ _ _ _ _ _ _ _ Hcp).
    unfold WindForm.calculateRoofPressures. rewrite Hcp.
    cbn. repeat split; discriminate.
  - cbn. repeat split; discriminate.
Qed.

Lemma reportedWidths_flat
    (qz kd : R) (gcpi : Wind.Gcpi) (roofL roofB gustFactor : R) :
  let zone1Width := Rmin (0.2 * roofB) (0.1 * roofL) in
  map Spec.reportedWidth
    (WindForm.pressures
       (WindForm.calculateRoofPressures WindForm.flat qz kd gcpi roofL roofB
          gustFactor))
  = [Some zone1Width; Some (roofB - zone1Width); Some zone1Width].
Proof.
  cbv zeta.
  destruct (calculateRoofCpValues_flat roofL roofB) as (zone1 & zone3 & Hcp).
  rewrite (calculateRoofPressures_flat _ _ _ _ _ _ _ _ _ Hcp).
  cbn [map Spec.reportedWidth WindForm.label].
  rewrite (Rmult_comm roofB 0.2), (Rmult_comm roofL 0.1). reflexivity.
Qed.

(** Zones 1 and 2 together span B; with zone 3 the widths exceed B by
    [zone1Width]. *)
Lemma zone_widths_sum (roofL roofB : R) :
  let zone1Width := Rmin (0.2 * roofB) (0.1 * roofL) in
  let zone2Width := roofB - zone1Width in
  zone1Width + zone2Width = roofB /\
  zone1Width + zone2Width + zone1Width = roofB + zone1Width.
Proof. cbv zeta. split; lra. Qed.

Lemma zone1Width_100_50 : Rmin (0.2 * 50) (0.1 * 100) = 10.
Proof. unfold Rmin. destruct Rle_dec; lra. Qed.

(** C8, as stated, fails: for L = 100, B = 50 the three reported widths
    are 10, 40 and 10 ft, which add up to 60 ft and not to B = 50 ft. *)
Lemma C8_counterexample_widths_exceed_B :
  map Spec.reportedWidth
    (WindForm.pressures
       (WindForm.calculateRoofPressures WindForm.flat 22.514 0.85
          (WindForm.getGcpiValues WindForm.enclosed) 100 50 0.85))
  = [Some 10; Some 40; Some 10]
  /\ 10 + 40 + 10 <> 50.
Proof.
  split; [|lra].
  rewrite reportedWidths_flat. cbv zeta. rewrite zone1Width_100_50.
  repeat f_equal; lra.
Qed.

(** C8, amended.  For a flat roof with plan dimensions L and B the three
    reported widths are [zone1Width = min(0.2 * B, 0.1 * L)],
    [zone2Width = B - zone1Width] and, for zone 3, [zone1Width] again; for
    L = 100, B = 50 they are 10 ft, 40 ft and 10 ft. *)
Theorem C8_roof_zone_widths :
  forall (qz kd : R) (gcpi : Wind.Gcpi) (gustFactor : R),
    (forall roofL roofB : R,
        let zone1Width := Rmin (0.2 * roofB) (0.1 * roofL) in
        let zone2Width := roofB - zone1Width in
        let zone3Width := zone1Width in
        map Spec.reportedWidth
          (WindForm.pressures
             (WindForm.calculateRoofPressures WindForm.flat qz kd gcpi
                roofL roofB gustFactor))
        = [Some zone1Width; Some zone2Width; Some zone3Width]) /\
    map Spec.reportedWidth
      (WindForm.pressures
         (WindForm.calculateRoofPressures WindForm.flat qz kd gcpi
            100 50 gustFactor))
    = [Some 10; Some 40; Some 10].
Proof.
  intros qz kd gcpi gustFactor. split.
  - intros roofL roofB. apply reportedWidths_flat.
  - rewrite reportedWidths_flat. cbv zeta. rewrite zone1Width_100_50.
    repeat f_equal; lra.
Qed.

(* ================================================================== *)
(** * The pressure composer *)
(* ================================================================== *)

(** Every roof pressure is composed from [q = qz * kd], for the external
    and for the internal term. *)
Lemma roofPressures_values
    (roofType : WindForm.RoofType) (qz kd : R) (gcpi : Wind.Gcpi)
    (roofL roofB gustFactor : R) :
  map WindForm.value
    (WindForm.pressures
       (WindForm.calculateRoofPressures roofType qz kd gcpi roofL roofB
          gustFactor))
  = map (fun Cp => Spec.composedPair (qz * kd) (qz * kd) gustFactor Cp gcpi)
        (Spec.roofCpList (WindForm.calculateRoofCpValues roofType roofL roofB)).
Proof.
  destruct roofType.
  - destruct (calculateRoofCpValues_flat roofL roofB) as (zone1 & zone3 & Hcp).
    rewrite (calculateRoofPressures_flat _ _ _ _ _ _ _ _ _ Hcp), Hcp.
    reflexivity.
  - rewrite calculateRoofPressures_sloped. reflexivity.
Qed.

Lemma topResult_qzAt (form : WindForm.FormState) :
  Wind.velocityPressurePsf (WindForm.topResult form)
  = Spec.qzAt form
      ((Math_floor form.(WindForm.numStories) - 0.5)
       * form.(WindForm.storyHeightFt)).
Proof. reflexivity. Qed.

Lemma wallResult_qzAt (form : WindForm.FormState) :
  Wind.velocityPressurePsf (WindForm.wallResult form)
  = Spec.qzAt form form.(WindForm.wallEvaluationHeight).
Proof. reflexivity. Qed.

(** The wall and roof pressures of a valid form. *)
Lemma computeResults_wall_values (form : WindForm.FormState) :
  WindForm.isValid form = true ->
  map WindForm.value (WindForm.wallPressures (WindForm.computeResults form))
  = map (fun Cp =>
           Spec.composedPair
             (Wind.velocityPressurePsf (WindForm.wallResult form))
             (Wind.velocityPressurePsf (WindForm.topResult form))
             0.85 Cp (WindForm.getGcpiValues form.(WindForm.buildingEnclosure)))
        (Spec.wallCpList
           (WindForm.calculateWallCpValues
              form.(WindForm.roofLength) form.(WindForm.roofWidth))).
Proof.
  intros Hvalid. unfold WindForm.computeResults. rewrite Hvalid.
  reflexivity.
Qed.

Lemma computeResults_roof_values (form : WindForm.FormState) :
  WindForm.isValid form = true ->
  map WindForm.value
    (WindForm.roofPressuresGrouped (WindForm.computeResults form))
  = map (fun Cp =>
           let q :=
             Wind.velocityPressurePsf (WindForm.topResult form)
             * form.(WindForm.directionalityFactor) in
           Spec.composedPair q q 0.85 Cp
             (WindForm.getGcpiValues form.(WindForm.buildingEnclosure)))
        (Spec.roofCpList
           (WindForm.calculateRoofCpValues form.(WindForm.roofType)
              form.(WindForm.roofLength) form.(WindForm.roofWidth))).
Proof.
  intros Hvalid. unfold WindForm.computeResults. rewrite Hvalid.
  cbn [negb WindForm.roofPressuresGrouped]. rewrite map_map.
  cbn [WindForm.value]. apply roofPressures_values.
Qed.

(** The wall pressures do not depend on the directionality factor. *)
Lemma wall_pressures_independent_of_Kd (form : WindForm.FormState) (kd : R) :
  WindForm.isValid form = true ->
  WindForm.isValid (Spec.formWithKd form kd) = true ->
  map WindForm.value
    (WindForm.wallPressures (WindForm.computeResults (Spec.formWithKd form kd)))
  = map WindForm.value
      (WindForm.wallPressures (WindForm.computeResults form)).
Proof.
  intros Hvalid Hvalid'.
  rewrite !computeResults_wall_values by assumption. reflexivity.
Qed.

(** ** The initial form: 115 mph, exposure B, 3 stories of 10 ft,
       Kd = 0.85, flat roof 100 ft by 50 ft, walls evaluated at 15 ft *)

Lemma isValid_initialForm_any_Kd (kd : R) :
  0 < kd <= 1 ->
  WindForm.isValid (Spec.formWithKd WindForm.initialForm kd) = true.
Proof.
  intros Hkd. unfold WindForm.isValid.
  cbn [Spec.formWithKd WindForm.initialForm WindForm.windSpeedMph
       WindForm.numStories WindForm.storyHeightFt WindForm.directionalityFactor
       WindForm.roofLength WindForm.roofWidth WindForm.wallEvaluationHeight
       WindForm.useManualKz].
  rewrite (Math_floor_IZR 3). decide_cmp. reflexivity.
Qed.

Lemma isValid_initialForm : WindForm.isValid WindForm.initialForm = true.
Proof.
  unfold WindForm.isValid.
  cbn [WindForm.initialForm WindForm.windSpeedMph
       WindForm.numStories WindForm.storyHeightFt WindForm.directionalityFactor
       WindForm.roofLength WindForm.roofWidth WindForm.wallEvaluationHeight
       WindForm.useManualKz].
  rewrite (Math_floor_IZR 3). decide_cmp. reflexivity.
Qed.

(** The velocity pressure the initial form gets at a height, whatever its
    Kd. *)
Lemma qzAt_initialForm (kd heightFt : R) :
  Spec.qzAt (Spec.formWithKd WindForm.initialForm kd) heightFt
  = Spec.round3 (0.00256 * Wind.getKz Wind.B heightFt * 115 * 115).
Proof.
  unfold Spec.qzAt. rewrite calculateVelocityPressure_qz, roundTo_3.
  cbn [Spec.formInputAt Spec.formWithKd WindForm.initialForm
       WindForm.windSpeedMph WindForm.exposure WindForm.riskCategory
       WindForm.useManualKz Wind.windSpeedMph Wind.exposure Wind.heightFt
       Wind.topographicFactor Wind.riskCategory Wind.overrideKz Wind.khFactor
       nullish].
  replace (Wind.getImportanceFactor "II") with 1.0 by reflexivity.
  unfold Wind.effectiveKz. cbn [nullish]. f_equal. lra.
Qed.

Lemma qzAt_initialForm_15 (kd : R) :
  Spec.qzAt (Spec.formWithKd WindForm.initialForm kd) 15 = 19.467.
Proof.
  rewrite qzAt_initialForm, getKz_B_15, (round3_unique _ 19467) by lra. lra.
Qed.

Lemma qzAt_initialForm_25 (kd : R) :
  Spec.qzAt (Spec.formWithKd WindForm.initialForm kd) 25 = 22.514.
Proof.
  rewrite qzAt_initialForm, getKz_B_25, (round3_unique _ 22514) by lra. lra.
Qed.

Lemma qzAt_initialForm_30 (kd : R) :
  Spec.qzAt (Spec.formWithKd WindForm.initialForm kd) 30 = 23.733.
Proof.
  rewrite qzAt_initialForm, getKz_B_30, (round3_unique _ 23733) by lra. lra.
Qed.

Lemma initialForm_Kd : Spec.formWithKd WindForm.initialForm 0.85 = WindForm.initialForm.
Proof. reflexivity. Qed.

(** Two design pairs are equal when their numbers are. *)
Lemma psfPair_eq (a b a' b' : R) :
  a = a' -> b = b' -> WindForm.psfPair a b = WindForm.psfPair a' b'.
Proof. intros -> ->. reflexivity. Qed.

(** The wall pressures of the initial form, for any Kd. *)
Lemma initialForm_wall_values (kd : R) :
  0 < kd <= 1 ->
  map WindForm.value
    (WindForm.wallPressures
       (WindForm.computeResults (Spec.formWithKd WindForm.initialForm kd)))
  = [WindForm.psfPair 9.18504 17.29008;
     WindForm.psfPair (-9.016605) (-0.911565);
     WindForm.psfPair (-15.635385) (-7.530345)].
Proof.
  intros Hkd.
  rewrite computeResults_wall_values by (apply isValid_initialForm_any_Kd; exact Hkd).
  rewrite topResult_qzAt, wallResult_qzAt.
  cbn [Spec.formWithKd WindForm.initialForm WindForm.numStories
       WindForm.storyHeightFt WindForm.wallEvaluationHeight
       WindForm.roofLength WindForm.roofWidth WindForm.buildingEnclosure].
  rewrite (Math_floor_IZR 3).
  replace ((3 - 0.5) * 10) with 25 by lra.
  change (Spec.qzAt _ 15)
    with (Spec.qzAt (Spec.formWithKd WindForm.initialForm kd) 15).
  change (Spec.qzAt _ 25)
    with (Spec.qzAt (Spec.formWithKd WindForm.initialForm kd) 25).
  rewrite qzAt_initialForm_15, qzAt_initialForm_25.
  unfold Spec.wallCpList.
  rewrite (proj1 (proj2 (leeward_cases 100 50))) by lra.
  cbn [map WindForm.calculateWallCpValues WindForm.windward WindForm.sidewall
       WindForm.getGcpiValues].
  unfold Spec.composedPair, Spec.composePressure.
  cbn [Wind.positive Wind.negative].
  repeat (f_equal; try (apply psfPair_eq; lra)).
Qed.

(** The roof pressures of the initial form, for any Kd. *)
Lemma initialForm_roof_values (kd : R) :
  0 < kd <= 1 ->
  map WindForm.value
    (WindForm.roofPressuresGrouped
       (WindForm.computeResults (Spec.formWithKd WindForm.initialForm kd)))
  = [WindForm.psfPair (22.514 * kd * 0.33) (22.514 * kd * 0.69);
     WindForm.psfPair (22.514 * kd * 0.245) (22.514 * kd * 0.605);
     WindForm.psfPair (22.514 * kd * -0.605) (22.514 * kd * -0.245)].
Proof.
  intros Hkd.
  rewrite computeResults_roof_values by (apply isValid_initialForm_any_Kd; exact Hkd).
  rewrite topResult_qzAt.
  cbn [Spec.formWithKd WindForm.initialForm WindForm.numStories
       WindForm.storyHeightFt WindForm.directionalityFactor
       WindForm.roofLength WindForm.roofWidth WindForm.buildingEnclosure
       WindForm.roofType].
  rewrite (Math_floor_IZR 3).
  replace ((3 - 0.5) * 10) with 25 by lra.
  change (Spec.qzAt _ 25)
    with (Spec.qzAt (Spec.formWithKd WindForm.initialForm kd) 25).
  rewrite qzAt_initialForm_25.
  rewrite (proj1 (proj2 (proj2 (flat_roof_cp_cases 100 50)))) by lra.
  cbn [map Spec.roofCpList WindForm.getGcpiValues].
  unfold Spec.composedPair, Spec.composePressure.
  cbn [Wind.positive Wind.negative].
  repeat (f_equal; try (apply psfPair_eq; lra)).
Qed.

(** C2.  The roof reference is not taken at roof height.  The comments
    of the code call the velocity pressure of [topResult] the one at roof
    height (it is the [qi] of the walls and, times Kd, the [q] of the
    roof), but for every valid form it is evaluated at
    [lastMidZ = (n - 0.5) * sh], the mid-height of the top story, which is
    below the roof height [n * sh].  On the initial form (3 stories of
    10 ft, roof height 30 ft) it is 22.514 psf, the value at 25 ft, where
    the roof height gives 23.733 psf.  So the windward wall pair is
    (9.18504, 17.29008) where [p = q * G * Cp - q_i * Gcpi] with [q_i] at
    roof height gives (8.96562, 17.5095), and the roof pressures are not
    the ones at roof height either, whether Kd multiplies the roof's
    velocity pressure or not. *)
Theorem C2_roof_reference_below_roof_height :
  (forall form : WindForm.FormState,
      WindForm.isValid form = true ->
      let roofHeight :=
        Math_floor form.(WindForm.numStories) * form.(WindForm.storyHeightFt) in
      let lastMidZ :=
        (Math_floor form.(WindForm.numStories) - 0.5)
        * form.(WindForm.storyHeightFt) in
      Wind.velocityPressurePsf (WindForm.topResult form)
      = Spec.qzAt form lastMidZ /\
      lastMidZ < roofHeight) /\
  let form := WindForm.initialForm in
  let results := WindForm.computeResults form in
  let gcpi := WindForm.getGcpiValues WindForm.enclosed in
  let stated (q q_i : R) (cps : list R) :=
    map (fun Cp => Spec.composedPair q q_i 0.85 Cp gcpi) cps in
  let roofHeight :=
    Math_floor form.(WindForm.numStories) * form.(WindForm.storyHeightFt) in
  WindForm.isValid form = true /\
  roofHeight = 30 /\
  form.(WindForm.wallEvaluationHeight) = 15 /\
  Spec.qzAt form 15 = 19.467 /\
  Spec.qzAt form roofHeight = 23.733 /\
  Wind.velocityPressurePsf (WindForm.topResult form) = 22.514 /\
  map WindForm.value (WindForm.wallPressures results)
    = [WindForm.psfPair 9.18504 17.29008;
       WindForm.psfPair (-9.016605) (-0.911565);
       WindForm.psfPair (-15.635385) (-7.530345)] /\
  stated (Spec.qzAt form 15) (Spec.qzAt form roofHeight) [0.8; -0.3; -0.7]
    = [WindForm.psfPair 8.96562 17.5095;
       WindForm.psfPair (-9.236025) (-0.692145);
       WindForm.psfPair (-15.854805) (-7.310925)] /\
  map WindForm.value (WindForm.wallPressures results)
    <> stated (Spec.qzAt form 15) (Spec.qzAt form roofHeight)
         [0.8; -0.3; -0.7] /\
  map WindForm.value (WindForm.roofPressuresGrouped results)
    = [WindForm.psfPair 6.315177 13.204461;
       WindForm.psfPair 4.6885405 11.5778245;
       WindForm.psfPair (-11.5778245) (-4.6885405)] /\
  map WindForm.value (WindForm.roofPressuresGrouped results)
    <> stated (Spec.qzAt form roofHeight) (Spec.qzAt form roofHeight)
         [0.6; 0.5; -0.5] /\
  map WindForm.value (WindForm.roofPressuresGrouped results)
    <> stated (Spec.qzAt form roofHeight * 0.85)
         (Spec.qzAt form roofHeight * 0.85) [0.6; 0.5; -0.5].
Proof.
  split.
  { intros form Hvalid roofHeight lastMidZ.
    split; [apply topResult_qzAt|].
    destruct (WindForm.isValid form) eqn:Hv; [|discriminate Hvalid].
    unfold WindForm.isValid in Hv.
    repeat (apply andb_prop in Hv; destruct Hv as [Hv ?]).
    repeat match goal with
      | Hc : (_ <? _) = true |- _ => apply ltb_true_iff in Hc
      | Hc : (_ <=? _) = true |- _ => apply leb_true_iff in Hc
      end.
    unfold roofHeight, lastMidZ. nra. }
  cbv zeta.
  assert (Hkd : 0 < 0.85 <= 1) by lra.
  pose proof (initialForm_roof_values 0.85 Hkd) as Hroof.
  pose proof (initialForm_wall_values 0.85 Hkd) as Hwall.
  pose proof (qzAt_initialForm_15 0.85) as H15.
  pose proof (qzAt_initialForm_25 0.85) as H25.
  pose proof (qzAt_initialForm_30 0.85) as H30.
  rewrite initialForm_Kd in *.
  assert (Hroofheight :
            Math_floor WindForm.initialForm.(WindForm.numStories)
            * WindForm.initialForm.(WindForm.storyHeightFt) = 30).
  { cbn [WindForm.initialForm WindForm.numStories WindForm.storyHeightFt].
    rewrite (Math_floor_IZR 3). lra. }
  assert (Htop : Wind.velocityPressurePsf
                   (WindForm.topResult WindForm.initialForm) = 22.514).
  { rewrite topResult_qzAt.
    cbn [WindForm.initialForm WindForm.numStories WindForm.storyHeightFt].
    rewrite (Math_floor_IZR 3).
    replace ((3 - 0.5) * 10) with 25 by lra. exact H25. }
  rewrite Hroofheight, Hroof, Hwall, H15, H30, Htop.
  unfold Spec.composedPair, Spec.composePressure.
  cbn [map WindForm.getGcpiValues Wind.positive Wind.negative].
  split; [exact isValid_initialForm|].
  do 5 (split; [reflexivity|]).
  split; [reflexivity|].
  split; [repeat (f_equal; try (apply psfPair_eq; lra))|].
  split; [intros Heq; injection Heq; intros; lra|].
  split; [repeat (f_equal; try (apply psfPair_eq; lra))|].
  split; intros Heq; injection Heq; intros; lra.
Qed.

(** C3 on the initial form, with Kd = 0.85 and with Kd = 0.5.  The
    velocity pressures are the same for both (Kd is not in qz), the roof
    pressures scale with Kd, and the wall pressures are the same for both:
    Kd is not a factor of the wall pressures. *)
Theorem C3_wall_pressures_without_Kd :
  let form := WindForm.initialForm in
  let form' := Spec.formWithKd WindForm.initialForm 0.5 in
  let walls := [WindForm.psfPair 9.18504 17.29008;
                WindForm.psfPair (-9.016605) (-0.911565);
                WindForm.psfPair (-15.635385) (-7.530345)] in
  (WindForm.isValid form = true /\ WindForm.isValid form' = true) /\
  (Spec.qzAt form 15 = 19.467 /\ Spec.qzAt form' 15 = 19.467 /\
   Spec.qzAt form 25 = 22.514 /\ Spec.qzAt form' 25 = 22.514) /\
  (map WindForm.value
     (WindForm.roofPressuresGrouped (WindForm.computeResults form))
     = [WindForm.psfPair (22.514 * 0.85 * 0.33) (22.514 * 0.85 * 0.69);
        WindForm.psfPair (22.514 * 0.85 * 0.245) (22.514 * 0.85 * 0.605);
        WindForm.psfPair (22.514 * 0.85 * -0.605) (22.514 * 0.85 * -0.245)] /\
   map WindForm.value
     (WindForm.roofPressuresGrouped (WindForm.computeResults form'))
     = [WindForm.psfPair (22.514 * 0.5 * 0.33) (22.514 * 0.5 * 0.69);
        WindForm.psfPair (22.514 * 0.5 * 0.245) (22.514 * 0.5 * 0.605);
        WindForm.psfPair (22.514 * 0.5 * -0.605) (22.514 * 0.5 * -0.245)]) /\
  (map WindForm.value (WindForm.wallPressures (WindForm.computeResults form))
     = walls /\
   map WindForm.value (WindForm.wallPressures (WindForm.computeResults form'))
     = walls) /\
  9.18504 = 19.467 * 0.85 * 0.8 - 22.514 * 0.18.
Proof.
  cbv zeta.
  assert (Hkd : 0 < 0.85 <= 1) by lra.
  assert (Hkd' : 0 < 0.5 <= 1) by lra.
  pose proof (initialForm_roof_values 0.85 Hkd) as Hroof.
  pose proof (initialForm_wall_values 0.85 Hkd) as Hwall.
  pose proof (qzAt_initialForm_15 0.85) as H15.
  pose proof (qzAt_initialForm_25 0.85) as H25.
  rewrite initialForm_Kd in *.
  split; [split; [exact isValid_initialForm
                 | exact (isValid_initialForm_any_Kd 0.5 Hkd')]|].
  split; [repeat split; auto using qzAt_initialForm_15, qzAt_initialForm_25|].
  split; [split; [exact Hroof | exact (initialForm_roof_values 0.5 Hkd')]|].
  split; [split; [exact Hwall | exact (initialForm_wall_values 0.5 Hkd')]|].
  lra.
Qed.

(* ================================================================== *)
(** * The concrete scenarios in binary64 *)
(* ================================================================== *)

Module Binary64Scenarios.
Import PrimFloat.
Local Open Scope float_scope.
#[local] Set Warnings "-inexact-float".

(** The band ends of the leeward Cp, computed in binary64, are the
    binary64 numbers of the numerals [-0.5], [-0.3] and [-0.2]. *)
Example leeward_band_ends_binary64 :
  Binary64.leeward (Binary64.calculateWallCpValues 1 1) = -0.5 /\
  Binary64.leeward (Binary64.calculateWallCpValues 2 1) = -0.3 /\
  Binary64.leeward (Binary64.calculateWallCpValues 100 50) = -0.3 /\
  Binary64.leeward (Binary64.calculateWallCpValues 4 1) = -0.2.
Proof. repeat split; vm_compute; reflexivity. Qed.

(** L = 100, B = 50 in binary64: the widths are 10 and 40. *)
Example zone_widths_100_50_binary64 :
  Binary64.roofZoneWidths 100 50 = (10, 40).
Proof. vm_compute. reflexivity. Qed.

(** The input of [Spec64.tieInput] without an override, on an engine
    whose [Math.pow] gives Kz = 0.575 for exposure B at 15 ft: the
    product is 12.960499999999998 and the result 12.96. *)
Example velocity_pressure_tie_binary64 :
  forall Math_pow : float -> float -> float,
    Math_pow 10 3 = 1000 ->
    Binary64.getKz Math_pow Wind.B 15 = 0.575 ->
    0.00256 * 0.575 * 1.0 * 1.0 * 87.5 * 87.5 * 1.15 = 12.960499999999998 /\
    Binary64.velocityPressurePsf
      (Binary64.calculateVelocityPressure Math_pow (Spec64.tieInput None))
    = 12.96.
Proof.
  intros Math_pow Hpow Hkz. split; [vm_compute; reflexivity|].
  unfold Binary64.calculateVelocityPressure.
  cbn [Binary64.velocityPressurePsf Spec64.tieInput Binary64.exposure
       Binary64.heightFt Binary64.overrideKz Binary64.topographicFactor
       Binary64.khFactor Binary64.riskCategory Binary64.windSpeedMph
       JS.nullish].
  rewrite Hkz. unfold Binary64.roundTo. rewrite Hpow.
  vm_compute. reflexivity.
Qed.

End Binary64Scenarios.

(** The same input in the model over the reals: the product is 12.9605
    exactly, a tie of the third decimal, and rounds up to 12.961, one
    unit of the third decimal above what the code returns in binary64. *)
Lemma velocity_pressure_tie_exact :
  Wind.velocityPressurePsf
    (Wind.calculateVelocityPressure
       {| Wind.windSpeedMph := 87.5;
          Wind.exposure := Wind.B;
          Wind.heightFt := 15;
          Wind.directionalityFactor := None;
          Wind.topographicFactor := None;
          Wind.riskCategory := Some "III"%string;
          Wind.overrideKz := None;
          Wind.khFactor := None |})
  = 12.961.
Proof.
  rewrite calculateVelocityPressure_qz, roundTo_3.
  cbn [Wind.windSpeedMph Wind.exposure Wind.heightFt Wind.topographicFactor
       Wind.riskCategory Wind.overrideKz Wind.khFactor nullish].
  rewrite getKz_B_15.
  replace (Wind.getImportanceFactor "III") with 1.15 by reflexivity.
  unfold Wind.effectiveKz. cbn [nullish].
  rewrite (round3_unique _ 12961) by lra. lra.
Qed.

(* ================================================================== *)
(** * Further properties of wind.ts *)
(* ================================================================== *)

Lemma Math_pow_10_nat (decimals : nat) :
  Math_pow 10 (INR decimals) = 10 ^ decimals.
Proof. unfold Math_pow. apply Rpower_pow. lra. Qed.

(** X1.  [roundTo] with a whole number of decimals returns a multiple of
    [10^-decimals] that is at most half such a unit away from the value,
    and rounding a rounded value changes nothing. *)
Theorem roundTo_nearest_multiple :
  forall (value : R) (decimals : nat),
    let unit := / 10 ^ decimals in
    let rounded := Wind.roundTo value (INR decimals) in
    (exists k : Z, rounded = IZR k * unit) /\
    Rabs (rounded - value) <= unit / 2 /\
    Wind.roundTo rounded (INR decimals) = rounded.
Proof.
  intros value decimals unit rounded.
  assert (Hf : 0 < 10 ^ decimals) by (apply pow_lt; lra).
  unfold rounded, unit, Wind.roundTo. rewrite Math_pow_10_nat.
  set (f := 10 ^ decimals) in *.
  unfold Math_round.
  set (k := Int_part (value * f + / 2)).
  destruct (base_Int_part (value * f + / 2)) as [Hlo Hhi]. fold k in Hlo, Hhi.
  split; [exists k; reflexivity|]. split.
  - replace (IZR k / f - value) with ((IZR k - value * f) * / f)
      by (field; lra).
    rewrite Rabs_mult, (Rabs_pos_eq (/ f))
      by (left; apply Rinv_0_lt_compat; exact Hf).
    unfold Rdiv. rewrite (Rmult_comm (/ f) (/ 2)).
    apply Rmult_le_compat_r; [left; apply Rinv_0_lt_compat; exact Hf|].
    unfold Rabs. destruct Rcase_abs; lra.
  - f_equal. f_equal.
    replace (IZR k / f * f) with (IZR k) by (field; lra).
    apply Int_part_unique. lra.
Qed.

Lemma clamp_idempotent (heightFt : R) :
  Spec.clamp (Spec.clamp heightFt 15 500) 15 500 = Spec.clamp heightFt 15 500.
Proof. apply clamp_inside, clamp_bounds. Qed.

Lemma getKz_clamp (exposure : Wind.ExposureCategory) (heightFt : R) :
  Wind.getKz exposure heightFt
  = Wind.getKz exposure (Spec.clamp heightFt 15 500).
Proof. rewrite !getKz_unfold, clamp_idempotent. reflexivity. Qed.

Lemma getKz_C_500 : Wind.getKz Wind.C 500 = 1.776.
Proof. eval_getKz 0.8835 0.8837 4%nat 19%nat 1776%Z. Qed.

Lemma getKz_D_500 : Wind.getKz Wind.D 500 = 1.896.
Proof. eval_getKz 0.9431 0.9433 4%nat 23%nat 1896%Z. Qed.

(** X2.  Whatever the height, Kz stays between its value at 15 ft and its
    value at 500 ft: 0.575 to 1.565 in exposure B, 0.849 to 1.776 in C,
    1.03 to 1.896 in D. *)
Theorem getKz_range :
  forall heightFt : R,
    0.575 <= Wind.getKz Wind.B heightFt <= 1.565 /\
    0.849 <= Wind.getKz Wind.C heightFt <= 1.776 /\
    1.03 <= Wind.getKz Wind.D heightFt <= 1.896.
Proof.
  intros heightFt.
  pose proof (clamp_bounds heightFt) as [Hlo Hhi].
  rewrite <- getKz_B_15, <- getKz_B_500, <- getKz_C_15, <- getKz_C_500,
          <- getKz_D_15, <- getKz_D_500.
  rewrite !(getKz_clamp _ heightFt).
  repeat split; apply getKz_monotone; assumption.
Qed.

(** A base in (0, 1] raised to a smaller exponent gives a larger power. *)
Lemma Rpower_exponent_antitone (x a b : R) :
  0 < x <= 1 -> b <= a -> Rpower x a <= Rpower x b.
Proof.
  intros [Hx0 Hx1] Hba. unfold Rpower.
  assert (Hln : ln x <= 0).
  { rewrite <- ln_1. destruct Hx1 as [Hlt | ->]; [|lra].
    left. apply ln_increasing; assumption. }
  destruct (Req_dec (a * ln x) (b * ln x)) as [-> | Hne]; [lra|].
  left. apply exp_increasing. nra.
Qed.

(** X3.  At every height the rougher terrain has the smaller coefficient:
    Kz in exposure B is at most Kz in C, which is at most Kz in D. *)
Theorem getKz_ordered_by_exposure :
  forall heightFt : R,
    Wind.getKz Wind.B heightFt <= Wind.getKz Wind.C heightFt /\
    Wind.getKz Wind.C heightFt <= Wind.getKz Wind.D heightFt.
Proof.
  intros heightFt. rewrite !getKz_unfold.
  pose proof (clamp_bounds heightFt) as [Hlo Hhi].
  set (z := Spec.clamp heightFt 15 500) in *.
  unfold Wind.getZg, Wind.getAlpha.
  split; apply round3_le; apply Rmult_le_compat_l; try lra.
  - apply Rle_trans with (Rpower (z / 900) (2 / 7.0)).
    + apply Rle_Rpower_l; lra.
    + apply Rpower_exponent_antitone; lra.
  - apply Rle_trans with (Rpower (z / 700) (2 / 9.5)).
    + apply Rle_Rpower_l; lra.
    + apply Rpower_exponent_antitone; lra.
Qed.

(** X4.  Whatever the wind speed (its sign included), the height and the
    risk category: when Kzt, Kh and a finite Kz override are not negative,
    the velocity pressure is not negative. *)
Theorem velocityPressure_sign_of_factors :
  forall input : Wind.WindInput,
    0 <= input.(Wind.topographicFactor) ?? 1.0 ->
    0 <= input.(Wind.khFactor) ?? 1.0 ->
    (forall k, input.(Wind.overrideKz) = Some (finite k) -> 0 <= k) ->
    0 <= Wind.velocityPressurePsf (Wind.calculateVelocityPressure input).
Proof.
  intros input Hkzt Hkh Hov.
  rewrite calculateVelocityPressure_qz, roundTo_3. apply round3_nonneg.
  assert (Hkz : 0 <= Wind.effectiveKz input.(Wind.overrideKz)
                       (Wind.getKz input.(Wind.exposure) input.(Wind.heightFt))).
  { pose proof (getKz_nonneg input.(Wind.exposure) input.(Wind.heightFt)).
    unfold Wind.effectiveKz.
    destruct (Wind.overrideKz input) as [[k| | |]|]; simpl; try assumption.
    exact (Hov k eq_refl). }
  pose proof (getImportanceFactor_pos (input.(Wind.riskCategory) ?? "II"%string))
    as HI.
  apply Rmult_le_pos; [|lra].
  rewrite Rmult_assoc.
  apply Rmult_le_pos; [|apply Rle_0_sqr].
  do 3 (apply Rmult_le_pos; [|assumption]). lra.
Qed.

Lemma velocityPressure_sign_of_factors_witness :
  let input :=
    {| Wind.windSpeedMph := -115;
       Wind.exposure := Wind.C;
       Wind.heightFt := 40;
       Wind.directionalityFactor := None;
       Wind.topographicFactor := Some 1.2;
       Wind.riskCategory := Some "IV"%string;
       Wind.overrideKz := Some (finite 0.85);
       Wind.khFactor := None |} in
  0 <= Wind.velocityPressurePsf (Wind.calculateVelocityPressure input).
Proof.
  cbv zeta.
  apply velocityPressure_sign_of_factors.
  - cbn [Wind.topographicFactor nullish]. lra.
  - cbn [Wind.khFactor nullish]. lra.
  - cbn [Wind.overrideKz]. intros k Hk. injection Hk as <-. lra.
Defined.

(** The effective Kz grows with the computed Kz. *)
Lemma effectiveKz_monotone (overrideKz : option number) (k1 k2 : R) :
  k1 <= k2 -> Wind.effectiveKz overrideKz k1 <= Wind.effectiveKz overrideKz k2.
Proof.
  intros Hk. unfold Wind.effectiveKz.
  destruct (overrideKz ?? NaN); simpl; lra.
Qed.

(** X5.  With Kzt and Kh not negative, a greater height never gives a smaller
    velocity pressure, with or without override. *)
Theorem velocityPressure_nondecreasing_in_height :
  forall (input : Wind.WindInput) (h1 h2 : R),
    0 <= input.(Wind.topographicFactor) ?? 1.0 ->
    0 <= input.(Wind.khFactor) ?? 1.0 ->
    h1 <= h2 ->
    Wind.velocityPressurePsf
      (Wind.calculateVelocityPressure (Vary.withHeight input h1))
    <= Wind.velocityPressurePsf
         (Wind.calculateVelocityPressure (Vary.withHeight input h2)).
Proof.
  intros input h1 h2 Hkzt Hkh Hle.
  rewrite !calculateVelocityPressure_qz, !roundTo_3.
  cbn [Vary.withHeight Wind.windSpeedMph Wind.exposure Wind.heightFt
       Wind.topographicFactor Wind.riskCategory Wind.overrideKz Wind.khFactor].
  apply round3_le.
  pose proof (getImportanceFactor_pos (input.(Wind.riskCategory) ?? "II"%string))
    as HI.
  pose proof (effectiveKz_monotone input.(Wind.overrideKz) _ _
                (getKz_monotone input.(Wind.exposure) h1 h2 Hle)) as Hkz.
  set (kz1 := Wind.effectiveKz _ (Wind.getKz _ h1)) in *.
  set (kz2 := Wind.effectiveKz _ (Wind.getKz _ h2)) in *.
  set (kzt := input.(Wind.topographicFactor) ?? 1.0) in *.
  set (kh := input.(Wind.khFactor) ?? 1.0) in *.
  set (V := input.(Wind.windSpeedMph)).
  set (I := Wind.getImportanceFactor _) in *.
  assert (HV : 0 <= V * V) by nra.
  assert (Hc : 0 <= kzt * kh * (V * V) * I).
  { do 3 (apply Rmult_le_pos; [|lra]). lra. }
  replace (0.00256 * kz1 * kzt * kh * V * V * I)
    with (0.00256 * kz1 * (kzt * kh * (V * V) * I)) by ring.
  replace (0.00256 * kz2 * kzt * kh * V * V * I)
    with (0.00256 * kz2 * (kzt * kh * (V * V) * I)) by ring.
  apply Rmult_le_compat_r; [exact Hc|]. lra.
Qed.

Lemma velocityPressure_nondecreasing_in_height_witness :
  0 <= (Spec.scenarioInput None).(Wind.topographicFactor) ?? 1.0 /\
  0 <= (Spec.scenarioInput None).(Wind.khFactor) ?? 1.0 /\
  15 <= 30 /\
  Wind.velocityPressurePsf
    (Wind.calculateVelocityPressure
       (Vary.withHeight (Spec.scenarioInput None) 15))
  <= Wind.velocityPressurePsf
       (Wind.calculateVelocityPressure
          (Vary.withHeight (Spec.scenarioInput None) 30)).
Proof.
  assert (Hkzt : 0 <= (Spec.scenarioInput None).(Wind.topographicFactor) ?? 1.0)
    by (cbn [Spec.scenarioInput Wind.topographicFactor nullish]; lra).
  assert (Hkh : 0 <= (Spec.scenarioInput None).(Wind.khFactor) ?? 1.0)
    by (cbn [Spec.scenarioInput Wind.khFactor nullish]; lra).
  assert (Hle : 15 <= 30) by lra.
  repeat split; try assumption.
  exact (velocityPressure_nondecreasing_in_height
           (Spec.scenarioInput None) 15 30 Hkzt Hkh Hle).
Defined.

(** X6.  With Kzt, Kh and the Kz in use not negative, a greater wind speed
    never gives a smaller velocity pressure. *)
Theorem velocityPressure_nondecreasing_in_wind_speed :
  forall (input : Wind.WindInput) (V1 V2 : R),
    0 <= input.(Wind.topographicFactor) ?? 1.0 ->
    0 <= input.(Wind.khFactor) ?? 1.0 ->
    (forall k, input.(Wind.overrideKz) = Some (finite k) -> 0 <= k) ->
    0 <= V1 <= V2 ->
    Wind.velocityPressurePsf
      (Wind.calculateVelocityPressure (Vary.withWindSpeed input V1))
    <= Wind.velocityPressurePsf
         (Wind.calculateVelocityPressure (Vary.withWindSpeed input V2)).
Proof.
  intros input V1 V2 Hkzt Hkh Hov HV.
  rewrite !calculateVelocityPressure_qz, !roundTo_3.
  cbn [Vary.withWindSpeed Wind.windSpeedMph Wind.exposure Wind.heightFt
       Wind.topographicFactor Wind.riskCategory Wind.overrideKz Wind.khFactor].
  apply round3_le.
  pose proof (getImportanceFactor_pos (input.(Wind.riskCategory) ?? "II"%string))
    as HI.
  assert (Hkz : 0 <= Wind.effectiveKz input.(Wind.overrideKz)
                       (Wind.getKz input.(Wind.exposure) input.(Wind.heightFt))).
  { pose proof (getKz_nonneg input.(Wind.exposure) input.(Wind.heightFt)).
    unfold Wind.effectiveKz.
    destruct (Wind.overrideKz input) as [[k| | |]|]; simpl; try assumption.
    exact (Hov k eq_refl). }
  set (kz := Wind.effectiveKz _ _) in *.
  set (kzt := input.(Wind.topographicFactor) ?? 1.0) in *.
  set (kh := input.(Wind.khFactor) ?? 1.0) in *.
  set (I := Wind.getImportanceFactor _) in *.
  assert (Hc : 0 <= 0.00256 * kz * kzt * kh * I).
  { do 4 (apply Rmult_le_pos; [|lra]). lra. }
  replace (0.00256 * kz * kzt * kh * V1 * V1 * I)
    with (0.00256 * kz * kzt * kh * I * (V1 * V1)) by ring.
  replace (0.00256 * kz * kzt * kh * V2 * V2 * I)
    with (0.00256 * kz * kzt * kh * I * (V2 * V2)) by ring.
  apply Rmult_le_compat_l; [exact Hc|]. nra.
Qed.

Lemma velocityPressure_nondecreasing_in_wind_speed_witness :
  0 <= 90 <= 115 /\
  Wind.velocityPressurePsf
    (Wind.calculateVelocityPressure
       (Vary.withWindSpeed (Spec.scenarioInput None) 90))
  <= Wind.velocityPressurePsf
       (Wind.calculateVelocityPressure
          (Vary.withWindSpeed (Spec.scenarioInput None) 115)).
Proof.
  assert (Hkzt : 0 <= (Spec.scenarioInput None).(Wind.topographicFactor) ?? 1.0)
    by (cbn [Spec.scenarioInput Wind.topographicFactor nullish]; lra).
  assert (Hkh : 0 <= (Spec.scenarioInput None).(Wind.khFactor) ?? 1.0)
    by (cbn [Spec.scenarioInput Wind.khFactor nullish]; lra).
  assert (Hov : forall k,
             (Spec.scenarioInput None).(Wind.overrideKz) = Some (finite k) ->
             0 <= k) by (intros k Hk; discriminate Hk).
  assert (HV : 0 <= 90 <= 115) by lra.
  split; [exact HV|].
  exact (velocityPressure_nondecreasing_in_wind_speed
           (Spec.scenarioInput None) 90 115 Hkzt Hkh Hov HV).
Defined.

(* ================================================================== *)
(** * Further properties of the coefficient tables *)
(* ================================================================== *)

(** X7.  For a plan with a width other than zero the leeward wall Cp lies
    between -0.5 and -0.2, and a plan with a greater L/B never has a
    smaller (more negative) one. *)
Theorem leeward_bounded_nondecreasing :
  forall roofL roofB : R,
    roofB <> 0 ->
    -0.5 <= WindForm.leeward (WindForm.calculateWallCpValues roofL roofB)
         <= -0.2 /\
    forall roofL' roofB' : R,
      roofB' <> 0 ->
      roofL / roofB <= roofL' / roofB' ->
      WindForm.leeward (WindForm.calculateWallCpValues roofL roofB)
      <= WindForm.leeward (WindForm.calculateWallCpValues roofL' roofB').
Proof.
  intros roofL roofB _.
  unfold WindForm.calculateWallCpValues. cbn [WindForm.leeward].
  set (r := roofL / roofB). split.
  - unfold leb. repeat destruct Rle_dec; lra.
  - intros roofL' roofB' _. set (r' := roofL' / roofB'). intros Hle.
    unfold leb. repeat destruct Rle_dec; lra.
Qed.

Lemma leeward_bounded_nondecreasing_witness :
  100 / 100 <= 100 / 50 /\
  WindForm.leeward (WindForm.calculateWallCpValues 100 100)
  <= WindForm.leeward (WindForm.calculateWallCpValues 100 50).
Proof.
  assert (Hle : 100 / 100 <= 100 / 50) by lra.
  assert (H100 : 100 <> 0) by lra.
  assert (H50 : 50 <> 0) by lra.
  split; [exact Hle|].
  exact (proj2 (leeward_bounded_nondecreasing 100 100 H100) 100 50 H50 Hle).
Defined.

(** The Cp values of a flat roof, as a triple. *)
Lemma flat_roof_cp_triple (roofL roofB : R) :
  let lbRatio := roofL / roofB in
  WindForm.calculateRoofCpValues WindForm.flat roofL roofB
  = WindForm.FlatRoofCp
      (if lbRatio <=? 0.5 then 0.8 else if lbRatio <=? 1.0 then 0.7
       else if lbRatio <=? 2.0 then 0.6 else 0.5)
      0.5
      (if lbRatio <=? 0.5 then -0.7 else if lbRatio <=? 1.0 then -0.6
       else if lbRatio <=? 2.0 then -0.5 else -0.4).
Proof.
  cbv zeta. unfold WindForm.calculateRoofCpValues.
  repeat destruct (_ <=? _); reflexivity.
Qed.

(** X8.  On a flat roof with a width other than zero the windward edge is
    never loaded less than the middle zone ([zone1 >= zone2 = 0.5]), the
    leeward edge is always in suction ([zone3 <= -0.4]), the two edge
    coefficients always add up to 0.1, and a longer plan (greater L/B)
    never raises the windward-edge Cp. *)
Theorem flat_roof_cp_invariants :
  forall roofL roofB : R,
    roofB <> 0 ->
    exists zone1 zone3 : R,
      WindForm.calculateRoofCpValues WindForm.flat roofL roofB
        = WindForm.FlatRoofCp zone1 0.5 zone3 /\
      0.5 <= zone1 <= 0.8 /\ -0.7 <= zone3 <= -0.4 /\ zone1 + zone3 = 0.1 /\
      forall roofL' roofB' : R,
        roofB' <> 0 ->
        roofL / roofB <= roofL' / roofB' ->
        exists zone1' zone3' : R,
          WindForm.calculateRoofCpValues WindForm.flat roofL' roofB'
            = WindForm.FlatRoofCp zone1' 0.5 zone3' /\
          zone1' <= zone1 /\ zone3 <= zone3'.
Proof.
  intros roofL roofB _.
  rewrite flat_roof_cp_triple. cbv zeta. set (r := roofL / roofB).
  eexists. eexists. split; [reflexivity|].
  split; [unfold leb; repeat destruct Rle_dec; lra|].
  split; [unfold leb; repeat destruct Rle_dec; lra|].
  split; [unfold leb; repeat destruct Rle_dec; lra|].
  intros roofL' roofB' _ Hle.
  rewrite flat_roof_cp_triple. cbv zeta. set (r' := roofL' / roofB') in *.
  eexists. eexists. split; [reflexivity|].
  unfold leb; repeat destruct Rle_dec; lra.
Qed.

Lemma flat_roof_cp_invariants_witness :
  exists zone1 zone3 zone1' zone3' : R,
    WindForm.calculateRoofCpValues WindForm.flat 50 100
      = WindForm.FlatRoofCp zone1 0.5 zone3 /\
    50 / 100 <= 100 / 50 /\
    WindForm.calculateRoofCpValues WindForm.flat 100 50
      = WindForm.FlatRoofCp zone1' 0.5 zone3' /\
    zone1' <= zone1 /\ zone3 <= zone3'.
Proof.
  assert (H100 : 100 <> 0) by lra.
  assert (H50 : 50 <> 0) by lra.
  destruct (flat_roof_cp_invariants 50 100 H100)
    as (zone1 & zone3 & Hcp & _ & _ & _ & Hmono).
  assert (Hle : 50 / 100 <= 100 / 50) by lra.
  destruct (Hmono 100 50 H50 Hle) as (zone1' & zone3' & Hcp' & H1 & H3).
  exists zone1, zone3, zone1', zone3'.
  repeat split; assumption.
Defined.

(** X9.  For positive plan dimensions no reported roof zone is degenerate: the
    edge width is positive and at most 20% of B, the middle width is at
    least 80% of B and less than B; the edge width is 20% of B exactly
    when L is at least 2 B. *)
Theorem roof_zone_widths_positive :
  forall (qz kd : R) (gcpi : Wind.Gcpi) (roofL roofB gustFactor : R),
    0 < roofL -> 0 < roofB ->
    exists zone1Width zone2Width : R,
      map Spec.reportedWidth
        (WindForm.pressures
           (WindForm.calculateRoofPressures WindForm.flat qz kd gcpi
              roofL roofB gustFactor))
      = [Some zone1Width; Some zone2Width; Some zone1Width] /\
      0 < zone1Width <= 0.2 * roofB /\
      0.8 * roofB <= zone2Width < roofB /\
      (zone1Width = 0.2 * roofB <-> 2 * roofB <= roofL).
Proof.
  intros qz kd gcpi roofL roofB gustFactor HL HB.
  exists (Rmin (0.2 * roofB) (0.1 * roofL)),
         (roofB - Rmin (0.2 * roofB) (0.1 * roofL)).
  split; [apply reportedWidths_flat|].
  unfold Rmin. destruct Rle_dec; repeat split; intros; lra.
Qed.

Lemma roof_zone_widths_positive_witness :
  0 < 100 /\ 0 < 50 /\
  exists zone1Width zone2Width : R,
    map Spec.reportedWidth
      (WindForm.pressures
         (WindForm.calculateRoofPressures WindForm.flat 22.514 0.85
            (WindForm.getGcpiValues WindForm.enclosed) 100 50 0.85))
    = [Some zone1Width; Some zone2Width; Some zone1Width] /\
    0 < zone1Width <= 0.2 * 50.
Proof.
  assert (HL : 0 < 100) by lra.
  assert (HB : 0 < 50) by lra.
  split; [exact HL|]. split; [exact HB|].
  destruct (roof_zone_widths_positive 22.514 0.85
              (WindForm.getGcpiValues WindForm.enclosed) 100 50 0.85 HL HB)
    as (zone1Width & zone2Width & Hwidths & Hz1 & _).
  exists zone1Width, zone2Width. split; assumption.
Defined.

(* ================================================================== *)
(** * Further properties of the form's computation *)
(* ================================================================== *)

(** What [isValid] guarantees. *)
Lemma isValid_facts (form : WindForm.FormState) :
  WindForm.isValid form = true ->
  0 < form.(WindForm.windSpeedMph) < 300 /\
  1 <= Math_floor form.(WindForm.numStories) <= 200 /\
  4 < form.(WindForm.storyHeightFt) <= 20 /\
  0 < form.(WindForm.directionalityFactor) <= 1 /\
  0 < form.(WindForm.roofLength) <= 1000 /\
  0 < form.(WindForm.roofWidth) <= 1000 /\
  0 < form.(WindForm.wallEvaluationHeight)
    <= Math_floor form.(WindForm.numStories) * form.(WindForm.storyHeightFt) /\
  (form.(WindForm.useManualKz) = true ->
   WindForm.manualKz_nonempty form = true /\
   0.3 < WindForm.Number_manualKz form < 3).
Proof.
  unfold WindForm.isValid. intros H.
  repeat (apply andb_prop in H; destruct H as [H ?]).
  repeat match goal with
    | Hc : (_ <? _) = true |- _ => apply ltb_true_iff in Hc
    | Hc : (_ <=? _) = true |- _ => apply leb_true_iff in Hc
    end.
  repeat match goal with |- _ /\ _ => split end; try assumption.
  intros Huse.
  match goal with
  | Hc : (negb _ || _) = true |- _ =>
      rewrite Huse in Hc; cbn [negb orb] in Hc;
      apply andb_prop in Hc; destruct Hc as [Hc Hhi];
      apply andb_prop in Hc; destruct Hc as [Hne Hlo]
  end.
  apply ltb_true_iff in Hhi. apply ltb_true_iff in Hlo.
  repeat split; assumption.
Qed.

Lemma floor_count (x : R) :
  1 <= Math_floor x -> INR (Z.to_nat (Int_part x)) = Math_floor x.
Proof.
  unfold Math_floor. intros H. apply le_IZR in H.
  rewrite INR_IZR_INZ, Z2Nat.id by lia. reflexivity.
Qed.

(** Under [isValid] the story calls pass the same override as [topResult]. *)
Lemma storyResult_qzAt (form : WindForm.FormState) (i : nat) :
  WindForm.isValid form = true ->
  Wind.velocityPressurePsf (WindForm.storyResult form i)
  = Spec.qzAt form ((INR i - 0.5) * form.(WindForm.storyHeightFt)).
Proof.
  intros Hvalid. unfold WindForm.storyResult, Spec.qzAt, Spec.formInputAt.
  destruct (isValid_facts form Hvalid) as (_ & _ & _ & _ & _ & _ & _ & Hmanual).
  destruct (WindForm.useManualKz form) eqn:Huse; [|reflexivity].
  destruct (Hmanual eq_refl) as [-> _]. reflexivity.
Qed.

(** The velocity pressure the form gets at a height, written out. *)
Lemma qzAt_formula (form : WindForm.FormState) (heightFt : R) :
  Spec.qzAt form heightFt
  = Spec.round3
      (0.00256
       * (if form.(WindForm.useManualKz) then WindForm.Number_manualKz form
          else Wind.getKz form.(WindForm.exposure) heightFt)
       * (form.(WindForm.windSpeedMph) * form.(WindForm.windSpeedMph))
       * Wind.getImportanceFactor form.(WindForm.riskCategory)).
Proof.
  unfold Spec.qzAt. rewrite calculateVelocityPressure_qz, roundTo_3.
  cbn [Spec.formInputAt Wind.windSpeedMph Wind.exposure Wind.heightFt
       Wind.topographicFactor Wind.riskCategory Wind.overrideKz Wind.khFactor
       nullish].
  f_equal. unfold Wind.effectiveKz.
  destruct (WindForm.useManualKz form); cbn [nullish]; lra.
Qed.

Lemma qzAt_monotone (form : WindForm.FormState) (h1 h2 : R) :
  h1 <= h2 -> Spec.qzAt form h1 <= Spec.qzAt form h2.
Proof.
  intros Hle. rewrite !qzAt_formula. apply round3_le.
  pose proof (getImportanceFactor_pos form.(WindForm.riskCategory)) as HI.
  pose proof (getKz_monotone form.(WindForm.exposure) h1 h2 Hle) as Hkz.
  set (V := form.(WindForm.windSpeedMph)).
  assert (HV : 0 <= V * V) by nra.
  set (I := Wind.getImportanceFactor _) in *.
  destruct (WindForm.useManualKz form); [lra|].
  apply Rmult_le_compat_r; [lra|].
  apply Rmult_le_compat_r; [lra|]. lra.
Qed.

Lemma qzAt_nonneg (form : WindForm.FormState) (heightFt : R) :
  WindForm.isValid form = true -> 0 <= Spec.qzAt form heightFt.
Proof.
  intros Hvalid. rewrite qzAt_formula. apply round3_nonneg.
  destruct (isValid_facts form Hvalid) as (_ & _ & _ & _ & _ & _ & _ & Hmanual).
  pose proof (getImportanceFactor_pos form.(WindForm.riskCategory)) as HI.
  pose proof (getKz_nonneg form.(WindForm.exposure) heightFt) as Hkz.
  set (V := form.(WindForm.windSpeedMph)).
  assert (HV : 0 <= V * V) by nra.
  do 2 (apply Rmult_le_pos; [|lra]). apply Rmult_le_pos; [lra|].
  destruct (WindForm.useManualKz form); [|assumption].
  destruct (Hmanual eq_refl) as [_ Hk]. lra.
Qed.

(** The per-story pressures of a valid form. *)
Lemma computeResults_diagram (form : WindForm.FormState) :
  WindForm.isValid form = true ->
  WindForm.diagram (WindForm.computeResults form)
  = Some {| WindForm.diagramNumStories := Math_floor form.(WindForm.numStories);
            WindForm.diagramStoryHeightFt := form.(WindForm.storyHeightFt);
            WindForm.perStoryPressuresPsf :=
              map (fun i =>
                     Spec.qzAt form
                       ((INR i - 0.5) * form.(WindForm.storyHeightFt)))
                  (seq 1 (Z.to_nat (Int_part form.(WindForm.numStories)))) |}.
Proof.
  intros Hvalid. unfold WindForm.computeResults. rewrite Hvalid.
  cbn [negb WindForm.diagram]. do 2 f_equal.
  apply map_ext. intros i. apply storyResult_qzAt. exact Hvalid.
Qed.

Lemma nth_error_map_seq {A : Type} (f : nat -> A) (len start i : nat) (a : A) :
  nth_error (map f (seq start len)) i = Some a ->
  (i < len)%nat /\ a = f (start + i)%nat.
Proof.
  revert start i. induction len as [|len IH]; intros start i H.
  - destruct i; discriminate H.
  - destruct i as [|i]; cbn in H.
    + injection H as <-. split; [lia|]. f_equal. lia.
    + destruct (IH (S start) i H) as [Hlt ->]. split; [lia|]. f_equal. lia.
Qed.

Lemma last_map_seq {A : Type} (f : nat -> A) (len : nat) (d : A) :
  (1 <= len)%nat -> last (map f (seq 1 len)) d = f len.
Proof.
  intros Hlen. destruct len as [|len]; [lia|].
  rewrite seq_S, map_app. cbn [map]. rewrite last_last. reflexivity.
Qed.

Lemma story_count (form : WindForm.FormState) :
  WindForm.isValid form = true ->
  (1 <= Z.to_nat (Int_part form.(WindForm.numStories)) <= 200)%nat.
Proof.
  intros Hvalid.
  destruct (isValid_facts form Hvalid) as (_ & [Hlo Hhi] & _).
  unfold Math_floor in *. apply le_IZR in Hlo. apply le_IZR in Hhi. lia.
Qed.

(** X10.  An invalid form computes nothing.  A valid form has between 1 and
    200 stories and yields one story pressure per story, three wall
    pressures, three roof pressures for a flat roof and two for a sloped
    one, and a diagram with one pressure per story. *)
Theorem computeResults_shape :
  forall form : WindForm.FormState,
    (WindForm.isValid form = false ->
     WindForm.computeResults form = WindForm.emptyResults) /\
    (WindForm.isValid form = true ->
     let results := WindForm.computeResults form in
     let n := Z.to_nat (Int_part form.(WindForm.numStories)) in
     (1 <= n <= 200)%nat /\
     length (WindForm.storyPressures results) = n /\
     length (WindForm.wallPressures results) = 3%nat /\
     length (WindForm.roofPressuresGrouped results)
       = match form.(WindForm.roofType) with
         | WindForm.flat => 3%nat
         | WindForm.sloped => 2%nat
         end /\
     exists d : WindForm.Diagram,
       WindForm.diagram results = Some d /\
       length (WindForm.perStoryPressuresPsf d) = n /\
       map WindForm.value (WindForm.storyPressures results)
         = map WindForm.NumberValue (WindForm.perStoryPressuresPsf d)).
Proof.
  intros form. split.
  - intros Hinvalid. unfold WindForm.computeResults. rewrite Hinvalid.
    reflexivity.
  - intros Hvalid results n.
    split; [exact (story_count form Hvalid)|].
    assert (Hroof : length (WindForm.roofPressuresGrouped results)
                    = match form.(WindForm.roofType) with
                      | WindForm.flat => 3%nat
                      | WindForm.sloped => 2%nat
                      end).
    { rewrite <- (length_map WindForm.value). unfold results.
      rewrite computeResults_roof_values by exact Hvalid.
      rewrite length_map. destruct (WindForm.roofType form).
      - destruct (calculateRoofCpValues_flat form.(WindForm.roofLength)
                    form.(WindForm.roofWidth)) as (z1 & z3 & ->).
        reflexivity.
      - reflexivity. }
    unfold results in *. unfold WindForm.computeResults in *.
    rewrite Hvalid in *.
    cbn [negb WindForm.storyPressures WindForm.wallPressures
         WindForm.diagram WindForm.roofPressuresGrouped] in *.
    split.
    { rewrite length_map, length_combine, length_seq, !length_map, length_seq.
      fold n. lia. }
    split; [reflexivity|]. split; [exact Hroof|].
    eexists. split; [reflexivity|].
    cbn [WindForm.perStoryPressuresPsf].
    split; [rewrite length_map, length_seq; reflexivity|].
    rewrite map_map.
    set (l := map _ (seq 1 _)).
    generalize 0%nat. induction l as [|p l IH]; intros start; [reflexivity|].
    cbn [length seq combine map WindForm.value]. f_equal. apply IH.
Qed.

Lemma computeResults_shape_witness :
  WindForm.isValid WindForm.initialForm = true /\
  length (WindForm.storyPressures (WindForm.computeResults WindForm.initialForm))
    = Z.to_nat (Int_part 3) /\
  length (WindForm.wallPressures (WindForm.computeResults WindForm.initialForm))
    = 3%nat.
Proof.
  pose proof isValid_initialForm as Hvalid.
  destruct (proj2 (computeResults_shape WindForm.initialForm) Hvalid)
    as (_ & Hstories & Hwalls & _).
  split; [exact Hvalid|]. split; [exact Hstories | exact Hwalls].
Defined.

(** X11.  The story pressures of a valid form never decrease from one story to
    the next one up. *)
Theorem story_pressures_nondecreasing :
  forall (form : WindForm.FormState) (d : WindForm.Diagram),
    WindForm.isValid form = true ->
    WindForm.diagram (WindForm.computeResults form) = Some d ->
    forall (i j : nat) (p q : R),
      (i <= j)%nat ->
      nth_error (WindForm.perStoryPressuresPsf d) i = Some p ->
      nth_error (WindForm.perStoryPressuresPsf d) j = Some q ->
      p <= q.
Proof.
  intros form d Hvalid Hd i j p q Hij Hp Hq.
  rewrite (computeResults_diagram form Hvalid) in Hd. injection Hd as <-.
  cbn [WindForm.perStoryPressuresPsf] in Hp, Hq.
  apply nth_error_map_seq in Hp. apply nth_error_map_seq in Hq.
  destruct Hp as [_ ->], Hq as [_ ->].
  apply qzAt_monotone.
  destruct (isValid_facts form Hvalid) as (_ & _ & Hsh & _).
  apply Rmult_le_compat_r; [lra|].
  apply Rplus_le_compat_r. apply le_INR. lia.
Qed.

Lemma story_pressures_nondecreasing_witness :
  exists (d : WindForm.Diagram) (p q : R),
    WindForm.isValid WindForm.initialForm = true /\
    WindForm.diagram (WindForm.computeResults WindForm.initialForm) = Some d /\
    nth_error (WindForm.perStoryPressuresPsf d) 0 = Some p /\
    nth_error (WindForm.perStoryPressuresPsf d) 2 = Some q /\
    p <= q.
Proof.
  pose proof isValid_initialForm as Hvalid.
  pose proof (computeResults_diagram WindForm.initialForm Hvalid) as Hd.
  assert (Hn : Z.to_nat (Int_part 3) = 3%nat).
  { rewrite (Int_part_unique 3 3) by lra. reflexivity. }
  cbn [WindForm.initialForm WindForm.numStories] in Hd.
  rewrite Hn in Hd. cbn [seq map] in Hd.
  eexists. eexists. eexists.
  split; [exact Hvalid|]. split; [exact Hd|].
  split; [reflexivity|]. split; [reflexivity|].
  apply (story_pressures_nondecreasing WindForm.initialForm _ Hvalid Hd 0 2);
    [lia | reflexivity | reflexivity].
Defined.

(** X12.  The last story pressure of a valid form is the roof reference
    pressure [topResult], and no story pressure exceeds it. *)
Theorem top_story_pressure_is_roof_reference :
  forall (form : WindForm.FormState) (d : WindForm.Diagram),
    WindForm.isValid form = true ->
    WindForm.diagram (WindForm.computeResults form) = Some d ->
    let top := Wind.velocityPressurePsf (WindForm.topResult form) in
    last (WindForm.perStoryPressuresPsf d) 0 = top /\
    forall p : R, In p (WindForm.perStoryPressuresPsf d) -> p <= top.
Proof.
  intros form d Hvalid Hd top.
  rewrite (computeResults_diagram form Hvalid) in Hd. injection Hd as <-.
  cbn [WindForm.perStoryPressuresPsf].
  pose proof (story_count form Hvalid) as Hn.
  destruct (isValid_facts form Hvalid) as (_ & Hfloor & Hsh & _).
  unfold top. rewrite topResult_qzAt.
  rewrite <- (floor_count form.(WindForm.numStories)) by lra.
  split.
  - rewrite last_map_seq by lia. reflexivity.
  - intros p Hp. apply in_map_iff in Hp. destruct Hp as (i & <- & Hi).
    apply in_seq in Hi. apply qzAt_monotone.
    apply Rmult_le_compat_r; [lra|].
    apply Rplus_le_compat_r. apply le_INR. lia.
Qed.

Lemma top_story_pressure_is_roof_reference_witness :
  exists d : WindForm.Diagram,
    WindForm.isValid WindForm.initialForm = true /\
    WindForm.diagram (WindForm.computeResults WindForm.initialForm) = Some d /\
    last (WindForm.perStoryPressuresPsf d) 0
    = Wind.velocityPressurePsf (WindForm.topResult WindForm.initialForm).
Proof.
  pose proof isValid_initialForm as Hvalid.
  pose proof (computeResults_diagram WindForm.initialForm Hvalid) as Hd.
  eexists. split; [exact Hvalid|]. split; [exact Hd|].
  exact (proj1 (top_story_pressure_is_roof_reference
                  WindForm.initialForm _ Hvalid Hd)).
Defined.

(** X13.  The roof reference pressure of a valid form, taken at the top
    story's mid-height, never exceeds the velocity pressure at the roof
    height [n * h]. *)
Theorem roof_reference_below_roof_height_pressure :
  forall form : WindForm.FormState,
    WindForm.isValid form = true ->
    Wind.velocityPressurePsf (WindForm.topResult form)
    <= Spec.qzAt form
         (Math_floor form.(WindForm.numStories) * form.(WindForm.storyHeightFt)).
Proof.
  intros form Hvalid. rewrite topResult_qzAt. apply qzAt_monotone.
  destruct (isValid_facts form Hvalid) as (_ & _ & Hsh & _). nra.
Qed.

Lemma roof_reference_below_roof_height_pressure_witness :
  WindForm.isValid WindForm.initialForm = true /\
  Wind.velocityPressurePsf (WindForm.topResult WindForm.initialForm)
  <= Spec.qzAt WindForm.initialForm
       (Math_floor 3 * 10).
Proof.
  pose proof isValid_initialForm as Hvalid.
  split; [exact Hvalid|].
  exact (roof_reference_below_roof_height_pressure WindForm.initialForm Hvalid).
Defined.

(** X14.  With the manual Kz switched on, a valid form gives every story
    the same velocity pressure, which is also the one of the wall
    evaluation height: all of them are the roof reference pressure of
    [topResult], the height no longer matters. *)
Theorem manual_Kz_makes_pressure_uniform :
  forall (form : WindForm.FormState) (d : WindForm.Diagram),
    WindForm.isValid form = true ->
    form.(WindForm.useManualKz) = true ->
    WindForm.diagram (WindForm.computeResults form) = Some d ->
    let top := Wind.velocityPressurePsf (WindForm.topResult form) in
    (forall p : R, In p (WindForm.perStoryPressuresPsf d) -> p = top) /\
    Wind.velocityPressurePsf (WindForm.wallResult form) = top /\
    forall heightFt : R, Spec.qzAt form heightFt = top.
Proof.
  intros form d Hvalid Huse Hd top.
  rewrite (computeResults_diagram form Hvalid) in Hd. injection Hd as <-.
  cbn [WindForm.perStoryPressuresPsf].
  assert (Hq : forall h h', Spec.qzAt form h = Spec.qzAt form h').
  { intros h h'. rewrite !qzAt_formula, Huse. reflexivity. }
  unfold top. rewrite topResult_qzAt, wallResult_qzAt.
  split; [|split].
  - intros p Hp. apply in_map_iff in Hp. destruct Hp as (i & <- & _). apply Hq.
  - apply Hq.
  - intros heightFt. apply Hq.
Qed.

Lemma isValid_initialForm_manualKz :
  WindForm.isValid (Vary.withManualKz WindForm.initialForm 1) = true.
Proof.
  unfold WindForm.isValid.
  cbn [Vary.withManualKz WindForm.initialForm WindForm.windSpeedMph
       WindForm.numStories WindForm.storyHeightFt WindForm.directionalityFactor
       WindForm.roofLength WindForm.roofWidth WindForm.wallEvaluationHeight
       WindForm.useManualKz WindForm.manualKz_nonempty WindForm.Number_manualKz
       WindForm.manualKz].
  rewrite (Math_floor_IZR 3). decide_cmp. reflexivity.
Qed.

Lemma manual_Kz_makes_pressure_uniform_witness :
  let form := Vary.withManualKz WindForm.initialForm 1 in
  exists d : WindForm.Diagram,
    WindForm.isValid form = true /\
    form.(WindForm.useManualKz) = true /\
    WindForm.diagram (WindForm.computeResults form) = Some d /\
    Wind.velocityPressurePsf (WindForm.wallResult form)
    = Wind.velocityPressurePsf (WindForm.topResult form).
Proof.
  cbv zeta.
  pose proof isValid_initialForm_manualKz as Hvalid.
  pose proof (computeResults_diagram _ Hvalid) as Hd.
  assert (Huse : (Vary.withManualKz WindForm.initialForm 1).(WindForm.useManualKz)
                 = true) by reflexivity.
  eexists. split; [exact Hvalid|]. split; [exact Huse|]. split; [exact Hd|].
  exact (proj1 (proj2 (manual_Kz_makes_pressure_uniform _ _ Hvalid Huse Hd))).
Defined.

Lemma getGcpiValues_symmetric (buildingEnclosure : WindForm.BuildingEnclosure) :
  0 < (WindForm.getGcpiValues buildingEnclosure).(Wind.positive) /\
  (WindForm.getGcpiValues buildingEnclosure).(Wind.negative)
  = - (WindForm.getGcpiValues buildingEnclosure).(Wind.positive).
Proof. destruct buildingEnclosure; cbn; split; lra. Qed.

Lemma composedPair_symmetric (q q_i G Cp : R) (gcpi : Wind.Gcpi) :
  gcpi.(Wind.negative) = - gcpi.(Wind.positive) ->
  Spec.composedPair q q_i G Cp gcpi
  = WindForm.psfPair (q * G * Cp - q_i * gcpi.(Wind.positive))
                     (q * G * Cp + q_i * gcpi.(Wind.positive)).
Proof.
  intros Hneg. unfold Spec.composedPair, Spec.composePressure.
  rewrite Hneg. apply psfPair_eq; ring.
Qed.

(** X15.  Every wall and roof pressure pair of a valid form is symmetric about
    the external pressure: it is (external - internal, external +
    internal) with an internal pressure that is not negative, so the first
    number of a pair is never the greater one. *)
Theorem pressure_pairs_ordered :
  forall form : WindForm.FormState,
    WindForm.isValid form = true ->
    let results := WindForm.computeResults form in
    forall item : WindForm.Item,
      In item (WindForm.wallPressures results
               ++ WindForm.roofPressuresGrouped results) ->
      exists external internal : R,
        0 <= internal /\
        item.(WindForm.value)
        = WindForm.psfPair (external - internal) (external + internal).
Proof.
  intros form Hvalid results item Hin.
  apply (in_map WindForm.value) in Hin. rewrite map_app in Hin.
  unfold results in Hin.
  rewrite computeResults_wall_values, computeResults_roof_values in Hin
    by exact Hvalid.
  destruct (getGcpiValues_symmetric form.(WindForm.buildingEnclosure))
    as [Hpos Hneg].
  pose proof (qzAt_nonneg form
                ((Math_floor form.(WindForm.numStories) - 0.5)
                 * form.(WindForm.storyHeightFt)) Hvalid) as Hqi.
  rewrite <- topResult_qzAt in Hqi.
  destruct (isValid_facts form Hvalid) as (_ & _ & _ & Hkd & _).
  apply in_app_or in Hin. destruct Hin as [Hin | Hin];
    apply in_map_iff in Hin; destruct Hin as (Cp & <- & _);
    cbv zeta; rewrite composedPair_symmetric by exact Hneg;
    eexists; eexists; (split; [|reflexivity]).
  - apply Rmult_le_pos; lra.
  - apply Rmult_le_pos; [apply Rmult_le_pos|]; lra.
Qed.

Lemma pressure_pairs_ordered_witness :
  WindForm.isValid WindForm.initialForm = true /\
  forall item : WindForm.Item,
    In item (WindForm.wallPressures (WindForm.computeResults WindForm.initialForm)
             ++ WindForm.roofPressuresGrouped
                  (WindForm.computeResults WindForm.initialForm)) ->
    exists external internal : R,
      0 <= internal /\
      item.(WindForm.value)
      = WindForm.psfPair (external - internal) (external + internal).
Proof.
  pose proof isValid_initialForm as Hvalid.
  split; [exact Hvalid|].
  exact (pressure_pairs_ordered WindForm.initialForm Hvalid).
Defined.

(* ================================================================== *)
(** * The roof diagram *)
(* ================================================================== *)

(** Drawing stops at the first read of [roofHeight], for a flat roof
    after the zone labels and for a sloped roof after the building walls. *)
Lemma drawDiagram_throws (props : RoofDiagram.RoofDiagramProps) (width : R) :
  exists drawn : list RoofDiagram.CanvasCall,
    RoofDiagram.drawDiagram props width []
    = (inr (RoofDiagram.ReferenceError "roofHeight"), drawn).
Proof.
  destruct props as [roofType V exposure heightFt qz roofL roofB].
  destruct roofType; eexists; reflexivity.
Qed.

(** X16.  [handleRenderImage] never reaches [setDataUrl]: without a container
    or without a 2d context it returns early, and otherwise its promise
    is rejected with a ReferenceError for [roofHeight]; the state
    [dataUrl] is what it was before, so the image is never shown. *)
Theorem handleRenderImage_never_sets_dataUrl :
  forall (props : RoofDiagram.RoofDiagramProps) (container : option R)
         (hasContext : bool),
    (forall canvas : RoofDiagram.Canvas,
        RoofDiagram.handleRenderImage props container hasContext
        <> RoofDiagram.DataUrlSet canvas) /\
    (forall before : option RoofDiagram.Canvas,
        RoofDiagram.dataUrlAfter before
          (RoofDiagram.handleRenderImage props container hasContext)
        = before) /\
    RoofDiagram.handleRenderImage props None hasContext = RoofDiagram.Returned /\
    RoofDiagram.handleRenderImage props container false = RoofDiagram.Returned /\
    forall clientWidth : R,
      exists canvas : RoofDiagram.Canvas,
        RoofDiagram.handleRenderImage props (Some clientWidth) true
        = RoofDiagram.Rejected (RoofDiagram.ReferenceError "roofHeight") canvas.
Proof.
  intros props container hasContext.
  assert (Hcases :
            RoofDiagram.handleRenderImage props container hasContext
            = RoofDiagram.Returned \/
            exists canvas,
              RoofDiagram.handleRenderImage props container hasContext
              = RoofDiagram.Rejected (RoofDiagram.ReferenceError "roofHeight")
                  canvas).
  { unfold RoofDiagram.handleRenderImage.
    destruct container as [clientWidth|]; [|left; reflexivity].
    destruct hasContext; [|left; reflexivity]. right. cbn [negb].
    destruct (drawDiagram_throws props
                (Math_max 360
                   (RoofDiagram.Math_ceil (RoofDiagram.orElse clientWidth 480))))
      as [drawn ->].
    eexists. reflexivity. }
  split; [|split; [|split; [|split]]].
  - intros canvas Heq. destruct Hcases as [H | [c H]];
      rewrite H in Heq; discriminate Heq.
  - intros before. destruct Hcases as [-> | [c ->]]; reflexivity.
  - reflexivity.
  - unfold RoofDiagram.handleRenderImage.
    destruct container; reflexivity.
  - intros clientWidth. unfold RoofDiagram.handleRenderImage. cbn [negb].
    destruct (drawDiagram_throws props
                (Math_max 360
                   (RoofDiagram.Math_ceil (RoofDiagram.orElse clientWidth 480))))
      as [drawn ->].
    eexists. reflexivity.
Qed.

Lemma Math_ceil_bounds (x : R) :
  x <= RoofDiagram.Math_ceil x < x + 1.
Proof.
  unfold RoofDiagram.Math_ceil. rewrite opp_IZR.
  destruct (base_Int_part (- x)) as [Hlo Hhi]. lra.
Qed.

(** The least whole number at or above [x]. *)
Lemma Math_ceil_least (x : R) (px : Z) :
  x <= IZR px -> RoofDiagram.Math_ceil x <= IZR px.
Proof.
  intros Hle. destruct (Math_ceil_bounds x) as [_ Hhi].
  unfold RoofDiagram.Math_ceil in *.
  apply IZR_le.
  assert (Hlt : IZR (- Int_part (- x)) < IZR (px + 1))
    by (rewrite plus_IZR; lra).
  apply lt_IZR in Hlt. lia.
Qed.

Lemma Math_ceil_IZR (px : Z) : RoofDiagram.Math_ceil (IZR px) = IZR px.
Proof.
  unfold RoofDiagram.Math_ceil. rewrite <- opp_IZR.
  rewrite (Int_part_unique (IZR (- px)) (- px)) by lra.
  rewrite Z.opp_involutive. reflexivity.
Qed.

(** X17.  The width of the canvas.  A container whose [clientWidth] is 0
    counts as 480 px wide: the canvas is 480 px wide.  For any other
    [clientWidth] the canvas width is the least whole number of pixels
    that is at least 360 and at least [clientWidth].  The height is
    172 px for a flat roof and 212 px for a sloped one. *)
Theorem canvas_size :
  forall (props : RoofDiagram.RoofDiagramProps) (clientWidth : R),
    exists (e : RoofDiagram.Exception) (canvas : RoofDiagram.Canvas),
      RoofDiagram.handleRenderImage props (Some clientWidth) true
      = RoofDiagram.Rejected e canvas /\
      (clientWidth = 0 -> canvas.(RoofDiagram.width) = 480) /\
      (clientWidth <> 0 ->
       (exists px : Z, canvas.(RoofDiagram.width) = IZR px) /\
       360 <= canvas.(RoofDiagram.width) /\
       clientWidth <= canvas.(RoofDiagram.width) /\
       forall px : Z,
         360 <= IZR px -> clientWidth <= IZR px ->
         canvas.(RoofDiagram.width) <= IZR px) /\
      canvas.(RoofDiagram.height)
      = match props.(RoofDiagram.roofType) with
        | WindForm.flat => 172
        | WindForm.sloped => 212
        end.
Proof.
  intros props clientWidth.
  unfold RoofDiagram.handleRenderImage. cbn [negb].
  set (width := Math_max 360
                  (RoofDiagram.Math_ceil (RoofDiagram.orElse clientWidth 480))).
  destruct (drawDiagram_throws props width) as [drawn ->].
  eexists. eexists. split; [reflexivity|].
  cbn [RoofDiagram.width RoofDiagram.height].
  split; [|split].
  - intros ->. unfold width, RoofDiagram.orElse.
    destruct Req_dec_T as [_ | Hne]; [|contradiction Hne; reflexivity].
    rewrite (Math_ceil_IZR 480). unfold Math_max, Rmax.
    destruct Rle_dec; lra.
  - intros Hne.
    assert (Hor : RoofDiagram.orElse clientWidth 480 = clientWidth).
    { unfold RoofDiagram.orElse.
      destruct Req_dec_T as [Heq | _]; [contradiction (Hne Heq) | reflexivity]. }
    unfold width. rewrite Hor.
    pose proof (Math_ceil_bounds clientWidth) as [Hlo _].
    split; [|split; [|split]].
    + unfold Math_max, Rmax, RoofDiagram.Math_ceil. destruct Rle_dec.
      * eexists. reflexivity.
      * exists 360%Z. reflexivity.
    + apply Rmax_l.
    + apply Rle_trans with (RoofDiagram.Math_ceil clientWidth);
        [exact Hlo | apply Rmax_r].
    + intros px H360 Hcw. unfold Math_max.
      apply Rmax_lub; [exact H360 | apply Math_ceil_least; exact Hcw].
  - unfold RoofDiagram.layout. cbn [RoofDiagram.canvasHeight].
    destruct (RoofDiagram.roofType props); lra.
Qed.

Lemma layout_scale_pos (props : RoofDiagram.RoofDiagramProps) (width : R) :
  0 < props.(RoofDiagram.roofLength) -> 0 < props.(RoofDiagram.roofWidth) ->
  0 < (RoofDiagram.layout props width).(RoofDiagram.scale).
Proof.
  intros HL HB. unfold RoofDiagram.layout. cbn [RoofDiagram.scale].
  unfold Math_min. apply Rmin_glb_lt.
  - apply Rdiv_lt_0_compat; lra.
  - apply Rdiv_lt_0_compat; [destruct (RoofDiagram.roofType props); lra | lra].
Qed.

(** X18.  For positive plan dimensions the scaled roof outline keeps the
    proportion L : B, fits into the 200 px wide diagram box (20 px high
    for a flat roof, 60 px for a sloped one), touches the box in at least
    one direction and is centred in it. *)
Theorem roof_outline_fits_diagram_box :
  forall (props : RoofDiagram.RoofDiagramProps) (width : R),
    0 < props.(RoofDiagram.roofLength) ->
    0 < props.(RoofDiagram.roofWidth) ->
    let g := RoofDiagram.layout props width in
    let L := props.(RoofDiagram.roofLength) in
    let B := props.(RoofDiagram.roofWidth) in
    g.(RoofDiagram.scaledL) * B = g.(RoofDiagram.scaledB) * L /\
    0 < g.(RoofDiagram.scaledL) <= g.(RoofDiagram.diagramWidth) /\
    0 < g.(RoofDiagram.scaledB) <= g.(RoofDiagram.diagramHeight) /\
    (g.(RoofDiagram.scaledL) = g.(RoofDiagram.diagramWidth) \/
     g.(RoofDiagram.scaledB) = g.(RoofDiagram.diagramHeight)) /\
    g.(RoofDiagram.roofStartX) - g.(RoofDiagram.startX)
    = g.(RoofDiagram.startX) + g.(RoofDiagram.diagramWidth)
      - (g.(RoofDiagram.roofStartX) + g.(RoofDiagram.scaledL)) /\
    g.(RoofDiagram.startX) <= g.(RoofDiagram.roofStartX) /\
    g.(RoofDiagram.startY) <= g.(RoofDiagram.roofStartY).
Proof.
  intros props width HL HB g L B.
  pose proof (layout_scale_pos props width HL HB) as Hs.
  unfold g in *. unfold RoofDiagram.layout in *.
  cbn [RoofDiagram.scale RoofDiagram.scaledL RoofDiagram.scaledB
       RoofDiagram.diagramWidth RoofDiagram.diagramHeight
       RoofDiagram.roofStartX RoofDiagram.roofStartY
       RoofDiagram.startX RoofDiagram.startY] in *.
  fold L B in HL, HB, Hs |- *.
  set (dH := match RoofDiagram.roofType props with
             | WindForm.flat => 20
             | WindForm.sloped => 60
             end) in *.
  assert (HdH : 0 < dH) by (unfold dH; destruct (RoofDiagram.roofType props); lra).
  assert (Ha : L * (200 / L) = 200) by (field; lra).
  assert (Hb : B * (dH / B) = dH) by (field; lra).
  unfold Math_min, Rmin in *.
  destruct (Rle_dec (200 / L) (dH / B)) as [Hle | Hgt].
  - set (a := 200 / L) in *. set (b := dH / B) in *.
    assert (HBa : B * a <= dH) by nra.
    assert (HLa : 0 < L * a) by nra.
    assert (HBa' : 0 < B * a) by nra.
    repeat split; try lra; try nra.
  - set (a := 200 / L) in *. set (b := dH / B) in *.
    assert (HLb : L * b <= 200) by nra.
    assert (HLb' : 0 < L * b) by nra.
    assert (HBb : 0 < B * b) by nra.
    repeat split; try lra; try nra.
Qed.

Lemma roof_outline_fits_diagram_box_witness :
  let props :=
    {| RoofDiagram.roofType := WindForm.flat;
       RoofDiagram.windSpeedMph := 115;
       RoofDiagram.exposure := "B";
       RoofDiagram.heightFt := 30;
       RoofDiagram.velocityPressurePsf := 22.514;
       RoofDiagram.roofLength := 100;
       RoofDiagram.roofWidth := 50 |} in
  0 < props.(RoofDiagram.roofLength) /\
  0 < props.(RoofDiagram.roofWidth) /\
  (RoofDiagram.layout props 480).(RoofDiagram.scaledL) * 50
  = (RoofDiagram.layout props 480).(RoofDiagram.scaledB) * 100.
Proof.
  cbv zeta.
  set (props := {| RoofDiagram.roofType := WindForm.flat;
                   RoofDiagram.windSpeedMph := 115;
                   RoofDiagram.exposure := "B";
                   RoofDiagram.heightFt := 30;
                   RoofDiagram.velocityPressurePsf := 22.514;
                   RoofDiagram.roofLength := 100;
                   RoofDiagram.roofWidth := 50 |}).
  assert (HL : 0 < props.(RoofDiagram.roofLength)) by (cbn; lra).
  assert (HB : 0 < props.(RoofDiagram.roofWidth)) by (cbn; lra).
  split; [exact HL|]. split; [exact HB|].
  exact (proj1 (roof_outline_fits_diagram_box props 480 HL HB)).
Defined.

Section ZoneLabelsBinary64.
Import PrimFloat.
Local Open Scope float_scope.
#[local] Set Warnings "-inexact-float".

(** X19.  The zone labels of the diagram need not show the widths of the
    roof pressure list.  The diagram computes its zone widths from the
    scaled outline and divides them by the scale again, which in binary64
    does not always give back the width that [calculateRoofPressures]
    formats: there is a flat roof within the ranges of the form,
    L = B = 10.5 ft, whose middle zone the pressure list labels 9.4ft
    (from 10.5 - 1.05 = 9.449999999999999) and the diagram 9.5ft (from
    18 / 1.9047619047619047 = 9.450000000000001).  For the roof of the
    initial form, L = 100 and B = 50, the two agree. *)
Theorem zone_labels_of_diagram_and_engine_can_differ :
  (exists roofLength roofWidth : float,
      (0 <? roofLength) && (roofLength <=? 1000) = true /\
      (0 <? roofWidth) && (roofWidth <=? 1000) = true /\
      Binary64.roofZoneLabels roofLength roofWidth
      = [Some "Roof Zone 1 (windward edge, 1.1ft)"%string;
         Some "Roof Zone 2 (middle, 9.4ft)"%string;
         Some "Roof Zone 3 (leeward edge, 1.1ft)"%string] /\
      Binary64.diagramZoneLabels roofLength roofWidth
      = [Some "Zone 1 (1.1ft)"%string;
         Some "Zone 2 (9.5ft)"%string;
         Some "Zone 3 (1.1ft)"%string]) /\
  Binary64.roofZoneLabels 100 50
  = [Some "Roof Zone 1 (windward edge, 10.0ft)"%string;
     Some "Roof Zone 2 (middle, 40.0ft)"%string;
     Some "Roof Zone 3 (leeward edge, 10.0ft)"%string] /\
  Binary64.diagramZoneLabels 100 50
  = [Some "Zone 1 (10.0ft)"%string;
     Some "Zone 2 (40.0ft)"%string;
     Some "Zone 3 (10.0ft)"%string].
Proof.
  split; [exists 10.5, 10.5|]; repeat split; vm_compute; reflexivity.
Qed.

End ZoneLabelsBinary64.

(* ================================================================== *)
(** * The result cards *)
(* ================================================================== *)

Lemma arrayGet_INR {A : Type} (items : list A) (k : nat) :
  ResultsCard.arrayGet items (INR k) = nth_error items k.
Proof.
  unfold ResultsCard.arrayGet.
  rewrite Int_part_INR, <- INR_IZR_INZ, Nat2Z.id.
  destruct Req_dec_T as [_ | Hne]; [|contradiction Hne; reflexivity].
  destruct Rle_dec as [_ | Hneg]; [reflexivity|].
  contradiction Hneg. apply pos_INR.
Qed.

Lemma count_INR (n : nat) : Z.to_nat (Int_part (INR n)) = n.
Proof. rewrite Int_part_INR. apply Nat2Z.id. Qed.

(** The row of story [n - i], the [i]-th from the top. *)
Lemma storyRows_in_bounds (d : WindForm.Diagram) (n : nat) :
  d.(WindForm.diagramNumStories) = INR n ->
  (n <= length d.(WindForm.perStoryPressuresPsf))%nat ->
  forall count start : nat,
    (start + count <= n)%nat ->
    ResultsCard.storyRows d (seq start count)
    = inl (map (fun i =>
                  {| ResultsCard.storyNum := INR (n - i);
                     ResultsCard.pressureText :=
                       [Fixed (nth (n - i - 1)
                                 d.(WindForm.perStoryPressuresPsf) 0) 1;
                        Text " psf"] |})
               (seq start count)).
Proof.
  intros Hn Hlen count.
  induction count as [|count IH]; intros start Hle; [reflexivity|].
  cbn [seq ResultsCard.storyRows map]. rewrite Hn.
  replace (INR n - INR start - 1) with (INR (n - start - 1))
    by (rewrite !minus_INR by lia; simpl; lra).
  rewrite arrayGet_INR.
  rewrite (nth_error_nth' _ 0) by lia.
  rewrite IH by lia.
  rewrite <- minus_INR by lia. reflexivity.
Qed.

(** X20.  When the diagram has a whole number [n] of stories and at least [n]
    pressures, the card renders and its elevation lists the stories from
    the top down, each with the pressure of its own story. *)
Theorem ResultsCard_elevation_top_down :
  forall (props : ResultsCard.ResultsCardProps) (d : WindForm.Diagram)
         (n : nat),
    props.(ResultsCard.diagram) = Some d ->
    d.(WindForm.diagramNumStories) = INR n ->
    (n <= length d.(WindForm.perStoryPressuresPsf))%nat ->
    exists card : ResultsCard.Card,
      ResultsCard.ResultsCard props = inl card /\
      card.(ResultsCard.heading) = props.(ResultsCard.title) /\
      card.(ResultsCard.elevation)
      = Some (map (fun i =>
                     {| ResultsCard.storyNum := INR (n - i);
                        ResultsCard.pressureText :=
                          [Fixed (nth (n - i - 1)
                                    d.(WindForm.perStoryPressuresPsf) 0) 1;
                           Text " psf"] |})
                  (seq 0 n)).
Proof.
  intros props d n Hd Hn Hlen.
  unfold ResultsCard.ResultsCard. rewrite Hd, Hn, count_INR.
  rewrite (storyRows_in_bounds d n Hn Hlen n 0) by lia.
  eexists. repeat split.
Qed.

Lemma ResultsCard_elevation_top_down_witness :
  let d := {| WindForm.diagramNumStories := INR 2;
              WindForm.diagramStoryHeightFt := 10;
              WindForm.perStoryPressuresPsf := [19.467; 22.514] |} in
  let props := {| ResultsCard.title := "Building Parameters";
                  ResultsCard.items := [];
                  ResultsCard.diagram := Some d;
                  ResultsCard.showData := Some false |} in
  exists card : ResultsCard.Card,
    ResultsCard.ResultsCard props = inl card /\
    card.(ResultsCard.elevation)
    = Some [ {| ResultsCard.storyNum := INR 2;
                ResultsCard.pressureText := [Fixed 22.514 1; Text " psf"] |};
             {| ResultsCard.storyNum := INR 1;
                ResultsCard.pressureText := [Fixed 19.467 1; Text " psf"] |} ].
Proof.
  cbv zeta.
  set (d := {| WindForm.diagramNumStories := INR 2;
               WindForm.diagramStoryHeightFt := 10;
               WindForm.perStoryPressuresPsf := [19.467; 22.514] |}).
  set (props := {| ResultsCard.title := "Building Parameters";
                   ResultsCard.items := [];
                   ResultsCard.diagram := Some d;
                   ResultsCard.showData := Some false |}).
  assert (Hd : props.(ResultsCard.diagram) = Some d) by reflexivity.
  assert (Hn : d.(WindForm.diagramNumStories) = INR 2) by reflexivity.
  assert (Hlen : (2 <= length d.(WindForm.perStoryPressuresPsf))%nat)
    by (cbn; lia).
  destruct (ResultsCard_elevation_top_down props d 2 Hd Hn Hlen)
    as (card & Hcard & _ & Helev).
  exists card. split; [exact Hcard | exact Helev].
Defined.

Lemma Int_part_minus_1 (x : R) : Int_part (x - 1) = (Int_part x - 1)%Z.
Proof.
  apply Int_part_unique. rewrite minus_IZR.
  destruct (base_Int_part x) as [Hlo Hhi]. lra.
Qed.

(** X21.  When the diagram claims more stories than it has pressures, the card
    throws a TypeError on its first row instead of rendering. *)
Theorem ResultsCard_throws_on_missing_pressure :
  forall (props : ResultsCard.ResultsCardProps) (d : WindForm.Diagram),
    props.(ResultsCard.diagram) = Some d ->
    (length d.(WindForm.perStoryPressuresPsf)
     < Z.to_nat (Int_part d.(WindForm.diagramNumStories)))%nat ->
    ResultsCard.ResultsCard props = inr (ResultsCard.TypeError "toFixed").
Proof.
  intros props d Hd Hlen.
  unfold ResultsCard.ResultsCard. rewrite Hd.
  destruct (Z.to_nat (Int_part (WindForm.diagramNumStories d))) as [|count] eqn:Hc;
    [lia|].
  cbn [seq ResultsCard.storyRows INR].
  replace (WindForm.diagramNumStories d - 0 - 1)
    with (WindForm.diagramNumStories d - 1) by lra.
  assert (Hnone : ResultsCard.arrayGet d.(WindForm.perStoryPressuresPsf)
                    (WindForm.diagramNumStories d - 1) = None).
  { unfold ResultsCard.arrayGet.
    destruct Req_dec_T; [|reflexivity]. destruct Rle_dec; [|reflexivity].
    apply nth_error_None. rewrite Int_part_minus_1. lia. }
  rewrite Hnone. reflexivity.
Qed.

Lemma ResultsCard_throws_on_missing_pressure_witness :
  let d := {| WindForm.diagramNumStories := 3;
              WindForm.diagramStoryHeightFt := 10;
              WindForm.perStoryPressuresPsf := [19.467; 22.514] |} in
  let props := {| ResultsCard.title := "Building Parameters";
                  ResultsCard.items := [];
                  ResultsCard.diagram := Some d;
                  ResultsCard.showData := None |} in
  (length d.(WindForm.perStoryPressuresPsf)
   < Z.to_nat (Int_part d.(WindForm.diagramNumStories)))%nat /\
  ResultsCard.ResultsCard props = inr (ResultsCard.TypeError "toFixed").
Proof.
  cbv zeta.
  set (d := {| WindForm.diagramNumStories := 3;
               WindForm.diagramStoryHeightFt := 10;
               WindForm.perStoryPressuresPsf := [19.467; 22.514] |}).
  set (props := {| ResultsCard.title := "Building Parameters";
                   ResultsCard.items := [];
                   ResultsCard.diagram := Some d;
                   ResultsCard.showData := None |}).
  assert (Hd : props.(ResultsCard.diagram) = Some d) by reflexivity.
  assert (Hlen : (length d.(WindForm.perStoryPressuresPsf)
                  < Z.to_nat (Int_part d.(WindForm.diagramNumStories)))%nat).
  { cbn [d WindForm.perStoryPressuresPsf WindForm.diagramNumStories length].
    rewrite (Int_part_unique 3 3) by lra. lia. }
  split; [exact Hlen|].
  exact (ResultsCard_throws_on_missing_pressure props d Hd Hlen).
Defined.

(* ================================================================== *)
(** * Tabs and the error boundary *)
(* ================================================================== *)

Lemma buttonsFrom_highlighted {Content : Type}
    (items : list (Tabs.TabItem Content)) (start last : nat) :
  map Tabs.highlighted (Tabs.buttonsFrom start items (INR last))
  = map (fun idx => Nat.eqb last idx) (seq start (length items)).
Proof.
  revert start. induction items as [|it items IH]; intros start; [reflexivity|].
  cbn [Tabs.buttonsFrom map length seq Tabs.highlighted]. rewrite IH. f_equal.
  destruct Req_dec_T as [Heq | Hne].
  - apply INR_eq in Heq. subst. symmetry. apply Nat.eqb_refl.
  - symmetry. apply Nat.eqb_neq. intros ->. contradiction Hne. reflexivity.
Qed.

Lemma buttonsFrom_labels {Content : Type}
    (items : list (Tabs.TabItem Content)) (start : nat) (active : R) :
  map Tabs.buttonLabel (Tabs.buttonsFrom start items active)
  = map Tabs.label items.
Proof.
  revert start. induction items as [|it items IH]; intros start; [reflexivity|].
  cbn [Tabs.buttonsFrom map Tabs.buttonLabel]. rewrite IH. reflexivity.
Qed.

(** X22.  After any series of clicks that ends on an existing tab, the content
    shown is the one of that tab and its button is the only highlighted
    one, whatever the initial index was. *)
Theorem Tabs_show_last_clicked :
  forall (Content : Type) (props : Tabs.TabsProps Content)
         (clicks : list nat) (last : nat) (item : Tabs.TabItem Content),
    nth_error props.(Tabs.items) last = Some item ->
    let view := Tabs.render props (Tabs.afterClicks props (clicks ++ [last])) in
    view.(Tabs.shown) = Some item.(Tabs.content) /\
    map Tabs.buttonLabel view.(Tabs.buttons)
      = map Tabs.label props.(Tabs.items) /\
    map Tabs.highlighted view.(Tabs.buttons)
      = map (fun idx => Nat.eqb last idx)
            (seq 0 (length props.(Tabs.items))).
Proof.
  intros Content props clicks last item Hitem view.
  unfold view, Tabs.afterClicks. rewrite fold_left_app.
  cbn [fold_left]. unfold Tabs.onClick, Tabs.render.
  cbn [Tabs.shown Tabs.buttons].
  rewrite arrayGet_INR, Hitem. split; [reflexivity|]. split.
  - apply buttonsFrom_labels.
  - apply buttonsFrom_highlighted.
Qed.

Lemma Tabs_show_last_clicked_witness :
  let props :=
    {| Tabs.items := [ {| Tabs.label := "Wind"; Tabs.content := 1%nat |};
                       {| Tabs.label := "About"; Tabs.content := 2%nat |} ];
       Tabs.initialIndex := Some 7 |} in
  let view := Tabs.render props (Tabs.afterClicks props ([0%nat] ++ [1%nat])) in
  nth_error props.(Tabs.items) 1
    = Some {| Tabs.label := "About"; Tabs.content := 2%nat |} /\
  view.(Tabs.shown) = Some 2%nat /\
  map Tabs.highlighted view.(Tabs.buttons) = [false; true].
Proof.
  cbv zeta.
  set (props :=
         {| Tabs.items := [ {| Tabs.label := "Wind"; Tabs.content := 1%nat |};
                            {| Tabs.label := "About"; Tabs.content := 2%nat |} ];
            Tabs.initialIndex := Some 7 |}).
  assert (Hitem : nth_error props.(Tabs.items) 1
                  = Some {| Tabs.label := "About"; Tabs.content := 2%nat |})
    by reflexivity.
  destruct (Tabs_show_last_clicked nat props [0%nat] 1%nat _ Hitem)
    as (Hshown & _ & Hhigh).
  split; [exact Hitem|]. split; [exact Hshown | exact Hhigh].
Defined.

Lemma afterErrors_last {Err : Type} (errors : list Err) (e : Err) :
  ErrorBoundary.afterErrors (errors ++ [e])
  = ErrorBoundary.getDerivedStateFromError e.
Proof.
  unfold ErrorBoundary.afterErrors. rewrite fold_left_app. reflexivity.
Qed.

(** X23.  The boundary has no way back: before any error it renders its
    children; once errors have been reported it renders the fallback of
    the latest error (or the built-in message when there is no fallback)
    and never the children again. *)
Theorem ErrorBoundary_keeps_showing_fallback :
  forall (Node Err : Type) (props : ErrorBoundary.ErrorBoundaryProps Node Err)
         (errors : list Err),
    ErrorBoundary.render props (ErrorBoundary.afterErrors errors)
    = match rev errors with
      | [] => ErrorBoundary.Children props.(ErrorBoundary.children)
      | latest :: _ =>
          match props.(ErrorBoundary.fallback) with
          | Some f => ErrorBoundary.Fallback (f (Some latest))
          | None => ErrorBoundary.SomethingWentWrong
          end
      end.
Proof.
  intros Node Err props errors.
  destruct errors as [|e errors] using rev_ind; [reflexivity|].
  rewrite afterErrors_last, rev_app_distr. reflexivity.
Qed.

(* ================================================================== *)
(** * What the form shows *)
(* ================================================================== *)

Lemma calculateKz_unfold (exposure : Wind.ExposureCategory) (heightFt : R) :
  WindFormView.calculateKz exposure heightFt
  = Spec.round3
      (2.01 * Rpower (Spec.clamp heightFt 15 500 / Wind.getZg exposure)
                (2 / Wind.getAlpha exposure)).
Proof.
  rewrite <- getKz_unfold.
  unfold WindFormView.calculateKz, Wind.getKz, Wind.roundTo.
  rewrite Math_pow_10_3.
  replace (WindFormView.getAlpha exposure) with (Wind.getAlpha exposure)
    by (destruct exposure; reflexivity).
  replace (WindFormView.getZg exposure) with (Wind.getZg exposure)
    by (destruct exposure; reflexivity).
  reflexivity.
Qed.

(** X24.  The Kz formula of WindForm.tsx, which rounds with
    [Math.round(kz * 1000) / 1000] and has its own copies of the alpha and
    zg tables, and [getKz] of wind.ts, which rounds with [roundTo(kz, 3)],
    are the same function. *)
Theorem calculateKz_agrees_with_getKz :
  forall (exposure : Wind.ExposureCategory) (heightFt : R),
    WindFormView.calculateKz exposure heightFt = Wind.getKz exposure heightFt.
Proof.
  intros exposure heightFt.
  rewrite calculateKz_unfold, getKz_unfold. reflexivity.
Qed.

(** X25.  The field "Kz (calculated)" of a valid form shows the Kz of the full
    building height [n * h], whether or not a manual Kz is in use; no
    story is computed with a greater automatic Kz.  An invalid form shows
    three dashes. *)
Theorem kzField_shows_roof_height_Kz :
  forall form : WindForm.FormState,
    (WindForm.isValid form = false -> WindFormView.kzField form = [Text "---"]) /\
    (WindForm.isValid form = true ->
     let shownKz :=
       Wind.getKz form.(WindForm.exposure)
         (Math_floor form.(WindForm.numStories) * form.(WindForm.storyHeightFt)) in
     WindFormView.kzField form = [Fixed shownKz 3] /\
     forall i : nat,
       (i <= Z.to_nat (Int_part form.(WindForm.numStories)))%nat ->
       Wind.getKz form.(WindForm.exposure)
         ((INR i - 0.5) * form.(WindForm.storyHeightFt))
       <= shownKz).
Proof.
  intros form. unfold WindFormView.kzField. split.
  - intros ->. reflexivity.
  - intros Hvalid. rewrite Hvalid, calculateKz_unfold, <- getKz_unfold.
    split; [reflexivity|].
    intros i Hi. apply getKz_monotone.
    destruct (isValid_facts form Hvalid) as (_ & Hfloor & Hsh & _).
    rewrite <- (floor_count form.(WindForm.numStories)) by lra.
    apply le_INR in Hi.
    set (n := INR (Z.to_nat (Int_part (WindForm.numStories form)))) in *.
    nra.
Qed.

Lemma kzField_shows_roof_height_Kz_witness :
  WindForm.isValid WindForm.initialForm = true /\
  WindFormView.kzField WindForm.initialForm
  = [Fixed (Wind.getKz Wind.B (Math_floor 3 * 10)) 3].
Proof.
  pose proof isValid_initialForm as Hvalid.
  split; [exact Hvalid|].
  exact (proj1 (proj2 (kzField_shows_roof_height_Kz WindForm.initialForm) Hvalid)).
Defined.

(** X26.  The lookup of "Top story qz (psf)" in the summary items of a valid
    form finds the roof reference pressure: that is the
    [velocityPressurePsf] the roof diagram is given. *)
Theorem velocityPressureProp_is_top_story_qz :
  forall form : WindForm.FormState,
    WindForm.isValid form = true ->
    WindFormView.velocityPressureProp
      (WindForm.computeResults form).(WindForm.summaryItems)
    = WindForm.NumberValue
        (Wind.velocityPressurePsf (WindForm.topResult form)).
Proof.
  intros form Hvalid. unfold WindForm.computeResults. rewrite Hvalid.
  cbn [negb WindForm.summaryItems].
  unfold WindFormView.velocityPressureProp.
  match goal with
  | |- context [find ?f ?l] =>
      assert (Hfind :
                find f l
                = Some {| WindForm.label := [Text "Top story qz (psf)"];
                          WindForm.value :=
                            WindForm.NumberValue
                              (Wind.velocityPressurePsf
                                 (WindForm.topResult form)) |})
        by reflexivity;
      rewrite Hfind
  end.
  cbn [WindForm.value]. f_equal.
  unfold RoofDiagram.orElse. destruct Req_dec_T as [-> |]; reflexivity.
Qed.

Lemma velocityPressureProp_is_top_story_qz_witness :
  WindForm.isValid WindForm.initialForm = true /\
  WindFormView.velocityPressureProp
    (WindForm.computeResults WindForm.initialForm).(WindForm.summaryItems)
  = WindForm.NumberValue
      (Wind.velocityPressurePsf (WindForm.topResult WindForm.initialForm)).
Proof.
  pose proof isValid_initialForm as Hvalid.
  split; [exact Hvalid|].
  exact (velocityPressureProp_is_top_story_qz WindForm.initialForm Hvalid).
Defined.

(** X27.  An invalid form shows no result card.  A valid form shows four, and
    none of them throws: the elevation of the first one has a pressure
    for every story. *)
Theorem resultCards_render :
  forall form : WindForm.FormState,
    (WindForm.isValid form = false -> WindFormView.resultCards form = []) /\
    (WindForm.isValid form = true ->
     map ResultsCard.title (WindFormView.resultCards form)
       = ["Building Parameters"; "Story Pressures"; "Wall Pressures";
          "Roof Pressures"]%string /\
     forall props : ResultsCard.ResultsCardProps,
       In props (WindFormView.resultCards form) ->
       exists card : ResultsCard.Card, ResultsCard.ResultsCard props = inl card).
Proof.
  intros form. unfold WindFormView.resultCards. split.
  - intros ->. reflexivity.
  - intros Hvalid. rewrite Hvalid.
    pose proof (computeResults_diagram form Hvalid) as Hd.
    destruct (WindForm.diagram (WindForm.computeResults form)) as [d|];
      [|discriminate Hd].
    injection Hd as Hd. split; [reflexivity|].
    intros props Hin.
    pose proof (story_count form Hvalid) as Hcount.
    destruct (isValid_facts form Hvalid) as (_ & Hfloor & _).
    cbn [In] in Hin.
    destruct Hin as [<- | [<- | [<- | [<- | []]]]];
      try (eexists; reflexivity).
    set (n := Z.to_nat (Int_part form.(WindForm.numStories))) in *.
    assert (Hn : d.(WindForm.diagramNumStories) = INR n).
    { rewrite Hd. cbn [WindForm.diagramNumStories].
      symmetry. apply floor_count. lra. }
    assert (Hlen : (n <= length d.(WindForm.perStoryPressuresPsf))%nat).
    { rewrite Hd. cbn [WindForm.perStoryPressuresPsf].
      rewrite length_map, length_seq. lia. }
    unfold ResultsCard.ResultsCard. cbn [ResultsCard.diagram].
    rewrite Hn, count_INR.
    rewrite (storyRows_in_bounds d n Hn Hlen n 0) by lia.
    eexists. reflexivity.
Qed.

Lemma resultCards_render_witness :
  WindForm.isValid WindForm.initialForm = true /\
  map ResultsCard.title (WindFormView.resultCards WindForm.initialForm)
  = ["Building Parameters"; "Story Pressures"; "Wall Pressures";
     "Roof Pressures"]%string.
Proof.
  pose proof isValid_initialForm as Hvalid.
  split; [exact Hvalid|].
  exact (proj1 (proj2 (resultCards_render WindForm.initialForm) Hvalid)).
Defined.
